(** * AskNour: the KYC / authentication core, embedded in Rocq

    A shallow embedding of the conversational authentication core of the
    AskNour chatbot:

    - [kyc_util.py]: the intent classifier, the field validators and the
      step-indexed registration / login dialogue ([handle_kyc]);
    - [auth_service.py]: registration, authentication, token issuance,
      verification and revocation over two MongoDB collections;
    - [auth_middleware.py]: the session snapshot and the role hierarchy.

    Conventions of the embedding.

    - Text is a Rocq [string] whose characters are read as ASCII code
      points; Python's [str] methods and the [re] character classes are
      embedded on that alphabet.  Literals that are not ASCII in the source
      appear UTF-8 encoded and are only ever compared for equality.
    - Python's [None] is [None]; a dict is a [gmap]; a MongoDB collection is
      the list of its documents in insertion order.
    - [cl.user_session] is the record [session]; the two collections of
      [AuthService] are the record [database].  Functions that read or write
      them take the state and return the new state next to their result.
    - What the environment decides during one turn (the clock, the bcrypt
      salt, the language model's reply, whether MongoDB answers) is an
      explicit argument.  The clock counts seconds and is read once per
      operation; MongoDB answers or fails for a whole turn.
    - PyJWT and bcrypt are idealised: a token is its payload together with
      the key that signed it, a hash is its salt together with the password
      it was made from. *)

From Stdlib Require Import ZArith NArith Ascii String Bool Lia.
From Stdlib Require Import HexadecimalString HexadecimalN.
From stdpp Require Import base tactics option list gmap strings sorting.

Local Open Scope Z_scope.
Local Open Scope list_scope.

(* ===================================================================== *)
(** * Python strings *)
(* ===================================================================== *)

Module Py.

Definition ord (c : ascii) : N := N_of_ascii c.

Definition between (lo hi : N) (c : ascii) : bool :=
  ((lo <=? ord c) && (ord c <=? hi))%N.

(** [str.isspace] on one ASCII character: TAB, LF, VT, FF, CR, the four
    information separators 0x1c-0x1f, and the blank. *)
Definition isspace (c : ascii) : bool := between 9 13 c || between 28 32 c.

Definition isupper (c : ascii) : bool := between 65 90 c.
Definition islower (c : ascii) : bool := between 97 122 c.
Definition isalpha (c : ascii) : bool := isupper c || islower c.
Definition isdigit (c : ascii) : bool := between 48 57 c.

Definition lower_char (c : ascii) : ascii :=
  if isupper c then ascii_of_N (ord c + 32) else c.
Definition upper_char (c : ascii) : ascii :=
  if islower c then ascii_of_N (ord c - 32) else c.

Fixpoint smap (f : ascii -> ascii) (s : string) : string :=
  match s with
  | EmptyString => EmptyString
  | String c s' => String (f c) (smap f s')
  end.

(** [s.lower()] and [s.upper()]. *)
Definition lower : string -> string := smap lower_char.
Definition upper : string -> string := smap upper_char.

Fixpoint lstrip (s : string) : string :=
  match s with
  | EmptyString => EmptyString
  | String c s' => if isspace c then lstrip s' else s
  end.

Fixpoint rstrip (s : string) : string :=
  match s with
  | EmptyString => EmptyString
  | String c s' =>
      match rstrip s' with
      | EmptyString => if isspace c then EmptyString else String c EmptyString
      | r => String c r
      end
  end.

(** [s.strip()]. *)
Definition strip (s : string) : string := rstrip (lstrip s).

(** [len(s)]. *)
Definition len (s : string) : Z := Z.of_nat (String.length s).

(** [any(p(c) for c in s)]. *)
Fixpoint any (p : ascii -> bool) (s : string) : bool :=
  match s with
  | EmptyString => false
  | String c s' => p c || any p s'
  end.

(** [needle in hay] on strings: substring containment. *)
Fixpoint contains (needle hay : string) : bool :=
  String.prefix needle hay ||
  match hay with
  | EmptyString => false
  | String _ hay' => contains needle hay'
  end.

(** [s.split(sep)] for a one-character separator. *)
Fixpoint split_go (sep : ascii) (cur : string) (s : string) : list string :=
  match s with
  | EmptyString => [String.rev cur]
  | String c s' =>
      if Ascii.eqb c sep then String.rev cur :: split_go sep EmptyString s'
      else split_go sep (String c cur) s'
  end.
Definition split (sep : ascii) (s : string) : list string :=
  split_go sep EmptyString s.

(** The line feed, for the literals that contain one. *)
Definition nl : string := String (ascii_of_N 10) EmptyString.

End Py.

(* ===================================================================== *)
(** * The fragment of [re] the validators use *)
(* ===================================================================== *)

Module Re.

(** Regular expressions over character classes. *)
Inductive regex : Type :=
| Void : regex
| Eps : regex
| Class (p : ascii -> bool) : regex
| Cat (r1 r2 : regex) : regex
| Alt (r1 r2 : regex) : regex
| Star (r : regex) : regex.

Fixpoint nullable (r : regex) : bool :=
  match r with
  | Void => false
  | Eps => true
  | Class _ => false
  | Cat r1 r2 => nullable r1 && nullable r2
  | Alt r1 r2 => nullable r1 || nullable r2
  | Star _ => true
  end.

Definition cat (r1 r2 : regex) : regex :=
  match r1, r2 with
  | Void, _ => Void
  | _, Void => Void
  | Eps, _ => r2
  | _, _ => Cat r1 r2
  end.

Definition alt (r1 r2 : regex) : regex :=
  match r1, r2 with
  | Void, _ => r2
  | _, Void => r1
  | _, _ => Alt r1 r2
  end.

(** The derivative of [r] by the character [c]. *)
Fixpoint deriv (c : ascii) (r : regex) : regex :=
  match r with
  | Void => Void
  | Eps => Void
  | Class p => if p c then Eps else Void
  | Cat r1 r2 =>
      alt (cat (deriv c r1) r2) (if nullable r1 then deriv c r2 else Void)
  | Alt r1 r2 => alt (deriv c r1) (deriv c r2)
  | Star r1 => cat (deriv c r1) (Star r1)
  end.

(** [r+], [r?], [r{n}] and [r{n,m}] (as [r{n}] followed by [m-n] optional
    copies). *)
Definition plus (r : regex) : regex := Cat r (Star r).
Definition opt (r : regex) : regex := Alt Eps r.
Fixpoint times (n : nat) (r : regex) : regex :=
  match n with
  | O => Eps
  | S n' => Cat r (times n' r)
  end.
Definition range (n m : nat) (r : regex) : regex :=
  Cat (times n r) (times (m - n) (opt r)).

Definition chr (c : ascii) : regex := Class (Ascii.eqb c).
Definition not_chr (c : ascii) : regex := Class (fun x => negb (Ascii.eqb x c)).

(** [$] outside MULTILINE mode: the end of the string, or just before a
    line feed that ends the string. *)
Definition dollar : regex := opt (chr (ascii_of_N 10)).

(** Some prefix of [s] is in the language of [r]. *)
Fixpoint matches_prefix (r : regex) (s : string) : bool :=
  nullable r ||
  match s with
  | EmptyString => false
  | String c s' => matches_prefix (deriv c r) s'
  end.

(** The whole of [s] is in the language of [r]. *)
Fixpoint matches_all (r : regex) (s : string) : bool :=
  match s with
  | EmptyString => nullable r
  | String c s' => matches_all (deriv c r) s'
  end.

(** [re.match(pattern, s) is not None] for a pattern without [$]: the
    match is anchored at the start only. *)
Definition match_ (r : regex) (s : string) : bool := matches_prefix r s.

(** [re.match(r"^...$", s) is not None]: [^] adds nothing to [re.match],
    and [$] lets one final line feed through. *)
Definition match_dollar (r : regex) (s : string) : bool :=
  matches_all (Cat r dollar) s.

End Re.

(* ===================================================================== *)
(** * Field validators ([kyc_util.py]) *)
(* ===================================================================== *)

Definition FACULTIES : list string :=
  [ "oral and dental"; "pharmacy"; "commerce and business administration";
    "engineering"; "computer science"; "economics and political science" ]%string.

(** [[^@]+@[^@]+\.[^@]+] *)
Definition email_pattern : Re.regex :=
  Re.Cat (Re.plus (Re.not_chr "@"))
    (Re.Cat (Re.chr "@")
       (Re.Cat (Re.plus (Re.not_chr "@"))
          (Re.Cat (Re.chr ".") (Re.plus (Re.not_chr "@"))))).

(** [^\+?\d{10,15}$] without its anchors. *)
Definition mobile_pattern : Re.regex :=
  Re.Cat (Re.opt (Re.chr "+")) (Re.range 10 15 (Re.Class Py.isdigit)).

(** [^[a-zA-Z\s]+$] without its anchors. *)
Definition name_pattern : Re.regex :=
  Re.plus (Re.Class (fun c => Py.isalpha c || Py.isspace c)).

(** [^[a-zA-Z\s&]+$] without its anchors. *)
Definition faculty_pattern : Re.regex :=
  Re.plus (Re.Class (fun c => Py.isalpha c || Py.isspace c || Ascii.eqb c "&")).

Definition is_valid_email (email : string) : bool :=
  Re.match_ email_pattern email.

Definition is_valid_mobile (mobile : string) : bool :=
  Re.match_dollar mobile_pattern mobile.

Definition validate_name (name : string) : bool :=
  (2 <=? Py.len (Py.strip name)) && Re.match_dollar name_pattern (Py.strip name).

Definition validate_faculty (faculty : string) : bool :=
  if String.eqb faculty "" || (Py.len (Py.strip faculty) <? 2) then false
  else
    let faculty_lower := Py.lower (Py.strip faculty) in
    let predefined_faculties := Py.lower <$> FACULTIES in
    if bool_decide (faculty_lower ∈ predefined_faculties) then true
    else (2 <=? Py.len (Py.strip faculty))
         && Re.match_dollar faculty_pattern (Py.strip faculty).

Definition is_valid_password (password : string) : bool :=
  if Py.len (Py.strip password) <? 8 then false
  else
    let has_letter := Py.any Py.isalpha password in
    let has_number := Py.any Py.isdigit password in
    has_letter && has_number.

(* ===================================================================== *)
(** * Intent classifier ([kyc_util.py]) *)
(* ===================================================================== *)

(** The two intents; Python's [None] is [None : option intent]. *)
Inductive intent : Type := Register | Login.

Global Instance intent_eq_dec : EqDecision intent.
Proof. solve_decision. Defined.

(** What the language model does with one prompt: [get_llm_instance]
    returns [None], the call raises, or it answers with [content]. *)
Inductive llm_reply : Type :=
| LlmUnavailable : llm_reply
| LlmRaises : llm_reply
| LlmContent (content : string) : llm_reply.

Definition login_keywords : list string :=
  [ "i want to login"; "i want to log in"; "login"; "log in"; "sign in";
    "access my account"; "my account"; "signin" ]%string.

Definition register_keywords : list string :=
  [ "i want to register"; "i want to apply"; "register"; "sign up"; "signup";
    "create account"; "i want to enroll"; "apply now"; "start application" ]%string.

(** [for keyword in keywords: if keyword in message: return r], then [k]. *)
Fixpoint first_keyword {A} (keywords : list string) (message : string)
    (r : A) (k : A) : A :=
  match keywords with
  | [] => k
  | keyword :: rest =>
      if Py.contains keyword message then r else first_keyword rest message r k
  end.

Definition check_application_intent (user_message : string) : option intent :=
  let message_lower := Py.strip (Py.lower user_message) in
  first_keyword login_keywords message_lower (Some Login)
    (first_keyword register_keywords message_lower (Some Register) None).

Definition detect_application_intent (llm : llm_reply) (user_message : string)
    : option intent :=
  match llm with
  | LlmUnavailable => check_application_intent user_message
  | LlmRaises => check_application_intent user_message
  | LlmContent content =>
      let result := Py.upper (Py.strip content) in
      if String.eqb result "REGISTER" then Some Register
      else if String.eqb result "LOGIN" then Some Login
      else None
  end.


(* ===================================================================== *)
(** * MongoDB documents and JWTs ([auth_service.py]) *)
(* ===================================================================== *)

(** A document's [_id].  [insert_one] on a document without [_id] gives it
    an [ObjectId]; a query compares BSON values, and an [ObjectId] is never
    equal to a string, whatever the string spells. *)
Inductive bson_id : Type :=
| ObjectId (n : N) : bson_id
| StrId (s : string) : bson_id.

Global Instance bson_id_eq_dec : EqDecision bson_id.
Proof. solve_decision. Defined.

(** [str(oid)]: the hexadecimal rendering of an [ObjectId] (the padding to
    24 digits is left out). *)
Definition oid_str (n : N) : string := NilEmpty.string_of_uint (N.to_hex_uint n).

(** [str(doc["_id"])]. *)
Definition str_id (i : bson_id) : string :=
  match i with
  | ObjectId n => oid_str n
  | StrId s => s
  end.

(** [bson.ObjectId(s)]; [None] stands for [InvalidId]. *)
Definition ObjectId_of_str (s : string) : option bson_id :=
  match NilEmpty.uint_of_string s with
  | Some u => Some (ObjectId (N.of_hex_uint u))
  | None => None
  end.

(** The [_id] that [insert_one] gives a new document: an [ObjectId] that no
    document of the collection carries. *)
Definition oid_num (i : bson_id) : N :=
  match i with
  | ObjectId n => n
  | StrId _ => 0%N
  end.
Definition fresh_oid (ids : list bson_id) : bson_id :=
  ObjectId (N.succ (foldr N.max 0%N (oid_num <$> ids))).

(** A bcrypt hash, idealised: it records the salt and determines the
    password it was made from; anything else is not a hash and makes
    [bcrypt.checkpw] raise. *)
Inductive pw_hash : Type :=
| Bcrypt (salt : N) (plain : string) : pw_hash
| NotAHash (raw : string) : pw_hash.

Definition bcrypt_checkpw (password : string) (hashed : pw_hash) : option bool :=
  match hashed with
  | Bcrypt _ plain => Some (String.eqb password plain)
  | NotAHash _ => None
  end.

Record user_doc : Type := mk_user_doc {
  u_id : bson_id;
  u_username : option string;
  u_email : option string;
  u_password_hash : pw_hash;
  u_name : option string;
  u_mobile : option string;
  u_faculty : option string;
  u_role : string;
  u_is_active : bool;
  u_created_at : Z;
  u_last_login : option Z;
  u_session_id : string
}.

Record jwt_payload : Type := mk_jwt_payload {
  p_user_id : string;
  p_username : option string;
  p_email : option string;
  p_role : string;
  p_exp : Z;
  p_iat : Z;
  p_session_id : string
}.

(** A token string: a payload signed with [key], or any other text. *)
Inductive token : Type :=
| Jwt (key : string) (payload : jwt_payload) : token
| NotAJwt (raw : string) : token.

Global Instance jwt_payload_eq_dec : EqDecision jwt_payload.
Proof. solve_decision. Defined.
Global Instance token_eq_dec : EqDecision token.
Proof. solve_decision. Defined.

Record session_doc : Type := mk_session_doc {
  sd_id : bson_id;
  sd_user_id : string;
  sd_token : token;
  sd_session_id : string;
  sd_created_at : Z;
  sd_expires_at : Z;
  sd_is_active : bool;
  sd_logout_at : option Z
}.

Global Instance session_doc_eq_dec : EqDecision session_doc.
Proof. solve_decision. Defined.

(** The sanitised user dictionary handed to the conversation layer.
    [authenticate_user] fills [v_last_login]; [verify_token] fills
    [v_session_id] and [v_token]. *)
Record user_view : Type := mk_user_view {
  v_user_id : string;
  v_username : option string;
  v_email : option string;
  v_name : option string;
  v_mobile : option string;
  v_faculty : option string;
  v_role : string;
  v_last_login : option Z;
  v_session_id : option string;
  v_token : option token
}.

Record database : Type := mk_database {
  users_collection : list user_doc;
  sessions_collection : list session_doc
}.

(** Whether MongoDB answers during a turn: it does; [get_mongo_client]
    returns [None]; or every operation on a collection raises. *)
Inductive mongo_status : Type := MongoUp | MongoNoClient | MongoRaising.

Definition JWT_SECRET_KEY : string := "your-secret-key-change-in-production-2024".
Definition TOKEN_EXPIRY_HOURS : Z := 24.

(** [timedelta(hours=h)] in seconds, the unit of the clock. *)
Definition hours (h : Z) : Z := h * 3600.

Definition jwt_encode (payload : jwt_payload) (key : string) : token := Jwt key payload.

Inductive jwt_decoded : Type :=
| Decoded (payload : jwt_payload) : jwt_decoded
| ExpiredSignatureError : jwt_decoded
| InvalidTokenError : jwt_decoded.

(** [jwt.decode]: the signature first, then [exp], which must lie strictly
    after the clock. *)
Definition jwt_decode (tok : token) (key : string) (now : Z) : jwt_decoded :=
  match tok with
  | Jwt k payload =>
      if String.eqb k key then
        if p_exp payload <=? now then ExpiredSignatureError else Decoded payload
      else InvalidTokenError
  | NotAJwt _ => InvalidTokenError
  end.

(** Truth value of a token string: only the empty string is false. *)
Definition token_truthy (tok : token) : bool :=
  match tok with
  | NotAJwt EmptyString => false
  | _ => true
  end.

(** [update_one]: the first document that matches is rewritten. *)
Fixpoint update_one {A} (p : A -> bool) (f : A -> A) (l : list A) : list A :=
  match l with
  | [] => []
  | x :: l' => if p x then f x :: l' else x :: update_one p f l'
  end.

Definition set_last_login (t : option Z) (u : user_doc) : user_doc :=
  mk_user_doc (u_id u) (u_username u) (u_email u) (u_password_hash u) (u_name u)
    (u_mobile u) (u_faculty u) (u_role u) (u_is_active u) (u_created_at u) t
    (u_session_id u).

Definition set_logged_out (t : Z) (s : session_doc) : session_doc :=
  mk_session_doc (sd_id s) (sd_user_id s) (sd_token s) (sd_session_id s)
    (sd_created_at s) (sd_expires_at s) false (Some t).

(** [sort=[("created_at", -1)]]: newest first.  Among records created at the
    same instant the order is MongoDB's to choose; [merge_sort] makes one
    choice. *)
Definition newer_first (a b : session_doc) : Prop := sd_created_at b <= sd_created_at a.

Global Instance newer_first_dec : RelDecision newer_first.
Proof. intros a b. unfold newer_first. apply _. Defined.

Module AuthService.

Definition verify_password (password : string) (hashed_password : pw_hash) : bool :=
  match bcrypt_checkpw password hashed_password with
  | Some b => b
  | None => false
  end.

Definition register_user (mongo : mongo_status) (now : Z) (sid : string) (salt : N)
    (kyc_data : gmap string string) (db : database) : option string * database :=
  match mongo with
  | MongoUp =>
      let email := kyc_data !! "email" in
      let existing_user :=
        List.find (fun u => bool_decide (u_email u = email)
                            || bool_decide (u_username u = email))
                  (users_collection db) in
      match existing_user with
      | Some _ => (None, db)
      | None =>
          match kyc_data !! "password" with
          | None => (None, db)
          | Some password =>
              let hashed_password := Bcrypt salt password in
              let inserted_id := fresh_oid (u_id <$> users_collection db) in
              let user_doc :=
                {| u_id := inserted_id;
                   u_username := email;
                   u_email := email;
                   u_password_hash := hashed_password;
                   u_name := kyc_data !! "name";
                   u_mobile := kyc_data !! "mobile";
                   u_faculty := kyc_data !! "faculty";
                   u_role := "user";
                   u_is_active := true;
                   u_created_at := now;
                   u_last_login := None;
                   u_session_id := sid |} in
              (Some (str_id inserted_id),
               mk_database (users_collection db ++ [user_doc])
                           (sessions_collection db))
          end
      end
  | _ => (None, db)
  end.

Definition generate_jwt_token (mongo : mongo_status) (now : Z) (sid : string)
    (user : user_doc) (db : database) : option token * database :=
  match mongo with
  | MongoUp =>
      let payload :=
        {| p_user_id := str_id (u_id user);
           p_username := u_username user;
           p_email := u_email user;
           p_role := u_role user;
           p_exp := now + hours TOKEN_EXPIRY_HOURS;
           p_iat := now;
           p_session_id := sid |} in
      let tok := jwt_encode payload JWT_SECRET_KEY in
      let old_sessions :=
        drop 4 (merge_sort newer_first
                  (filter (fun s => sd_user_id s = str_id (u_id user))
                          (sessions_collection db))) in
      let old_session_ids := sd_id <$> old_sessions in
      let remaining :=
        filter (fun s => sd_id s ∉ old_session_ids) (sessions_collection db) in
      let session_doc :=
        {| sd_id := fresh_oid (sd_id <$> remaining);
           sd_user_id := str_id (u_id user);
           sd_token := tok;
           sd_session_id := sid;
           sd_created_at := now;
           sd_expires_at := p_exp payload;
           sd_is_active := true;
           sd_logout_at := None |} in
      (Some tok, mk_database (users_collection db) (remaining ++ [session_doc]))
  | _ => (None, db)
  end.

Definition authenticate_user (mongo : mongo_status) (now : Z) (sid : string)
    (username password : string) (db : database)
    : (option token * option user_view) * database :=
  match mongo with
  | MongoUp =>
      let key := Some (Py.lower username) in
      let found :=
        List.find (fun u => (bool_decide (u_username u = key)
                             || bool_decide (u_email u = key))
                            && u_is_active u)
                  (users_collection db) in
      match found with
      | None => ((None, None), db)
      | Some user =>
          if negb (verify_password password (u_password_hash user))
          then ((None, None), db)
          else
            let db1 :=
              mk_database
                (update_one (fun u => bool_decide (u_id u = u_id user))
                            (set_last_login (Some now)) (users_collection db))
                (sessions_collection db) in
            let '(tok, db2) := generate_jwt_token mongo now sid user db1 in
            let user_data :=
              {| v_user_id := str_id (u_id user);
                 v_username := u_username user;
                 v_email := u_email user;
                 v_name := u_name user;
                 v_mobile := u_mobile user;
                 v_faculty := u_faculty user;
                 v_role := u_role user;
                 v_last_login := u_last_login user;
                 v_session_id := None;
                 v_token := None |} in
            ((tok, Some user_data), db2)
      end
  | _ => ((None, None), db)
  end.

Definition verify_token (mongo : mongo_status) (now : Z) (tok : token)
    (db : database) : option user_view :=
  match jwt_decode tok JWT_SECRET_KEY now with
  | Decoded payload =>
      match mongo with
      | MongoUp =>
          let session :=
            List.find (fun s => bool_decide (sd_token s = tok)
                                && sd_is_active s
                                && (now <? sd_expires_at s))
                      (sessions_collection db) in
          match session with
          | None => None
          | Some session =>
              let user :=
                List.find (fun u => bool_decide (u_id u = StrId (sd_user_id session))
                                    && u_is_active u)
                          (users_collection db) in
              match user with
              | None => None
              | Some user =>
                  Some {| v_user_id := str_id (u_id user);
                          v_username := u_username user;
                          v_email := u_email user;
                          v_name := u_name user;
                          v_mobile := u_mobile user;
                          v_faculty := u_faculty user;
                          v_role := u_role user;
                          v_last_login := None;
                          v_session_id := Some (p_session_id payload);
                          v_token := Some tok |}
              end
          end
      | _ => None
      end
  | ExpiredSignatureError => None
  | InvalidTokenError => None
  end.

Definition logout_user (mongo : mongo_status) (now : Z) (tok : token)
    (db : database) : bool * database :=
  match mongo with
  | MongoUp =>
      let sessions' :=
        update_one (fun s => bool_decide (sd_token s = tok)) (set_logged_out now)
                   (sessions_collection db) in
      let success := bool_decide (sessions' ≠ sessions_collection db) in
      (success, mk_database (users_collection db) sessions')
  | _ => (false, db)
  end.

Definition get_user_by_id (mongo : mongo_status) (user_id : string)
    (db : database) : option user_view :=
  match mongo with
  | MongoUp =>
      match List.find (fun u => bool_decide (u_id u = StrId user_id) && u_is_active u)
                      (users_collection db) with
      | Some user =>
          Some {| v_user_id := str_id (u_id user);
                  v_username := u_username user;
                  v_email := u_email user;
                  v_name := u_name user;
                  v_mobile := u_mobile user;
                  v_faculty := u_faculty user;
                  v_role := u_role user;
                  v_last_login := None;
                  v_session_id := None;
                  v_token := None |}
      | None => None
      end
  | _ => None
  end.

Definition cleanup_expired_sessions (mongo : mongo_status) (now : Z)
    (db : database) : Z * database :=
  match mongo with
  | MongoUp =>
      let kept := filter (fun s => ¬ (sd_expires_at s < now)) (sessions_collection db) in
      (Z.of_nat (length (sessions_collection db)) - Z.of_nat (length kept),
       mk_database (users_collection db) kept)
  | _ => (0, db)
  end.

End AuthService.

(* ===================================================================== *)
(** * The conversation's session ([cl.user_session]) *)
(* ===================================================================== *)

(** [auth_mode] is [None], ["register"] or ["login"]. *)
Inductive mode : Type := ModeRegister | ModeLogin.

Global Instance mode_eq_dec : EqDecision mode.
Proof. solve_decision. Defined.

(** The keys of [cl.user_session] that the core reads or writes.  A key that
    was never set reads as [None] ([False] for the two flags, whose reads
    give that default). *)
Record session : Type := mk_session {
  sess_id : option string;
  kyc_data : option (gmap string string);
  kyc_step : option Z;
  auth_mode : option mode;
  is_authenticated : bool;
  authenticated_user : option user_view;
  auth_token : option token;
  jwt_token : option token;
  user_id : option string;
  email : option string;
  name : option string;
  user_role : option string;
  kyc : option (gmap string (option string));
  is_kyc_complete : bool
}.

Definition set_kyc_data (v : option (gmap string string)) (s : session) : session :=
  mk_session (sess_id s) v (kyc_step s) (auth_mode s) (is_authenticated s)
    (authenticated_user s) (auth_token s) (jwt_token s) (user_id s) (email s)
    (name s) (user_role s) (kyc s) (is_kyc_complete s).
Definition set_kyc_step (v : option Z) (s : session) : session :=
  mk_session (sess_id s) (kyc_data s) v (auth_mode s) (is_authenticated s)
    (authenticated_user s) (auth_token s) (jwt_token s) (user_id s) (email s)
    (name s) (user_role s) (kyc s) (is_kyc_complete s).
Definition set_auth_mode (v : option mode) (s : session) : session :=
  mk_session (sess_id s) (kyc_data s) (kyc_step s) v (is_authenticated s)
    (authenticated_user s) (auth_token s) (jwt_token s) (user_id s) (email s)
    (name s) (user_role s) (kyc s) (is_kyc_complete s).
Definition set_is_authenticated (v : bool) (s : session) : session :=
  mk_session (sess_id s) (kyc_data s) (kyc_step s) (auth_mode s) v
    (authenticated_user s) (auth_token s) (jwt_token s) (user_id s) (email s)
    (name s) (user_role s) (kyc s) (is_kyc_complete s).
Definition set_authenticated_user_key (v : option user_view) (s : session) : session :=
  mk_session (sess_id s) (kyc_data s) (kyc_step s) (auth_mode s) (is_authenticated s)
    v (auth_token s) (jwt_token s) (user_id s) (email s)
    (name s) (user_role s) (kyc s) (is_kyc_complete s).
Definition set_auth_token (v : option token) (s : session) : session :=
  mk_session (sess_id s) (kyc_data s) (kyc_step s) (auth_mode s) (is_authenticated s)
    (authenticated_user s) v (jwt_token s) (user_id s) (email s)
    (name s) (user_role s) (kyc s) (is_kyc_complete s).
Definition set_jwt_token (v : option token) (s : session) : session :=
  mk_session (sess_id s) (kyc_data s) (kyc_step s) (auth_mode s) (is_authenticated s)
    (authenticated_user s) (auth_token s) v (user_id s) (email s)
    (name s) (user_role s) (kyc s) (is_kyc_complete s).
Definition set_user_id (v : option string) (s : session) : session :=
  mk_session (sess_id s) (kyc_data s) (kyc_step s) (auth_mode s) (is_authenticated s)
    (authenticated_user s) (auth_token s) (jwt_token s) v (email s)
    (name s) (user_role s) (kyc s) (is_kyc_complete s).
Definition set_email (v : option string) (s : session) : session :=
  mk_session (sess_id s) (kyc_data s) (kyc_step s) (auth_mode s) (is_authenticated s)
    (authenticated_user s) (auth_token s) (jwt_token s) (user_id s) v
    (name s) (user_role s) (kyc s) (is_kyc_complete s).
Definition set_name (v : option string) (s : session) : session :=
  mk_session (sess_id s) (kyc_data s) (kyc_step s) (auth_mode s) (is_authenticated s)
    (authenticated_user s) (auth_token s) (jwt_token s) (user_id s) (email s)
    v (user_role s) (kyc s) (is_kyc_complete s).
Definition set_user_role (v : option string) (s : session) : session :=
  mk_session (sess_id s) (kyc_data s) (kyc_step s) (auth_mode s) (is_authenticated s)
    (authenticated_user s) (auth_token s) (jwt_token s) (user_id s) (email s)
    (name s) v (kyc s) (is_kyc_complete s).
Definition set_kyc (v : option (gmap string (option string))) (s : session) : session :=
  mk_session (sess_id s) (kyc_data s) (kyc_step s) (auth_mode s) (is_authenticated s)
    (authenticated_user s) (auth_token s) (jwt_token s) (user_id s) (email s)
    (name s) (user_role s) v (is_kyc_complete s).
Definition set_is_kyc_complete (v : bool) (s : session) : session :=
  mk_session (sess_id s) (kyc_data s) (kyc_step s) (auth_mode s) (is_authenticated s)
    (authenticated_user s) (auth_token s) (jwt_token s) (user_id s) (email s)
    (name s) (user_role s) (kyc s) v.

(** [cl.user_session.get("id", "unknown")]. *)
Definition session_id_of (s : session) : string := default "unknown"%string (sess_id s).

(** The session as [initialize_user_session] leaves it at the start of a
    chat: every key at its default. *)
Definition initial_session (id : option string) : session :=
  {| sess_id := id;
     kyc_data := Some ∅;
     kyc_step := Some 0;
     auth_mode := None;
     is_authenticated := false;
     authenticated_user := None;
     auth_token := None;
     jwt_token := None;
     user_id := None;
     email := None;
     name := None;
     user_role := Some "guest"%string;
     kyc := None;
     is_kyc_complete := false |}.

(* ===================================================================== *)
(** * Authorization layer ([auth_middleware.py]) *)
(* ===================================================================== *)

Inductive UserRole : Type := GUEST | USER | PREMIUM | ADMIN.

Global Instance UserRole_eq_dec : EqDecision UserRole.
Proof. solve_decision. Defined.

(** [role.value]. *)
Definition UserRole_value (r : UserRole) : string :=
  match r with
  | GUEST => "guest"
  | USER => "user"
  | PREMIUM => "premium_user"
  | ADMIN => "admin"
  end.

(** [UserRole(role_str)]; [None] stands for [ValueError]. *)
Definition UserRole_of_value (role_str : string) : option UserRole :=
  if String.eqb role_str "guest" then Some GUEST
  else if String.eqb role_str "user" then Some USER
  else if String.eqb role_str "premium_user" then Some PREMIUM
  else if String.eqb role_str "admin" then Some ADMIN
  else None.

Definition role_hierarchy (r : UserRole) : Z :=
  match r with
  | GUEST => 0
  | USER => 1
  | PREMIUM => 2
  | ADMIN => 3
  end.

Module AuthMiddleware.

Definition clear_auth_session (s : session) : session :=
  set_is_authenticated false (set_authenticated_user_key None (set_auth_token None s)).

Definition get_current_user (mongo : mongo_status) (now : Z) (db : database)
    (s : session) : option user_view * session :=
  if negb (is_authenticated s) then (None, s)
  else
    match authenticated_user s with
    | None => (None, s)
    | Some user_data =>
        match auth_token s with
        | Some tok =>
            if token_truthy tok then
              match AuthService.verify_token mongo now tok db with
              | Some verified_user =>
                  (Some verified_user,
                   set_authenticated_user_key (Some verified_user) s)
              | None => (None, clear_auth_session s)
              end
            else (Some user_data, s)
        | None => (Some user_data, s)
        end
    end.

Definition set_authenticated_user (tok : token) (user_data : user_view)
    (s : session) : bool * session :=
  let s1 := set_auth_token (Some tok) s in
  let s2 := set_authenticated_user_key (Some user_data) s1 in
  let s3 := set_is_authenticated true s2 in
  let kyc_data : gmap string (option string) :=
    <["name" := v_name user_data]>
      (<["email" := v_email user_data]>
         (<["mobile" := v_mobile user_data]>
            (<["faculty" := v_faculty user_data]> ∅))) in
  let s4 := set_kyc (Some kyc_data) s3 in
  (true, set_is_kyc_complete true s4).

Definition is_authenticated (mongo : mongo_status) (now : Z) (db : database)
    (s : session) : bool * session :=
  let '(user, s') := get_current_user mongo now db s in
  (bool_decide (user ≠ None), s').

Definition get_user_role (mongo : mongo_status) (now : Z) (db : database)
    (s : session) : UserRole * session :=
  let '(user, s') := get_current_user mongo now db s in
  match user with
  | None => (GUEST, s')
  | Some user =>
      let role_str := v_role user in
      match UserRole_of_value role_str with
      | Some r => (r, s')
      | None => (USER, s')
      end
  end.

Definition has_permission (mongo : mongo_status) (now : Z) (db : database)
    (required_role : UserRole) (s : session) : bool * session :=
  let '(user_role, s') := get_user_role mongo now db s in
  (role_hierarchy required_role <=? role_hierarchy user_role, s').

End AuthMiddleware.

(* ===================================================================== *)
(** * The KYC state machine ([kyc_util.py]) *)
(* ===================================================================== *)

(** A document of the KYC collection, as [save_user_data_to_collection]
    writes it. *)
Record kyc_doc : Type := mk_kyc_doc {
  k_session_id : string;
  k_name : option string;
  k_email : option string;
  k_mobile : option string;
  k_faculty : option string;
  k_password : option string;
  k_created_at : Z
}.

(** Everything a turn can read or write: the conversation's session, the
    two collections of [AuthService], and the collection that
    [email_exists] reads. *)
Record world : Type := mk_world {
  sess : session;
  db : database;
  kyc_collection : list kyc_doc
}.

(** What the environment decides during one turn. *)
Record turn : Type := mk_turn {
  t_llm : llm_reply;
  t_now : Z;
  t_salt : N;
  t_mongo : mongo_status
}.

(** [(is_kyc_flow, intent_detected, response_message)]. *)
Definition response : Type := bool * option string * option string.

Definition with_sess (f : session -> session) (w : world) : world :=
  mk_world (f (sess w)) (db w) (kyc_collection w).
Definition with_db (d : database) (w : world) : world :=
  mk_world (sess w) d (kyc_collection w).

(** [f"{x}"] for a value that may be [None]. *)
Definition fmt (x : option string) : string := default "None"%string x.

Definition msg_technical_registration : string :=
  "❌ Registration failed due to a technical error. Please try again.".
Definition msg_registration_no_user : string :=
  "❌ Registration failed: Could not retrieve user data after registration.".
Definition msg_registration_rejected : string :=
  "❌ Registration failed: Email already exists or invalid data provided.".
Definition msg_registration_ok (name : option string) : string :=
  "✅ Registration successful! Welcome " +:+ fmt name +:+ "!" +:+ Py.nl +:+ Py.nl
  +:+ "Your account has been created and you are now logged in. You can start using the chatbot with full features.".

Definition msg_login_ok (name : option string) : string :=
  "✅ Login successful! Welcome back " +:+ fmt name +:+ "!" +:+ Py.nl +:+ Py.nl
  +:+ "You are now logged in and can use all chatbot features.".
Definition msg_login_no_session : string :=
  "❌ Login failed: Could not set user session. Please try again.".
Definition msg_login_invalid : string :=
  "❌ Login failed: Invalid email or password. Please try again.".
Definition msg_technical_login : string :=
  "❌ Login failed due to a technical error. Please try again.".
Definition msg_login_retry : string :=
  Py.nl +:+ Py.nl +:+ "Please try again. Enter your **email address**:".

Definition msg_start_register : string :=
  "Great! I'll help you register. Let's start with your information."
  +:+ Py.nl +:+ Py.nl +:+ "📋 **Required Information:**"
  +:+ Py.nl +:+ "• Full Name" +:+ Py.nl +:+ "• Email Address"
  +:+ Py.nl +:+ "• Mobile Number" +:+ Py.nl +:+ "• Faculty/Department"
  +:+ Py.nl +:+ "• Password" +:+ Py.nl +:+ Py.nl
  +:+ "Please provide your **full name**:".
Definition msg_start_login : string :=
  "Welcome back! Please provide your login credentials." +:+ Py.nl +:+ Py.nl
  +:+ "Please enter your **email address**:".

Definition msg_name_ok (name : string) : string :=
  "Thank you, " +:+ name +:+ "! Now please provide your **email address**:".
Definition msg_name_bad : string :=
  "Please enter a valid name (at least 2 characters, only letters and spaces):".
Definition msg_email_taken : string :=
  "This email is already registered. Please use a different email address or try logging in instead:".
Definition msg_email_ok : string :=
  "Great! Now please provide your **mobile number** (include country code if international):".
Definition msg_email_bad : string := "Please enter a valid email address:".
Definition msg_mobile_ok : string :=
  "Perfect! Now please tell me your **faculty or department** (e.g., Engineering, Business, etc.):".
Definition msg_mobile_bad : string :=
  "Please enter a valid mobile number (10-15 digits, may include country code):".
Definition msg_faculty_ok : string :=
  "Excellent! Finally, please create a **password** for your account (minimum 8 characters, include letters and numbers):".
Definition msg_faculty_bad : string :=
  "Please enter a valid faculty/department name (at least 2 characters):".
Definition msg_password_bad : string :=
  "Password must be at least 8 characters long and include both letters and numbers. Please try again:".
Definition msg_password_prompt : string := "Please enter your **password**:".

Section Kyc.

(** [constants.USERS_COLLECTION]: the module that defines it is not part
    of the sources, so the constant is a parameter. *)
Context (USERS_COLLECTION : string).

(** [kyc_collection] is the collection that
    [client[USERS_COLLECTION.split('.')[0]][USERS_COLLECTION.split('.')[1]]]
    addresses; the second index raises when the name has no dot. *)
Definition email_exists (mongo : mongo_status) (kyc_collection : list kyc_doc)
    (email : string) : bool :=
  match mongo with
  | MongoNoClient => false
  | MongoRaising => false
  | MongoUp =>
      match Py.split "." USERS_COLLECTION with
      | _ :: _ :: _ =>
          let existing_user :=
            List.find (fun d => bool_decide (k_email d = Some email)) kyc_collection in
          bool_decide (existing_user ≠ None)
      | _ => false
      end
  end.

(** The body of [complete_user_registration]'s [try]; a [None] result
    stands for an exception. *)
Definition complete_user_registration_try (t : turn)
    (kyc_data : gmap string string) (w : world)
    : option (bool * string) * world :=
  match t_mongo t with
  | MongoNoClient => (None, w)
  | mongo =>
      let '(user_id_str, db1) :=
        AuthService.register_user mongo (t_now t) (session_id_of (sess w))
          (t_salt t) kyc_data (db w) in
      let w1 := with_db db1 w in
      match user_id_str with
      | Some (String _ _ as user_id_str) =>
          match ObjectId_of_str user_id_str, mongo with
          | Some oid, MongoUp =>
              match List.find (fun u => bool_decide (u_id u = oid))
                              (users_collection db1) with
              | Some user_data =>
                  let '(tok, db2) :=
                    AuthService.generate_jwt_token mongo (t_now t)
                      (session_id_of (sess w)) user_data db1 in
                  let s1 := set_user_id (Some (str_id (u_id user_data))) (sess w) in
                  let s2 := set_email (u_email user_data) s1 in
                  let s3 := set_name (u_name user_data) s2 in
                  let s4 := set_jwt_token tok s3 in
                  let s5 := set_is_authenticated true s4 in
                  let s6 := set_user_role (Some (u_role user_data)) s5 in
                  (Some (true, msg_registration_ok (u_name user_data)),
                   mk_world s6 db2 (kyc_collection w))
              | None => (Some (false, msg_registration_no_user), w1)
              end
          | _, _ => (None, w1)
          end
      | _ => (Some (false, msg_registration_rejected), w1)
      end
  end.

Definition complete_user_registration (t : turn) (kyc_data : gmap string string)
    (w : world) : (bool * string) * world :=
  match complete_user_registration_try t kyc_data w with
  | (Some r, w') => (r, w')
  | (None, w') => ((false, msg_technical_registration), w')
  end.

Definition attempt_user_login (t : turn) (email password : string) (w : world)
    : (bool * string) * world :=
  match t_mongo t with
  | MongoNoClient => ((false, msg_technical_login), w)
  | mongo =>
      let '((tok, user_data), db1) :=
        AuthService.authenticate_user mongo (t_now t) (session_id_of (sess w))
          email password (db w) in
      let w1 := with_db db1 w in
      match tok, user_data with
      | Some tok, Some user_data =>
          if token_truthy tok then
            let '(auth_success, s1) :=
              AuthMiddleware.set_authenticated_user tok user_data (sess w1) in
            if auth_success
            then ((true, msg_login_ok (v_name user_data)), with_sess (fun _ => s1) w1)
            else ((false, msg_login_no_session), with_sess (fun _ => s1) w1)
          else ((false, msg_login_invalid), w1)
      | _, _ => ((false, msg_login_invalid), w1)
      end
  end.

Definition handle_registration_flow (t : turn) (user_message : string)
    (kyc_data : gmap string string) (kyc_step : Z) (w : world)
    : response * world :=
  if kyc_step =? 1 then
    if validate_name user_message then
      let kyc_data := <["name" := Py.strip user_message]> kyc_data in
      let w := with_sess (set_kyc_data (Some kyc_data)) w in
      let w := with_sess (set_kyc_step (Some 2)) w in
      ((true, Some "register", Some (msg_name_ok (Py.strip user_message))), w)
    else ((true, Some "register", Some msg_name_bad), w)
  else if kyc_step =? 2 then
    if is_valid_email user_message then
      if email_exists (t_mongo t) (kyc_collection w) (Py.lower (Py.strip user_message))
      then ((true, Some "register", Some msg_email_taken), w)
      else
        let kyc_data := <["email" := Py.lower (Py.strip user_message)]> kyc_data in
        let w := with_sess (set_kyc_data (Some kyc_data)) w in
        let w := with_sess (set_kyc_step (Some 3)) w in
        ((true, Some "register", Some msg_email_ok), w)
    else ((true, Some "register", Some msg_email_bad), w)
  else if kyc_step =? 3 then
    if is_valid_mobile user_message then
      let kyc_data := <["mobile" := Py.strip user_message]> kyc_data in
      let w := with_sess (set_kyc_data (Some kyc_data)) w in
      let w := with_sess (set_kyc_step (Some 4)) w in
      ((true, Some "register", Some msg_mobile_ok), w)
    else ((true, Some "register", Some msg_mobile_bad), w)
  else if kyc_step =? 4 then
    if validate_faculty user_message then
      let kyc_data := <["faculty" := Py.strip user_message]> kyc_data in
      let w := with_sess (set_kyc_data (Some kyc_data)) w in
      let w := with_sess (set_kyc_step (Some 5)) w in
      ((true, Some "register", Some msg_faculty_ok), w)
    else ((true, Some "register", Some msg_faculty_bad), w)
  else if kyc_step =? 5 then
    if is_valid_password user_message then
      let kyc_data := <["password" := Py.strip user_message]> kyc_data in
      let w := with_sess (set_kyc_data (Some kyc_data)) w in
      let '((success, message), w) := complete_user_registration t kyc_data w in
      let w := with_sess (set_kyc_step (Some 0)) w in
      let w := with_sess (set_kyc_data (Some ∅)) w in
      let w := with_sess (set_auth_mode None) w in
      ((true, Some "register_complete", Some message), w)
    else ((true, Some "register", Some msg_password_bad), w)
  else ((false, None, None), w).

(** A [None] result stands for the [KeyError] of [kyc_data["email"]]; the
    password has by then been written into the session's dictionary. *)
Definition handle_login_flow (t : turn) (user_message : string)
    (kyc_data : gmap string string) (kyc_step : Z) (w : world)
    : option response * world :=
  if kyc_step =? 1 then
    if is_valid_email user_message then
      let kyc_data := <["email" := Py.lower (Py.strip user_message)]> kyc_data in
      let w := with_sess (set_kyc_data (Some kyc_data)) w in
      let w := with_sess (set_kyc_step (Some 2)) w in
      (Some (true, Some "login", Some msg_password_prompt), w)
    else (Some (true, Some "login", Some msg_email_bad), w)
  else if kyc_step =? 2 then
    let kyc_data := <["password" := Py.strip user_message]> kyc_data in
    let w := with_sess (set_kyc_data (Some kyc_data)) w in
    match kyc_data !! "email", kyc_data !! "password" with
    | Some email, Some password =>
        let '((success, message), w) := attempt_user_login t email password w in
        if success then
          let w := with_sess (set_kyc_step (Some 0)) w in
          let w := with_sess (set_kyc_data (Some ∅)) w in
          let w := with_sess (set_auth_mode None) w in
          (Some (true, Some "login_complete", Some message), w)
        else
          let w := with_sess (set_kyc_step (Some 1)) w in
          let w := with_sess (set_kyc_data (Some ∅)) w in
          (Some (true, Some "login_failed", Some (message +:+ msg_login_retry)), w)
    | _, _ => (None, w)
    end
  else (Some (false, None, None), w).

Definition handle_kyc (t : turn) (user_message : string) (w : world)
    : response * world :=
  let w := if kyc_data (sess w) is None
           then with_sess (set_kyc_data (Some ∅)) w else w in
  let w := if kyc_step (sess w) is None
           then with_sess (set_kyc_step (Some 0)) w else w in
  let w := if auth_mode (sess w) is None
           then with_sess (set_auth_mode None) w else w in
  let kyc_data := default ∅ (kyc_data (sess w)) in
  let kyc_step := default 0 (kyc_step (sess w)) in
  let auth_mode := auth_mode (sess w) in
  if kyc_step =? 0 then
    match detect_application_intent (t_llm t) user_message with
    | Some Register =>
        let w := with_sess (set_auth_mode (Some ModeRegister)) w in
        let w := with_sess (set_kyc_step (Some 1)) w in
        ((true, Some "register", Some msg_start_register), w)
    | Some Login =>
        let w := with_sess (set_auth_mode (Some ModeLogin)) w in
        let w := with_sess (set_kyc_step (Some 1)) w in
        ((true, Some "login", Some msg_start_login), w)
    | None => ((false, None, None), w)
    end
  else
    match auth_mode with
    | Some ModeRegister => handle_registration_flow t user_message kyc_data kyc_step w
    | Some ModeLogin =>
        match handle_login_flow t user_message kyc_data kyc_step w with
        | (Some r, w) => (r, w)
        | (None, w) => ((true, None, None), w)
        end
    | None => ((false, None, None), w)
    end.

(** The conversation: one [handle_kyc] per message, each with its turn. *)
Fixpoint run (inputs : list (turn * string)) (w : world) : list response * world :=
  match inputs with
  | [] => ([], w)
  | (t, m) :: rest =>
      let '(r, w1) := handle_kyc t m w in
      let '(rs, w2) := run rest w1 in
      (r :: rs, w2)
  end.

(** The successive values of [kyc_step] along a conversation. *)
Fixpoint steps (inputs : list (turn * string)) (w : world) : list (option Z) :=
  match inputs with
  | [] => []
  | (t, m) :: rest =>
      let w1 := (handle_kyc t m w).2 in
      kyc_step (sess w1) :: steps rest w1
  end.

End Kyc.

(* ===================================================================== *)
(** * Conversations and stores over time *)
(* ===================================================================== *)

(** The session records of one user. *)
Definition sessions_of (user_id : string) (d : database) : list session_doc :=
  filter (fun s => sd_user_id s = user_id) (sessions_collection d).

(** Successive token issuances, each at its own clock reading, from its own
    conversation, and for the user record as it is read at that moment. *)
Fixpoint issue_all (issuances : list (Z * string * user_doc)) (d : database) : database :=
  match issuances with
  | [] => d
  | (now, sid, user) :: rest =>
      issue_all rest (AuthService.generate_jwt_token MongoUp now sid user d).2
  end.

(** The worlds a conversation can be in: it starts with a fresh session over
    any stores; a message is handled; the middleware is asked for the
    current user; the stores change under other conversations. *)
Inductive reachable (USERS_COLLECTION : string) : world -> Prop :=
| reach_start id d kc :
    reachable USERS_COLLECTION (mk_world (initial_session id) d kc)
| reach_message t m w :
    reachable USERS_COLLECTION w ->
    reachable USERS_COLLECTION (handle_kyc USERS_COLLECTION t m w).2
| reach_current_user mongo now w :
    reachable USERS_COLLECTION w ->
    reachable USERS_COLLECTION
      (with_sess (fun s => (AuthMiddleware.get_current_user mongo now (db w) s).2) w)
| reach_stores d kc w :
    reachable USERS_COLLECTION w ->
    reachable USERS_COLLECTION (mk_world (sess w) d kc).

(** The users of a store that only [register_user] has written to carry
    [ObjectId]s. *)
Definition objectid_users (d : database) : Prop :=
  ∀ u, u ∈ users_collection d → ∃ n, u_id u = ObjectId n.

(** What [generate_jwt_token] keeps of the session collection before it
    inserts the new record, and what it deletes. *)
Definition newest_first (uid : string) (d : database) : list session_doc :=
  merge_sort newer_first (sessions_of uid d).
Definition pruned (uid : string) (d : database) : list session_doc :=
  filter (fun s => sd_id s ∉ (sd_id <$> drop 4 (newest_first uid d)))
         (sessions_collection d).

(** The three keys of the dialogue. *)
Definition dialogue (s : session) : option Z * option mode * option (gmap string string) :=
  (kyc_step s, auth_mode s, kyc_data s).

(** The idle-state invariant of the dialogue: step 0 only without a mode,
    and no mode only without collected data. *)
Definition idle_invariant (s : session) : Prop :=
  (kyc_step s = Some 0 → auth_mode s = None) ∧
  (auth_mode s = None → kyc_data s = Some ∅).

(** At login step 2 the email has been collected. *)
Definition login_has_email (s : session) : Prop :=
  auth_mode s = Some ModeLogin → kyc_step s = Some 2 →
  ∃ kd e, kyc_data s = Some kd ∧ kd !! "email" = Some e.

(** What every reachable session satisfies: the step and the data are set,
    the idle-state invariant holds, and login step 2 has the email. *)
Definition dialogue_invariant (s : session) : Prop :=
  (∃ z, kyc_step s = Some z) ∧ (∃ kd, kyc_data s = Some kd) ∧
  idle_invariant s ∧ login_has_email s.

(** The role the authorization layer works with: the role of the current
    user's view, [user] for a role string outside the enumeration, [guest]
    without a current user. *)
Definition current_role (user : option user_view) : UserRole :=
  match user with
  | None => GUEST
  | Some v => default USER (UserRole_of_value (v_role v))
  end.

(* ===================================================================== *)
(** * Sample data *)
(* ===================================================================== *)

Definition jane_kyc : gmap string string :=
  <["name" := "Jane Doe"]>
    (<["email" := "jane@example.com"]>
       (<["mobile" := "+201234567890"]>
          (<["faculty" := "Engineering"]>
             (<["password" := "Passw0rd"]> ∅))))%string.

Definition empty_db : database := mk_database [] [].

(** Jane's record as [register_user] stores it in the empty collection. *)
Definition jane_doc : user_doc :=
  {| u_id := ObjectId 1;
     u_username := Some "jane@example.com"%string;
     u_email := Some "jane@example.com"%string;
     u_password_hash := Bcrypt 7 "Passw0rd";
     u_name := Some "Jane Doe"%string;
     u_mobile := Some "+201234567890"%string;
     u_faculty := Some "Engineering"%string;
     u_role := "user";
     u_is_active := true;
     u_created_at := 1000;
     u_last_login := None;
     u_session_id := "conv-1" |}.

Definition with_role (r : string) (u : user_doc) : user_doc :=
  mk_user_doc (u_id u) (u_username u) (u_email u) (u_password_hash u) (u_name u)
    (u_mobile u) (u_faculty u) r (u_is_active u) (u_created_at u)
    (u_last_login u) (u_session_id u).


(** The view of a record, as [authenticate_user] builds it. *)
Definition view_of (u : user_doc) : user_view :=
  {| v_user_id := str_id (u_id u);
     v_username := u_username u;
     v_email := u_email u;
     v_name := u_name u;
     v_mobile := u_mobile u;
     v_faculty := u_faculty u;
     v_role := u_role u;
     v_last_login := u_last_login u;
     v_session_id := None;
     v_token := None |}.

(** A session that holds a view but no token, as a caller of
    [set_authenticated_user] without a token would leave it. *)
Definition session_with_view (v : user_view) : session :=
  set_is_authenticated true
    (set_authenticated_user_key (Some v) (initial_session (Some "conv-1"%string))).

(** The record of a user whose [_id] is a string: the kind of record a
    query by [session["user_id"]] can find. *)
Definition ann_doc : user_doc :=
  {| u_id := StrId "u-ann";
     u_username := Some "ann@example.com"%string;
     u_email := Some "ann@example.com"%string;
     u_password_hash := Bcrypt 3 "S3cretpass";
     u_name := Some "Ann Lee"%string;
     u_mobile := Some "+201000000000"%string;
     u_faculty := Some "Pharmacy"%string;
     u_role := "premium_user";
     u_is_active := true;
     u_created_at := 500;
     u_last_login := None;
     u_session_id := "conv-0" |}.

(** The token issued to Ann at clock 1000, and the store after it. *)
Definition ann_issue : option token * database :=
  AuthService.generate_jwt_token MongoUp 1000 "conv-1" ann_doc
    (mk_database [ann_doc] []).
Definition ann_token : token :=
  Jwt JWT_SECRET_KEY
    {| p_user_id := "u-ann";
       p_username := Some "ann@example.com"%string;
       p_email := Some "ann@example.com"%string;
       p_role := "premium_user";
       p_exp := 1000 + hours TOKEN_EXPIRY_HOURS;
       p_iat := 1000;
       p_session_id := "conv-1" |}.

(** The token of an issuance to Ann at clock 1000 from conversation c1. *)
Definition ann_twin_token : token :=
  Jwt JWT_SECRET_KEY
    {| p_user_id := "u-ann";
       p_username := Some "ann@example.com"%string;
       p_email := Some "ann@example.com"%string;
       p_role := "premium_user";
       p_exp := 1000 + hours TOKEN_EXPIRY_HOURS;
       p_iat := 1000;
       p_session_id := "c1" |}.

(** Seven issuances for Ann, one second apart. *)
Definition ann_issuances : list (Z * string * user_doc) :=
  [(1000, "c1", ann_doc); (1001, "c2", ann_doc); (1002, "c3", ann_doc);
   (1003, "c4", ann_doc); (1004, "c5", set_last_login (Some 1003) ann_doc);
   (1005, "c6", ann_doc); (1006, "c7", with_role "admin" ann_doc)]%string.

(** The store after Jane registered in the empty store and was issued a
    token, both at clock 1000. *)
Definition jane_registered : option string * database :=
  AuthService.register_user MongoUp 1000 "conv-1" 7 jane_kyc empty_db.
Definition jane_issue : option token * database :=
  AuthService.generate_jwt_token MongoUp 1000 "conv-1" jane_doc jane_registered.2.

(** A turn with MongoDB up, and one with every operation raising. *)
Definition turn_up (llm : llm_reply) : turn := mk_turn llm 1000 7 MongoUp.
Definition turn_raising (llm : llm_reply) : turn := mk_turn llm 1000 7 MongoRaising.

(** The registration scenario: the six messages, the model answering the
    first one. *)
Definition jane_inputs : list (turn * string) :=
  [(turn_up (LlmContent "REGISTER"), "I want to register");
   (turn_up LlmRaises, "Jane Doe");
   (turn_up LlmRaises, "jane@example.com");
   (turn_up LlmRaises, "+201234567890");
   (turn_up LlmRaises, "Engineering");
   (turn_up LlmRaises, "Passw0rd")]%string.

Definition fresh_world : world :=
  mk_world (initial_session (Some "conv-1"%string)) empty_db [].

(** Ann's conversation after "I want to login" and her email: login step 2. *)
Definition ann_world : world :=
  (run "fue.users"
     [(turn_up LlmRaises, "I want to login"); (turn_up LlmRaises, "Ann@Example.com")]%string
     (mk_world (initial_session (Some "conv-2"%string)) (mk_database [ann_doc] []) [])).2.

(** A conversation at registration step 2, over a KYC collection that
    already holds Jane's email. *)
Definition jane_kyc_doc : kyc_doc :=
  mk_kyc_doc "conv-0" (Some "Jane Doe"%string) (Some "jane@example.com"%string)
    (Some "+201234567890"%string) (Some "Engineering"%string)
    (Some "Passw0rd"%string) 900.
Definition jane_again_world : world :=
  (run "fue.users"
     [(turn_up LlmRaises, "I want to register"); (turn_up LlmRaises, "Jane Doe")]%string
     (mk_world (initial_session (Some "conv-3"%string)) empty_db [jane_kyc_doc])).2.

(* ===================================================================== *)
(** * What the validators accept *)
(* ===================================================================== *)

(** The languages of the regular expressions, against which the matcher of
    [Re] is checked. *)

(** Zero or more chunks of a language. *)
Inductive re_star (L : string → Prop) : string → Prop :=
| re_star_nil : re_star L ""
| re_star_app s1 s2 : L s1 → re_star L s2 → re_star L (s1 +:+ s2).

(** The language of a regular expression. *)
Fixpoint re_lang (r : Re.regex) (s : string) : Prop :=
  match r with
  | Re.Void => False
  | Re.Eps => s = ""
  | Re.Class p => ∃ c, s = String c "" ∧ p c = true
  | Re.Cat r1 r2 => ∃ s1 s2, s = s1 +:+ s2 ∧ re_lang r1 s1 ∧ re_lang r2 s2
  | Re.Alt r1 r2 => re_lang r1 s ∨ re_lang r2 s
  | Re.Star r1 => re_star (re_lang r1) s
  end.

(** Every character of the string satisfies [p]. *)
Fixpoint all_chars (p : ascii → bool) (s : string) : bool :=
  match s with
  | EmptyString => true
  | String c s' => p c && all_chars p s'
  end.

(** The character classes of the name, faculty and email patterns. *)
Definition name_char (c : ascii) : bool := Py.isalpha c || Py.isspace c.
Definition not_at (c : ascii) : bool := negb (Ascii.eqb c "@").

(* ===================================================================== *)
(** * Further functions of the middleware, [main.py] and [kyc_util.py] *)
(* ===================================================================== *)

(** The dictionary that [get_user_context] returns. *)
Record user_context : Type := mk_user_context {
  c_session_id : string;
  c_is_authenticated : bool;
  c_user_id : option string;
  c_username : option string;
  c_email : option string;
  c_role : string
}.

Definition get_user_context (mongo : mongo_status) (now : Z) (db : database)
    (s : session) : user_context * session :=
  let '(user, s') := AuthMiddleware.get_current_user mongo now db s in
  let session_id := session_id_of s' in
  match user with
  | Some user =>
      (mk_user_context session_id true (Some (v_user_id user)) (v_username user)
         (v_email user) (v_role user), s')
  | None => (mk_user_context session_id false None None None "guest", s')
  end.

(** [initialize_user_session] of [main.py], on the session as the chat
    start finds it.  Nothing in the body raises on these values, so the
    handler of its [try] is not reached. *)
Definition initialize_user_session (mongo : mongo_status) (now : Z) (db : database)
    (s : session) : session :=
  let s := set_is_authenticated false s in
  let s := set_user_role (Some "guest"%string) s in
  let s := set_kyc_step (Some 0) s in
  let s := set_kyc_data (Some ∅) s in
  let s := set_auth_mode None s in
  match jwt_token s with
  | Some tok =>
      if token_truthy tok then
        let '(user_data, s) := AuthMiddleware.get_current_user mongo now db s in
        match user_data with
        | Some user_data =>
            let s := set_is_authenticated true s in
            let s := set_user_id (Some (v_user_id user_data)) s in
            let s := set_email (v_email user_data) s in
            let s := set_name (v_name user_data) s in
            set_user_role (Some (v_role user_data)) s
        | None => set_jwt_token None s
        end
      else s
  | None => s
  end.

(** A session in which no key has been set yet. *)
Definition blank_session (id : option string) : session :=
  {| sess_id := id; kyc_data := None; kyc_step := None; auth_mode := None;
     is_authenticated := false; authenticated_user := None; auth_token := None;
     jwt_token := None; user_id := None; email := None; name := None;
     user_role := None; kyc := None; is_kyc_complete := false |}.

(** [extract_kyc_variables_from_response] of [kyc_util.py], on a string:
    [(completion_status, show_register_button)]. *)
Definition extract_kyc_variables_from_response (response_text : string) : bool * bool :=
  let completion_status := false in
  let show_register_button := false in
  let completion_status :=
    if Py.contains "COMPLETION_STATUS=true" response_text then true
    else if Py.contains "COMPLETION_STATUS=false" response_text then false
    else completion_status in
  let show_register_button :=
    if Py.contains "SHOW_REGISTER_BUTTON=true" response_text then true
    else if Py.contains "SHOW_REGISTER_BUTTON=false" response_text then false
    else show_register_button in
  (completion_status, show_register_button).

(* ===================================================================== *)
(** * The shape of the dialogue *)
(* ===================================================================== *)

(** The keys of [kyc_data] that the dialogue holds at the start of a turn. *)
Definition registration_keys : list string := ["name"; "email"; "mobile"; "faculty"]%string.

Definition collected_keys (m : option mode) (z : Z) : list string :=
  match m with
  | None => []
  | Some ModeLogin => if z =? 2 then ["email"%string] else []
  | Some ModeRegister => take (Z.to_nat (z - 1)) registration_keys
  end.

Definition step_in_range (m : option mode) (z : Z) : Prop :=
  match m with
  | None => z = 0
  | Some ModeLogin => 1 <= z <= 2
  | Some ModeRegister => 1 <= z <= 5
  end.

(** An email as the dialogue stores it. *)
Definition stored_email (e : string) : Prop :=
  ∃ m, is_valid_email m = true ∧ e = Py.lower (Py.strip m).

Definition dialogue_shape (s : session) : Prop :=
  ∃ z kd, kyc_step s = Some z ∧ kyc_data s = Some kd ∧
    step_in_range (auth_mode s) z ∧
    (∀ k, is_Some (kd !! k) ↔ k ∈ collected_keys (auth_mode s) z) ∧
    (∀ v, kd !! "name" = Some v → validate_name v = true) ∧
    (∀ v, kd !! "email" = Some v → stored_email v) ∧
    (∀ v, kd !! "mobile" = Some v → is_valid_mobile v = true) ∧
    (∀ v, kd !! "faculty" = Some v → validate_faculty v = true).

(** The keys of the session that hold the outcome of a login. *)
Definition login_keys (s : session)
    : option user_view * option token * option (gmap string (option string)) * bool :=
  (authenticated_user s, auth_token s, kyc s, is_kyc_complete s).

(** The keys of the session that hold the outcome of a registration. *)
Definition registration_profile (s : session)
    : option token * option string * option string * option string * option string :=
  (jwt_token s, user_id s, email s, name s, user_role s).

(** The preamble of [handle_kyc] fills the dialogue keys that are missing
    and touches nothing else. *)
Definition with_dialogue_defaults (w : world) : world :=
  let w := if kyc_data (sess w) is None
           then with_sess (set_kyc_data (Some ∅)) w else w in
  if kyc_step (sess w) is None then with_sess (set_kyc_step (Some 0)) w else w.

(* ===================================================================== *)
(** * More sample data *)
(* ===================================================================== *)

(** Jane's conversation after her first five messages: registration step 5,
    and what it has collected. *)
Definition jane_step5_world : world :=
  (run "fue.users" (take 5 jane_inputs) fresh_world).2.

(** The world after her password, and a later conversation over the stores
    it left, after "I want to login" and her email: login step 2. *)
Definition jane_registered_world : world :=
  (handle_kyc "fue.users" (turn_up LlmRaises) "Passw0rd" jane_step5_world).2.
Definition turn_later (llm : llm_reply) : turn := mk_turn llm 2000 8 MongoUp.
Definition jane_login_world : world :=
  (run "fue.users"
     [(turn_later LlmRaises, "I want to login"); (turn_later LlmRaises, "Jane@Example.com ")]%string
     (mk_world (initial_session (Some "conv-4"%string)) (db jane_registered_world) [])).2.

(* ===================================================================== *)
(** * Properties: intent classifier *)
(* ===================================================================== *)

Lemma first_keyword_hit {A} (kws : list string) (m : string) (r k : A) :
  (∃ kw, kw ∈ kws ∧ Py.contains kw m = true) → first_keyword kws m r k = r.
Proof.
  induction kws as [|kw0 kws IH]; intros (kw & Hin & Hc).
  - inversion Hin.
  - simpl. destruct (Py.contains kw0 m) eqn:E; [done|].
    apply IH. exists kw. split; [|done].
    apply elem_of_cons in Hin as [->|Hin]; [congruence|done].
Qed.

Lemma first_keyword_miss {A} (kws : list string) (m : string) (r k : A) :
  (∀ kw, kw ∈ kws → Py.contains kw m = false) → first_keyword kws m r k = k.
Proof.
  induction kws as [|kw0 kws IH]; intros Hno; [done|].
  simpl. rewrite (Hno kw0) by apply list_elem_of_here.
  apply IH. intros kw Hin. apply Hno. by apply list_elem_of_further.
Qed.

(** The validators and the keyword fallback on sample inputs.  [re.match]
    anchors at the start only, so text after a well-formed email passes;
    [$] lets one final line feed through. *)
Example validators_on_samples :
  (validate_name "Jane Doe", validate_name "J", validate_name "Jane2",
   is_valid_email "jane@example.com", is_valid_email "not-an-email",
   is_valid_email "jane@example.com and more",
   is_valid_mobile "+201234567890", is_valid_mobile "12345",
   is_valid_mobile ("+201234567890" +:+ Py.nl),
   validate_faculty "Engineering", validate_faculty "Arts & Design",
   validate_faculty "X",
   is_valid_password "abcdefg1", is_valid_password "abcdefgh",
   is_valid_password "short1")
  = (true, false, false,
     true, false, true,
     true, false, true,
     true, true, false,
     true, false, false).
Proof. vm_compute. reflexivity. Qed.

Example keyword_fallback_on_samples :
  (check_application_intent "  I Want To LOGIN  ",
   check_application_intent "login or register?",
   check_application_intent "I want to apply",
   check_application_intent "How are the dorms?")
  = (Some Login, Some Login, Some Register, None).
Proof. vm_compute. reflexivity. Qed.

(** C8, as stated, fails: an answer of the language model outside
    REGISTER / LOGIN does not degrade to the keyword fallback.  On the
    message "I want to login" with the answer "MAYBE" the classifier returns
    [None], where the keyword fallback returns [login]. *)
Lemma unmapped_answer_skips_fallback :
  detect_application_intent (LlmContent "MAYBE") "I want to login"
  ≠ check_application_intent "I want to login".
Proof. vm_compute. discriminate. Qed.

(** C8, amended.  The classifier is a total function of the message and of
    what the language model does.  When the model is unavailable or raises,
    the result is the keyword fallback; when it answers, REGISTER and LOGIN
    (trimmed, case-normalised) map to their intents and every other answer
    maps to [None] without consulting the keywords.  The fallback tests the
    login phrases before the register phrases on the lower-cased, trimmed
    message and returns [None] when no phrase occurs.  With the model forced
    to fail, "I want to login" is classified as [login]. *)
Theorem classifier_fallback :
  (∀ m, detect_application_intent LlmUnavailable m = check_application_intent m) ∧
  (∀ m, detect_application_intent LlmRaises m = check_application_intent m) ∧
  (∀ c m, Py.upper (Py.strip c) = "REGISTER"%string →
          detect_application_intent (LlmContent c) m = Some Register) ∧
  (∀ c m, Py.upper (Py.strip c) = "LOGIN"%string →
          detect_application_intent (LlmContent c) m = Some Login) ∧
  (∀ c m, Py.upper (Py.strip c) ≠ "REGISTER"%string →
          Py.upper (Py.strip c) ≠ "LOGIN"%string →
          detect_application_intent (LlmContent c) m = None) ∧
  (∀ m, (∃ kw, kw ∈ login_keywords ∧ Py.contains kw (Py.strip (Py.lower m)) = true) →
        check_application_intent m = Some Login) ∧
  (∀ m, (∀ kw, kw ∈ login_keywords → Py.contains kw (Py.strip (Py.lower m)) = false) →
        (∃ kw, kw ∈ register_keywords ∧ Py.contains kw (Py.strip (Py.lower m)) = true) →
        check_application_intent m = Some Register) ∧
  (∀ m, (∀ kw, kw ∈ login_keywords ++ register_keywords →
               Py.contains kw (Py.strip (Py.lower m)) = false) →
        check_application_intent m = None) ∧
  detect_application_intent LlmRaises "I want to login" = Some Login ∧
  detect_application_intent LlmUnavailable "I want to login" = Some Login.
Proof.
  repeat split; try done.
  - intros c m H. unfold detect_application_intent. by rewrite H.
  - intros c m H. unfold detect_application_intent. by rewrite H.
  - intros c m H1 H2. unfold detect_application_intent.
    apply String.eqb_neq in H1, H2. by rewrite H1, H2.
  - intros m H. unfold check_application_intent. by apply first_keyword_hit.
  - intros m Hno H. unfold check_application_intent.
    rewrite first_keyword_miss by done. by apply first_keyword_hit.
  - intros m Hno. unfold check_application_intent.
    rewrite !first_keyword_miss; [done| |];
      intros kw Hin; apply Hno, elem_of_app; auto.
Qed.

(** The amended C8 at work: with the model down, "Please sign me up" holds no
    login phrase and holds the register phrase "sign up". *)
Lemma classifier_fallback_witness :
  check_application_intent "Please sign up today" = Some Register.
Proof.
  apply (proj1 (proj2 (proj2 (proj2 (proj2 (proj2 (proj2 classifier_fallback))))))).
  - intros kw Hin. repeat (apply elem_of_cons in Hin as [->|Hin]; [vm_compute; reflexivity|]).
    inversion Hin.
  - exists "sign up"%string. split; [|vm_compute; reflexivity].
    repeat first [apply list_elem_of_here | apply list_elem_of_further].
Defined.

(* ===================================================================== *)
(** * Properties: authorization layer *)
(* ===================================================================== *)

Lemma get_user_role_current (mongo : mongo_status) (now : Z) (d : database) (s : session) :
  AuthMiddleware.get_user_role mongo now d s
  = (current_role (AuthMiddleware.get_current_user mongo now d s).1,
     (AuthMiddleware.get_current_user mongo now d s).2).
Proof.
  unfold AuthMiddleware.get_user_role, current_role.
  destruct (AuthMiddleware.get_current_user mongo now d s) as [[v|] s']; simpl; [|done].
  by destruct (UserRole_of_value (v_role v)).
Qed.

(** C9.  [has_permission required] is the comparison
    [order(currentRole) >= order(required)] under
    guest(0) < user(1) < premium_user(2) < admin(3), where the current role
    is that of the view [get_current_user] returns, [user] when the view's
    role string is not one of the four, and [guest] when there is no current
    user, in particular in a session that is not authenticated.  So ADMIN is
    refused to role user and granted to role admin, and GUEST is granted to
    every session. *)
Theorem has_permission_order (mongo : mongo_status) (now : Z) (d : database)
    (s : session) (required : UserRole) :
  let user := (AuthMiddleware.get_current_user mongo now d s).1 in
  let granted := (AuthMiddleware.has_permission mongo now d required s).1 in
  (granted = true ↔ role_hierarchy (current_role user) >= role_hierarchy required) ∧
  (role_hierarchy GUEST = 0 ∧ role_hierarchy USER = 1 ∧
   role_hierarchy PREMIUM = 2 ∧ role_hierarchy ADMIN = 3) ∧
  (is_authenticated s = false → user = None ∧ current_role user = GUEST) ∧
  (∀ v, user = Some v → UserRole_of_value (v_role v) = None → current_role user = USER) ∧
  (∀ v r, user = Some v → v_role v = UserRole_value r → current_role user = r) ∧
  (current_role user = USER → required = ADMIN → granted = false) ∧
  (current_role user = ADMIN → required = ADMIN → granted = true) ∧
  (required = GUEST → granted = true).
Proof.
  intros user granted. subst granted.
  unfold AuthMiddleware.has_permission. rewrite get_user_role_current. fold user. simpl.
  repeat split.
  - intros H. apply Z.leb_le in H. lia.
  - intros H. apply Z.leb_le. lia.
  - subst user. unfold AuthMiddleware.get_current_user. by rewrite H.
  - subst user. unfold AuthMiddleware.get_current_user. by rewrite H.
  - intros v Hv Hr. rewrite Hv. simpl. by rewrite Hr.
  - intros v r Hv Hr. rewrite Hv. simpl. rewrite Hr. by destruct r.
  - intros Hu ->. by rewrite Hu.
  - intros Hu ->. by rewrite Hu.
  - intros ->. apply Z.leb_le. simpl. destruct (current_role user); simpl; lia.
Qed.

(** The bounds of C9 at a session whose view carries the role admin. *)
Lemma has_permission_order_witness :
  (AuthMiddleware.has_permission MongoUp 2000 empty_db ADMIN
     (session_with_view (view_of (with_role "admin" jane_doc)))).1 = true.
Proof.
  destruct (has_permission_order MongoUp 2000 empty_db
              (session_with_view (view_of (with_role "admin" jane_doc))) ADMIN)
    as (_ & _ & _ & _ & _ & _ & Hadmin & _).
  apply Hadmin; reflexivity.
Defined.

(* ===================================================================== *)
(** * Properties: the stores *)
(* ===================================================================== *)

Lemma find_none_all {A} (p : A → bool) (l : list A) :
  (∀ x, x ∈ l → p x = false) → List.find p l = None.
Proof.
  induction l as [|x l IH]; intros H; [done|]. simpl.
  rewrite (H x) by apply list_elem_of_here.
  apply IH. intros y Hy. apply H. by apply list_elem_of_further.
Qed.

Lemma find_some_elem {A} (p : A → bool) (l : list A) (x : A) :
  List.find p l = Some x → x ∈ l ∧ p x = true.
Proof.
  induction l as [|y l IH]; [done|]. simpl.
  destruct (p y) eqn:E.
  - intros [= ->]. split; [apply list_elem_of_here|done].
  - intros H. destruct (IH H). split; [by apply list_elem_of_further|done].
Qed.

Lemma find_is_some {A} (p : A → bool) (l : list A) (x : A) :
  x ∈ l → p x = true → ∃ y, List.find p l = Some y.
Proof.
  intros Hin Hp. destruct (List.find p l) as [y|] eqn:E; [by exists y|].
  induction l as [|z l IH]; [inversion Hin|]. simpl in E.
  destruct (p z) eqn:Ez; [done|].
  apply elem_of_cons in Hin as [->|Hin]; [congruence|]. by apply IH.
Qed.

Lemma fresh_oid_bound (ids : list bson_id) (i : bson_id) :
  i ∈ ids → (oid_num i <= foldr N.max 0 (oid_num <$> ids))%N.
Proof.
  induction ids as [|j ids IH]; [inversion 1|].
  intros Hin. rewrite fmap_cons. cbn [foldr].
  apply elem_of_cons in Hin as [->|Hin]; [lia|].
  specialize (IH Hin). lia.
Qed.

(** The [_id] of an inserted document is new to the collection. *)
Lemma fresh_oid_fresh (ids : list bson_id) : fresh_oid ids ∉ ids.
Proof.
  intros Hin. apply fresh_oid_bound in Hin. unfold fresh_oid in Hin.
  cbn [oid_num] in Hin. lia.
Qed.

Lemma ObjectId_of_str_oid_str (n : N) : ObjectId_of_str (oid_str n) = Some (ObjectId n).
Proof.
  unfold ObjectId_of_str, oid_str. rewrite NilEmpty.usu.
  by rewrite HexadecimalN.Unsigned.of_to.
Qed.

Lemma oid_str_nonempty (n : N) : ∃ c s, oid_str n = String c s.
Proof.
  unfold oid_str. destruct (N.to_hex_uint n) as [|u|u|u|u|u|u|u|u|u|u|u|u|u|u|u|u] eqn:E;
    simpl; eauto.
  exfalso. destruct n as [|p]; [done|]. simpl in E.
  pose proof (HexadecimalPos.Unsigned.to_uint_nonnil p). congruence.
Qed.

(** Distinct keys identify the element. *)
Lemma NoDup_fmap_eq {A B} (f : A → B) (l : list A) (x y : A) :
  NoDup (f <$> l) → x ∈ l → y ∈ l → f x = f y → x = y.
Proof.
  induction l as [|z l IH]; [inversion 2|].
  rewrite fmap_cons. intros Hnd Hx Hy Hf. apply NoDup_cons in Hnd as [Hz Hnd].
  apply elem_of_cons in Hx as [->|Hx]; apply elem_of_cons in Hy as [->|Hy]; auto.
  - exfalso. apply Hz. rewrite Hf. by apply list_elem_of_fmap_2.
  - exfalso. apply Hz. rewrite <- Hf. by apply list_elem_of_fmap_2.
Qed.

(** The store after an issuance: the pruned collection, then the new record. *)
Lemma generate_jwt_token_sessions (now : Z) (sid : string) (user : user_doc) (d : database) :
  ∃ new,
    AuthService.generate_jwt_token MongoUp now sid user d
    = (Some (sd_token new),
       mk_database (users_collection d) (pruned (str_id (u_id user)) d ++ [new])) ∧
    sd_user_id new = str_id (u_id user) ∧ sd_created_at new = now ∧
    sd_expires_at new = now + hours TOKEN_EXPIRY_HOURS ∧ sd_is_active new = true ∧
    sd_id new ∉ (sd_id <$> pruned (str_id (u_id user)) d).
Proof.
  exists {| sd_id := fresh_oid (sd_id <$> pruned (str_id (u_id user)) d);
            sd_user_id := str_id (u_id user);
            sd_token :=
              jwt_encode
                {| p_user_id := str_id (u_id user);
                   p_username := u_username user;
                   p_email := u_email user;
                   p_role := u_role user;
                   p_exp := now + hours TOKEN_EXPIRY_HOURS;
                   p_iat := now;
                   p_session_id := sid |} JWT_SECRET_KEY;
            sd_session_id := sid;
            sd_created_at := now;
            sd_expires_at := now + hours TOKEN_EXPIRY_HOURS;
            sd_is_active := true;
            sd_logout_at := None |}.
  split; [reflexivity|]. simpl. repeat split. apply fresh_oid_fresh.
Qed.

(* ===================================================================== *)
(** * Properties: token verification *)
(* ===================================================================== *)

(** No live session record, no view. *)
Lemma verify_token_no_session (mongo : mongo_status) (now : Z) (tok : token) (d : database) :
  (∀ s, s ∈ sessions_collection d → sd_token s = tok → sd_is_active s = true →
        ¬ (now < sd_expires_at s)) →
  AuthService.verify_token mongo now tok d = None.
Proof.
  intros H. unfold AuthService.verify_token.
  destruct (jwt_decode tok JWT_SECRET_KEY now); [|done..].
  destruct mongo; [|done..].
  rewrite find_none_all; [done|].
  intros s Hs. specialize (H s Hs).
  destruct (decide (sd_token s = tok)) as [Ht|Ht].
  - rewrite bool_decide_true by done. simpl.
    destruct (sd_is_active s); [|done]. simpl.
    apply Z.ltb_ge. specialize (H Ht eq_refl). lia.
  - by rewrite bool_decide_false.
Qed.

(** [update_one] with the logout patch leaves no active record for a token
    that at most one record carries. *)
Lemma logout_deactivates (now : Z) (tok : token) (l : list session_doc) :
  (length (filter (fun s => sd_token s = tok) l) ≤ 1)%nat →
  ∀ s, s ∈ update_one (fun s => bool_decide (sd_token s = tok)) (set_logged_out now) l →
       sd_token s = tok → sd_is_active s = false.
Proof.
  induction l as [|x l IH]; intros Hlen s Hin Htok; [inversion Hin|].
  simpl in Hin. rewrite filter_cons in Hlen.
  destruct (decide (sd_token x = tok)) as [Hx|Hx].
  - rewrite bool_decide_true in Hin by done.
    apply elem_of_cons in Hin as [->|Hin]; [done|].
    simpl in Hlen.
    assert (filter (fun s => sd_token s = tok) l = []) as Hnil
      by (destruct (filter _ l); [done|simpl in Hlen; lia]).
    exfalso. eapply (filter_nil_not_elem_of _ l s Hnil); done.
  - rewrite bool_decide_false in Hin by done.
    apply elem_of_cons in Hin as [->|Hin]; [done|].
    by apply IH.
Qed.

(** C5.  [verify_token] returns [None] for every token without a session
    record that carries exactly this token, is active, and expires strictly
    after the clock, whatever the token's signature says.  So a token with
    no record at all (pruned) is invalid; a token whose only record was
    deactivated by [logout_user] is invalid; and a token whose records
    expire at the current instant exactly is invalid. *)
Theorem verify_token_needs_live_session :
  (∀ mongo now tok d,
     (∀ s, s ∈ sessions_collection d → sd_token s = tok → sd_is_active s = true →
           ¬ (now < sd_expires_at s)) →
     AuthService.verify_token mongo now tok d = None) ∧
  (∀ mongo now tok d,
     (∀ s, s ∈ sessions_collection d → sd_token s ≠ tok) →
     AuthService.verify_token mongo now tok d = None) ∧
  (∀ mongo now logout_at tok d,
     (length (filter (fun s => sd_token s = tok) (sessions_collection d)) ≤ 1)%nat →
     AuthService.verify_token mongo now tok
       (AuthService.logout_user MongoUp logout_at tok d).2 = None) ∧
  (∀ mongo now tok d,
     (∀ s, s ∈ sessions_collection d → sd_token s = tok → sd_expires_at s = now) →
     AuthService.verify_token mongo now tok d = None).
Proof.
  repeat split.
  - apply verify_token_no_session.
  - intros mongo now tok d H. apply verify_token_no_session.
    intros s Hs Ht. by destruct (H s Hs).
  - intros mongo now logout_at tok d Hlen. apply verify_token_no_session.
    simpl. intros s Hs Ht Hact.
    rewrite (logout_deactivates logout_at tok _ Hlen s Hs Ht) in Hact. done.
  - intros mongo now tok d H. apply verify_token_no_session.
    intros s Hs Ht _. rewrite (H s Hs Ht). lia.
Qed.

(** C5 at Ann's token: valid before the logout, invalid after it. *)
Lemma verify_token_needs_live_session_witness :
  ann_issue.1 = Some ann_token ∧
  AuthService.verify_token MongoUp 2000 ann_token ann_issue.2 ≠ None ∧
  AuthService.verify_token MongoUp 2000 ann_token
    (AuthService.logout_user MongoUp 1500 ann_token ann_issue.2).2 = None.
Proof.
  split; [reflexivity|]. split; [vm_compute; discriminate|].
  destruct verify_token_needs_live_session as (_ & _ & Hlogout & _).
  apply Hlogout. vm_compute. lia.
Defined.

(** [logout_user] deactivates one record ([update_one]).  Two issuances to
    one user in the same second of the same conversation record one token
    string twice, and such a token keeps a live record after a logout. *)
Example logout_leaves_twin_record :
  let d := issue_all [(1000, "c1", ann_doc); (1000, "c1", ann_doc)]%string
             (mk_database [ann_doc] []) in
  sd_token <$> sessions_collection d = [ann_twin_token; ann_twin_token] ∧
  (AuthService.logout_user MongoUp 1500 ann_twin_token d).1 = true ∧
  AuthService.verify_token MongoUp 2000 ann_twin_token
    (AuthService.logout_user MongoUp 1500 ann_twin_token d).2 ≠ None.
Proof. vm_compute. repeat split; discriminate. Qed.

Lemma register_user_objectid_users (mongo : mongo_status) (now : Z) (sid : string)
    (salt : N) (kyc_data : gmap string string) (d : database) :
  objectid_users d →
  objectid_users (AuthService.register_user mongo now sid salt kyc_data d).2.
Proof.
  intros H. unfold AuthService.register_user.
  destruct mongo; [|done..].
  destruct (List.find _ _); [done|].
  destruct (kyc_data !! "password"); [|done].
  intros u Hu. simpl in Hu. apply elem_of_app in Hu as [Hu|Hu]; [by apply H|].
  apply list_elem_of_singleton in Hu as ->. simpl. unfold fresh_oid. eauto.
Qed.

(** C1 fails on the code.  [verify_token] looks the user up by
    [{"_id": session["user_id"]}], and [session["user_id"]] is the string
    [str(user["_id"])]; the records that [register_user] inserts carry an
    [ObjectId], which no string equals.  So in a store whose users carry
    [ObjectId]s, the token that [generate_jwt_token] has just issued is
    refused, at every clock reading. *)
Theorem issued_token_is_refused (mongo mongo' : mongo_status) (now now' : Z)
    (sid : string) (user : user_doc) (d d' : database) (tok : token) :
  objectid_users d →
  AuthService.generate_jwt_token mongo now sid user d = (Some tok, d') →
  AuthService.verify_token mongo' now' tok d' = None.
Proof.
  intros Hids Hgen. unfold AuthService.generate_jwt_token in Hgen.
  destruct mongo; [|done..]. injection Hgen as <- <-.
  unfold AuthService.verify_token.
  destruct (jwt_decode _ _ _); [|done..].
  destruct mongo'; [|done..].
  destruct (List.find _ _) as [session|]; [|done].
  rewrite find_none_all; [done|].
  intros u Hu. simpl in Hu. destruct (Hids u Hu) as [n Hn].
  rewrite Hn. by rewrite bool_decide_false.
Qed.

(** C1 at Jane: registered in the empty store, issued a token, refused at
    the same instant. *)
Lemma issued_token_is_refused_witness :
  jane_registered = (Some "1"%string, mk_database [jane_doc] []) ∧
  ∃ tok, jane_issue.1 = Some tok ∧
         AuthService.verify_token MongoUp 1000 tok jane_issue.2 = None.
Proof.
  split; [reflexivity|].
  destruct jane_issue as [[tok|] d'] eqn:E; [|vm_compute in E; discriminate].
  exists tok. split; [reflexivity|].
  apply (issued_token_is_refused MongoUp MongoUp 1000 1000 "conv-1" jane_doc
           jane_registered.2 d' tok); [|exact E].
  apply register_user_objectid_users. intros u Hu. inversion Hu.
Defined.

(** Ann's [_id] is a string, and her token verifies. *)
Example verify_token_round_trip_string_id :
  ann_issue.1 = Some ann_token ∧
  ∃ v, AuthService.verify_token MongoUp 1000 ann_token ann_issue.2 = Some v ∧
       v_user_id v = str_id (u_id ann_doc) ∧ v_email v = u_email ann_doc ∧
       v_role v = u_role ann_doc.
Proof. split; [reflexivity|]. eexists. split; [vm_compute; reflexivity|done]. Qed.

(** The round trip does hold for a user whose [_id] is a string, in
    a store with distinct user [_id]s where the records that carry the issued
    token string, if any, are this user's: before the expiry the issued
    token verifies to the user's id, email and role. *)
Lemma verify_token_round_trip_string_ids (now now' : Z) (sid : string) (user : user_doc)
    (d d' : database) (tok : token) :
  user ∈ users_collection d → u_is_active user = true →
  u_id user = StrId (str_id (u_id user)) →
  NoDup (u_id <$> users_collection d) →
  (∀ s, s ∈ sessions_collection d → sd_token s = tok →
        sd_user_id s = str_id (u_id user)) →
  AuthService.generate_jwt_token MongoUp now sid user d = (Some tok, d') →
  now' < now + hours TOKEN_EXPIRY_HOURS →
  ∃ v, AuthService.verify_token MongoUp now' tok d' = Some v ∧
       v_user_id v = str_id (u_id user) ∧ v_email v = u_email user ∧
       v_role v = u_role user.
Proof.
  intros Hin Hact Hstr Hnd Hown Hgen Hnow.
  destruct (generate_jwt_token_sessions now sid user d)
    as (new & Hgen' & Hnu & _ & Hexp & Hnact & _).
  rewrite Hgen' in Hgen. injection Hgen as <- <-.
  unfold AuthService.verify_token.
  assert (∃ payload, jwt_decode (sd_token new) JWT_SECRET_KEY now' = Decoded payload)
    as [payload ->].
  { revert Hgen'. unfold AuthService.generate_jwt_token. intros [= Htok _].
    rewrite <- Htok. unfold jwt_decode, jwt_encode. rewrite String.eqb_refl.
    cbn [p_exp]. destruct (Z.leb_spec (now + hours TOKEN_EXPIRY_HOURS) now'); [lia|eauto]. }
  cbn [sessions_collection users_collection].
  destruct (find_is_some
              (fun s => bool_decide (sd_token s = sd_token new) && sd_is_active s
                        && (now' <? sd_expires_at s))
              (pruned (str_id (u_id user)) d ++ [new]) new) as [s0 Hs0].
  { apply elem_of_app. right. by apply list_elem_of_singleton. }
  { rewrite bool_decide_true by done. rewrite Hnact, Hexp. simpl. apply Z.ltb_lt. lia. }
  rewrite Hs0. apply find_some_elem in Hs0 as [Hs0in Hs0p].
  apply andb_true_iff in Hs0p as [Hs0p _]. apply andb_true_iff in Hs0p as [Hs0t _].
  apply bool_decide_eq_true in Hs0t.
  assert (sd_user_id s0 = str_id (u_id user)) as Hs0u.
  { apply elem_of_app in Hs0in as [Hs0in|Hs0in].
    - apply list_elem_of_filter in Hs0in as [_ Hs0in]. by apply Hown.
    - by apply list_elem_of_singleton in Hs0in as ->. }
  rewrite Hs0u, <- Hstr.
  destruct (find_is_some (fun u => bool_decide (u_id u = u_id user) && u_is_active u)
              (users_collection d) user Hin) as [u0 Hu0].
  { rewrite bool_decide_true by done. by rewrite Hact. }
  rewrite Hu0. apply find_some_elem in Hu0 as [Hu0in Hu0p].
  apply andb_true_iff in Hu0p as [Hu0p _]. apply bool_decide_eq_true in Hu0p.
  assert (u0 = user) as -> by (eapply NoDup_fmap_eq; eauto).
  eexists. split; [reflexivity|]. done.
Qed.

(* ===================================================================== *)
(** * Properties: registration in the store *)
(* ===================================================================== *)




(* ===================================================================== *)
(** * Properties: session retention *)
(* ===================================================================== *)

Global Instance newer_first_total : Total newer_first.
Proof. intros a b. unfold newer_first. lia. Qed.

Global Instance newer_first_trans : Transitive newer_first.
Proof. intros a b c. unfold newer_first. lia. Qed.

Lemma filter_none {A} (P : A → Prop) `{!∀ x, Decision (P x)} (l : list A) :
  (∀ x, x ∈ l → ¬ P x) → filter P l = [].
Proof.
  induction l as [|x l IH]; intros Hno; [done|].
  rewrite filter_cons_False by (apply Hno, list_elem_of_here).
  apply IH. intros y Hy. apply Hno. by apply list_elem_of_further.
Qed.

Lemma filter_skip_bound {A} (Q : A → Prop) `{!∀ x, Decision (Q x)} (n : nat) (l : list A) :
  (∀ x, x ∈ drop n l → ¬ Q x) → (length (filter Q l) ≤ n)%nat.
Proof.
  intros Hdrop. rewrite <- (take_drop n l), filter_app, length_app.
  rewrite (filter_none Q (drop n l)) by done.
  pose proof (length_filter Q (take n l)). pose proof (length_take l n).
  simpl. lia.
Qed.

(** At most four of the user's earlier records survive the pruning. *)
Lemma pruned_bound (uid : string) (d : database) :
  (length (sessions_of uid (mk_database (users_collection d) (pruned uid d))) ≤ 4)%nat.
Proof.
  unfold sessions_of, pruned. simpl.
  set (Q := fun s => sd_id s ∉ (sd_id <$> drop 4 (newest_first uid d))).
  set (P := fun s => sd_user_id s = uid).
  rewrite list_filter_filter.
  rewrite (list_filter_iff _ (fun s => Q s ∧ P s)) by tauto.
  rewrite <- list_filter_filter.
  assert (filter P (sessions_collection d) ≡ₚ newest_first uid d) as Hperm
    by (symmetry; apply merge_sort_Permutation).
  rewrite Hperm.
  apply filter_skip_bound.
  intros s Hs HQ. apply HQ. by apply list_elem_of_fmap_2.
Qed.

Lemma issue_bound (now : Z) (sid : string) (user : user_doc) (d : database) :
  (length (sessions_of (str_id (u_id user))
             (AuthService.generate_jwt_token MongoUp now sid user d).2) ≤ 5)%nat.
Proof.
  destruct (generate_jwt_token_sessions now sid user d) as (new & -> & Hu & _).
  pose proof (pruned_bound (str_id (u_id user)) d) as Hb.
  unfold sessions_of in *. simpl in *.
  rewrite filter_app, length_app. rewrite filter_cons_True by done. simpl. lia.
Qed.

Lemma issue_all_bound (uid : string) (issuances : list (Z * string * user_doc))
    (d : database) :
  issuances ≠ [] →
  (∀ i, i ∈ issuances → str_id (u_id i.2) = uid) →
  (length (sessions_of uid (issue_all issuances d)) ≤ 5)%nat.
Proof.
  revert d. induction issuances as [|[[now sid] user] rest IH]; intros d Hne Hu; [done|].
  destruct rest as [|next rest].
  - simpl. rewrite <- (Hu (now, sid, user)) by apply list_elem_of_here.
    apply issue_bound.
  - change (issue_all ((now, sid, user) :: next :: rest) d)
      with (issue_all (next :: rest)
              (AuthService.generate_jwt_token MongoUp now sid user d).2).
    apply IH; [done|]. intros i Hi. apply Hu. by apply list_elem_of_further.
Qed.

(** The records behind the fourth newest are deleted; with distinct [_id]s
    the four newest stay, and none of them is older than a deleted one. *)
Lemma pruned_keeps_newest (uid : string) (d : database) :
  (∀ s, s ∈ drop 4 (newest_first uid d) → s ∉ pruned uid d) ∧
  (NoDup (sd_id <$> sessions_collection d) →
   ∀ s, s ∈ take 4 (newest_first uid d) → s ∈ pruned uid d) ∧
  (∀ a b, a ∈ take 4 (newest_first uid d) → b ∈ drop 4 (newest_first uid d) →
          sd_created_at b <= sd_created_at a).
Proof.
  assert (newest_first uid d ≡ₚ sessions_of uid d) as Hperm
    by apply merge_sort_Permutation.
  repeat split.
  - intros s Hs Hin. apply list_elem_of_filter in Hin as [Hid _].
    apply Hid. by apply list_elem_of_fmap_2.
  - intros Hnd s Hs. apply list_elem_of_filter. split.
    + assert (NoDup (sd_id <$> newest_first uid d)) as Hnd'.
      { rewrite Hperm. unfold sessions_of.
        eapply sublist_NoDup; [exact Hnd|].
        apply fmap_sublist. apply (sublist_filter _). }
      rewrite <- (take_drop 4 (newest_first uid d)), fmap_app in Hnd'.
      apply NoDup_app in Hnd' as (_ & Hdisj & _).
      apply Hdisj. by apply list_elem_of_fmap_2.
    + assert (s ∈ newest_first uid d) as Hin
        by (rewrite <- (take_drop 4 (newest_first uid d)); apply elem_of_app; auto).
      rewrite Hperm in Hin. unfold sessions_of in Hin.
      by apply list_elem_of_filter in Hin as [_ ?].
  - intros a b Ha Hb.
    pose proof (StronglySorted_merge_sort newer_first (sessions_of uid d)) as Hs.
    fold (newest_first uid d) in Hs.
    rewrite <- (take_drop 4 (newest_first uid d)) in Hs.
    exact (StronglySorted_app_1_elem_of _ _ _ a b Hs Ha Hb).
Qed.

(** C4.  [generate_jwt_token] sorts the user's session records newest
    first, skips four, deletes the rest by [_id], and only then inserts the
    record of the new token.  The store afterwards is the pruned collection
    followed by the new record: the records behind the fourth newest are
    gone, the four newest stay (their [_id]s being distinct), and the new
    record is never among the deleted.  Hence after any N > 5 issuances in
    a row for one user, from any store, at most 5 of the user's session
    records remain. *)
Theorem session_retention (uid : string) (issuances : list (Z * string * user_doc))
    (d : database) :
  (5 < length issuances)%nat →
  (∀ i, i ∈ issuances → str_id (u_id i.2) = uid) →
  (∀ now sid user d0,
     str_id (u_id user) = uid →
     ∃ new,
       AuthService.generate_jwt_token MongoUp now sid user d0
       = (Some (sd_token new),
          mk_database (users_collection d0) (pruned uid d0 ++ [new])) ∧
       sd_user_id new = uid ∧
       (∀ s, s ∈ drop 4 (newest_first uid d0) → s ∉ pruned uid d0) ∧
       (NoDup (sd_id <$> sessions_collection d0) →
        ∀ s, s ∈ take 4 (newest_first uid d0) → s ∈ pruned uid d0) ∧
       (∀ a b, a ∈ take 4 (newest_first uid d0) → b ∈ drop 4 (newest_first uid d0) →
               sd_created_at b <= sd_created_at a)) ∧
  (length (sessions_of uid (issue_all issuances d)) ≤ 5)%nat.
Proof.
  intros HN Hu. split.
  - intros now sid user d0 <-.
    destruct (generate_jwt_token_sessions now sid user d0) as (new & Hgen & Hnew & _).
    destruct (pruned_keeps_newest (str_id (u_id user)) d0) as (Hdel & Hkeep & Hord).
    exists new. auto.
  - apply issue_all_bound; [|done]. intros ->. simpl in HN. lia.
Qed.

(** C4 at Ann: seven issuances at successive clock readings leave at most
    five records (exactly five, in fact). *)
Lemma session_retention_witness :
  (length (sessions_of "u-ann" (issue_all ann_issuances (mk_database [ann_doc] []))) ≤ 5)%nat.
Proof.
  apply (session_retention "u-ann" ann_issuances (mk_database [ann_doc] [])).
  - simpl. lia.
  - intros i Hi. unfold ann_issuances in Hi.
    repeat (apply elem_of_cons in Hi as [->|Hi]; [reflexivity|]). inversion Hi.
Defined.

Example session_retention_exact :
  length (sessions_of "u-ann" (issue_all ann_issuances (mk_database [ann_doc] [])))
  = 5%nat.
Proof. vm_compute. reflexivity. Qed.

(* ===================================================================== *)
(** * Properties: the KYC state machine *)
(* ===================================================================== *)

Section KycProperties.
Context (USERS_COLLECTION : string).

(** The helpers of the state machine leave the three dialogue keys alone.
    Registration, whatever its outcome, also leaves [auth_token] and
    [authenticated_user] as they were. *)
Lemma complete_user_registration_dialogue (t : turn) (kd : gmap string string) (w : world) :
  dialogue (sess (complete_user_registration t kd w).2) = dialogue (sess w) ∧
  auth_token (sess (complete_user_registration t kd w).2) = auth_token (sess w) ∧
  authenticated_user (sess (complete_user_registration t kd w).2) = authenticated_user (sess w).
Proof.
  unfold complete_user_registration, complete_user_registration_try.
  destruct (t_mongo t); [|done|];
    (destruct (AuthService.register_user _ _ _ _ _ _) as [[[|c uid]|] db1]; [done| |done]);
    (destruct (ObjectId_of_str _); [|done]); [|done].
  destruct (List.find _ _); [|done].
  by destruct (AuthService.generate_jwt_token _ _ _ _ _).
Qed.

Lemma attempt_user_login_dialogue (t : turn) (e p : string) (w : world) :
  dialogue (sess (attempt_user_login t e p w).2) = dialogue (sess w).
Proof.
  unfold attempt_user_login.
  destruct (t_mongo t); [|done|];
    (destruct (AuthService.authenticate_user _ _ _ _ _ _) as [[[tok|] [v|]] db1]; try done);
    by destruct (token_truthy tok).
Qed.

Lemma get_current_user_dialogue (mongo : mongo_status) (now : Z) (d : database) (s : session) :
  dialogue (AuthMiddleware.get_current_user mongo now d s).2 = dialogue s.
Proof.
  unfold AuthMiddleware.get_current_user.
  destruct (is_authenticated s); [|done]. simpl.
  destruct (authenticated_user s); [|done].
  destruct (auth_token s) as [tok|]; [|done].
  destruct (token_truthy tok); [|done].
  by destruct (AuthService.verify_token _ _ _ _).
Qed.

(** For a session whose dialogue keys are set, the preamble of [handle_kyc]
    changes nothing. *)
Lemma handle_kyc_unfold (t : turn) (m : string) (w : world) (z : Z)
    (kd : gmap string string) :
  kyc_step (sess w) = Some z → kyc_data (sess w) = Some kd →
  handle_kyc USERS_COLLECTION t m w
  = if z =? 0 then
      match detect_application_intent (t_llm t) m with
      | Some Register =>
          ((true, Some "register"%string, Some msg_start_register),
           with_sess (set_kyc_step (Some 1))
             (with_sess (set_auth_mode (Some ModeRegister)) w))
      | Some Login =>
          ((true, Some "login"%string, Some msg_start_login),
           with_sess (set_kyc_step (Some 1))
             (with_sess (set_auth_mode (Some ModeLogin)) w))
      | None => ((false, None, None), w)
      end
    else
      match auth_mode (sess w) with
      | Some ModeRegister => handle_registration_flow USERS_COLLECTION t m kd z w
      | Some ModeLogin =>
          match handle_login_flow t m kd z w with
          | (Some r, w') => (r, w')
          | (None, w') => ((true, None, None), w')
          end
      | None => ((false, None, None), w)
      end.
Proof.
  intros Hz Hkd. unfold handle_kyc. rewrite Hkd. simpl. rewrite Hz. simpl.
  assert ((if auth_mode (sess w) is None then with_sess (set_auth_mode None) w else w)
          = w) as ->.
  { destruct w as [[? ? ? am ? ? ? ? ? ? ? ? ? ?] ? ?]; simpl in *. by destruct am. }
  by rewrite Hz, Hkd.
Qed.

(** Goals about the dialogue keys of an explicitly updated session. *)
Ltac dialogue_facts :=
  unfold dialogue_invariant, idle_invariant, login_has_email; simpl;
  repeat split; try (eexists; reflexivity); intros; try congruence; eauto.

(** The invariant is kept by the two flows and by [handle_kyc]. *)
Lemma handle_registration_flow_invariant (t : turn) (m : string)
    (kd : gmap string string) (z : Z) (w : world) :
  z ≠ 0 → kyc_step (sess w) = Some z → kyc_data (sess w) = Some kd →
  auth_mode (sess w) = Some ModeRegister →
  dialogue_invariant (sess (handle_registration_flow USERS_COLLECTION t m kd z w).2).
Proof.
  intros Hz Hs Hk Hm.
  assert (dialogue_invariant (sess w)) as Hw by dialogue_facts.
  unfold handle_registration_flow.
  repeat (case_match; try done); dialogue_facts.
Qed.

Lemma handle_login_flow_invariant (t : turn) (m : string)
    (kd : gmap string string) (z : Z) (w : world) :
  z ≠ 0 → kyc_step (sess w) = Some z → kyc_data (sess w) = Some kd →
  auth_mode (sess w) = Some ModeLogin → login_has_email (sess w) →
  dialogue_invariant (sess (handle_login_flow t m kd z w).2).
Proof.
  intros Hz Hs Hk Hm Hl.
  assert (dialogue_invariant (sess w)) as Hw by dialogue_facts.
  unfold handle_login_flow.
  destruct (Z.eqb_spec z 1) as [->|Hz1].
  { destruct (is_valid_email m); [|done]. dialogue_facts.
    eexists _, _. split; [reflexivity|apply lookup_insert_eq]. }
  destruct (Z.eqb_spec z 2) as [->|Hz2]; [|done].
  destruct (Hl Hm Hs) as (kd0 & e & Hk0 & He).
  assert (kd0 = kd) as -> by congruence.
  rewrite lookup_insert_ne by done. rewrite He, lookup_insert_eq.
  match goal with |- context [attempt_user_login ?t ?e ?p ?w0] =>
    pose proof (attempt_user_login_dialogue t e p w0) as Hd;
    destruct (attempt_user_login t e p w0) as [[success message] w1] end.
  unfold dialogue in Hd. simpl in Hd. injection Hd as _ Hmode _.
  destruct success; dialogue_facts.
Qed.

Lemma handle_kyc_invariant (t : turn) (m : string) (w : world) :
  dialogue_invariant (sess w) →
  dialogue_invariant (sess (handle_kyc USERS_COLLECTION t m w).2).
Proof.
  intros Hw. pose proof Hw as ([z Hz] & [kd Hkd] & (H0 & Hn) & Hl).
  rewrite (handle_kyc_unfold t m w z kd Hz Hkd).
  destruct (Z.eqb_spec z 0) as [->|Hne].
  - destruct (detect_application_intent _ _) as [[|]|]; [..|done]; dialogue_facts.
  - destruct (auth_mode (sess w)) as [[|]|] eqn:Hmode; [| |done].
    + by apply handle_registration_flow_invariant.
    + pose proof (handle_login_flow_invariant t m kd z w Hne Hz Hkd Hmode Hl) as Hpost.
      by destruct (handle_login_flow _ _ _ _ _) as [[r|] w2].
Qed.

Lemma reachable_invariant (w : world) :
  reachable USERS_COLLECTION w → dialogue_invariant (sess w).
Proof.
  induction 1 as [id d kc|t m w Hr IH|mongo now w Hr IH|d kc w Hr IH].
  - dialogue_facts.
  - by apply handle_kyc_invariant.
  - destruct IH as ([z Hz] & [kd Hkd] & (H0 & Hn) & Hl).
    pose proof (get_current_user_dialogue mongo now (db w) (sess w)) as Hd.
    unfold dialogue in Hd. injection Hd as Hs Hm Hk.
    unfold with_sess. cbn [sess].
    unfold dialogue_invariant, idle_invariant, login_has_email.
    rewrite Hs, Hm, Hk. eauto 10.
  - done.
Qed.

(** C7.  In every world a conversation can reach from a fresh session (by
    handling messages under any replies of the language model and any
    behaviour of MongoDB, by lookups of the current user in the middleware,
    and under any change of the stores in between), [kyc_step = 0] implies
    [auth_mode = None], and [auth_mode = None] implies that [kyc_data] is
    empty. *)
Theorem idle_state_invariant (w : world) :
  reachable USERS_COLLECTION w → idle_invariant (sess w).
Proof. intros Hr. by destruct (reachable_invariant w Hr) as (_ & _ & ? & _). Qed.


(** A token that [authenticate_user] returns is a non-empty string. *)
Lemma authenticate_user_token_truthy (mongo : mongo_status) (now : Z) (sid e p : string)
    (d : database) (tok : token) (v : option user_view) :
  (AuthService.authenticate_user mongo now sid e p d).1 = (Some tok, v) →
  token_truthy tok = true.
Proof.
  unfold AuthService.authenticate_user. destruct mongo; [|done..].
  destruct (List.find _ _); [|done].
  destruct (negb _); [done|]. simpl. by intros [= <- _].
Qed.

Lemma attempt_user_login_constructed (t : turn) (e p : string) (w : world) :
  t_mongo t ≠ MongoNoClient →
  attempt_user_login t e p w
  = let '((tok, user_data), db1) :=
      AuthService.authenticate_user (t_mongo t) (t_now t) (session_id_of (sess w))
        e p (db w) in
    match tok, user_data with
    | Some tok, Some user_data =>
        if token_truthy tok then
          ((true, msg_login_ok (v_name user_data)),
           with_sess (fun _ => (AuthMiddleware.set_authenticated_user tok user_data
                                  (sess w)).2) (with_db db1 w))
        else ((false, msg_login_invalid), with_db db1 w)
    | _, _ => ((false, msg_login_invalid), with_db db1 w)
    end.
Proof. intros Hup. unfold attempt_user_login. by destruct (t_mongo t). Qed.

(** What a message does at login step 2 in a session that holds the email,
    when the auth service can be constructed. *)
Lemma login_step2_outcome (t : turn) (m : string) (w : world)
    (kd : gmap string string) (e : string) :
  kyc_step (sess w) = Some 2 → auth_mode (sess w) = Some ModeLogin →
  kyc_data (sess w) = Some kd → kd !! "email" = Some e →
  t_mongo t ≠ MongoNoClient →
  let auth := AuthService.authenticate_user (t_mongo t) (t_now t)
                (session_id_of (sess w)) e (Py.strip m) (db w) in
  let out := handle_kyc USERS_COLLECTION t m w in
  match auth.1 with
  | (Some tok, Some v) =>
      kyc_step (sess out.2) = Some 0 ∧ auth_mode (sess out.2) = None ∧
      kyc_data (sess out.2) = Some ∅ ∧
      is_authenticated (sess out.2) = true ∧
      authenticated_user (sess out.2) = Some v ∧ auth_token (sess out.2) = Some tok ∧
      out.1 = (true, Some "login_complete"%string, Some (msg_login_ok (v_name v)))
  | _ =>
      kyc_step (sess out.2) = Some 1 ∧ kyc_data (sess out.2) = Some ∅ ∧
      auth_mode (sess out.2) = Some ModeLogin ∧
      out.1 = (true, Some "login_failed"%string,
               Some (msg_login_invalid +:+ msg_login_retry))
  end.
Proof.
  intros Hz Hmode Hkd He Hup auth out. subst out.
  rewrite (handle_kyc_unfold t m w 2 kd Hz Hkd). simpl. rewrite Hmode.
  unfold handle_login_flow. simpl.
  rewrite lookup_insert_ne by done. rewrite He, lookup_insert_eq.
  rewrite attempt_user_login_constructed by done.
  change (session_id_of _) with (session_id_of (sess w)).
  change (db (with_sess _ w)) with (db w). fold auth.
  pose proof (authenticate_user_token_truthy (t_mongo t) (t_now t)
                (session_id_of (sess w)) e (Py.strip m) (db w)) as Htruthy.
  fold auth in Htruthy. clearbody auth.
  destruct auth as [[[tok|] [v|]] d1]; simpl in *; try done.
  by rewrite (Htruthy tok _ eq_refl).
Qed.

(** When [get_mongo_client] returns [None] the auth service cannot even be
    constructed: the dialogue falls back to step 1 all the same, with the
    technical-error message in front of the re-prompt. *)
Lemma login_step2_no_client (t : turn) (m : string) (w : world)
    (kd : gmap string string) (e : string) :
  kyc_step (sess w) = Some 2 → auth_mode (sess w) = Some ModeLogin →
  kyc_data (sess w) = Some kd → kd !! "email" = Some e →
  t_mongo t = MongoNoClient →
  let out := handle_kyc USERS_COLLECTION t m w in
  kyc_step (sess out.2) = Some 1 ∧ kyc_data (sess out.2) = Some ∅ ∧
  auth_mode (sess out.2) = Some ModeLogin ∧ db out.2 = db w ∧
  out.1 = (true, Some "login_failed"%string,
           Some (msg_technical_login +:+ msg_login_retry)).
Proof.
  intros Hz Hmode Hkd He Hdown out. subst out.
  rewrite (handle_kyc_unfold t m w 2 kd Hz Hkd). simpl. rewrite Hmode.
  unfold handle_login_flow. simpl.
  rewrite lookup_insert_ne by done. rewrite He, lookup_insert_eq.
  unfold attempt_user_login. rewrite Hdown. simpl. by rewrite Hmode.
Qed.

(** C6.  A message handled at login step 2 of a conversation, with the auth
    service constructed.  The session holds the email collected at step 1.
    When [authenticate_user] returns no token, the session is left at step 1
    with empty [kyc_data] and [auth_mode] still login, and the reply is the
    generic invalid-credentials message followed by the re-prompt for the
    email; when it returns a token and a view, the session is reset to
    step 0, no mode, empty [kyc_data], and holds the view and the token. *)
Theorem login_step2_asymmetry (t : turn) (m : string) (w : world) :
  reachable USERS_COLLECTION w →
  kyc_step (sess w) = Some 2 → auth_mode (sess w) = Some ModeLogin →
  t_mongo t ≠ MongoNoClient →
  ∃ kd e,
    kyc_data (sess w) = Some kd ∧ kd !! "email" = Some e ∧
    let auth := AuthService.authenticate_user (t_mongo t) (t_now t)
                  (session_id_of (sess w)) e (Py.strip m) (db w) in
    let out := handle_kyc USERS_COLLECTION t m w in
    match auth.1 with
    | (Some tok, Some v) =>
        kyc_step (sess out.2) = Some 0 ∧ auth_mode (sess out.2) = None ∧
        kyc_data (sess out.2) = Some ∅ ∧
        is_authenticated (sess out.2) = true ∧
        authenticated_user (sess out.2) = Some v ∧ auth_token (sess out.2) = Some tok ∧
        out.1 = (true, Some "login_complete"%string, Some (msg_login_ok (v_name v)))
    | _ =>
        kyc_step (sess out.2) = Some 1 ∧ kyc_data (sess out.2) = Some ∅ ∧
        auth_mode (sess out.2) = Some ModeLogin ∧
        out.1 = (true, Some "login_failed"%string,
                 Some (msg_login_invalid +:+ msg_login_retry))
    end.
Proof.
  intros Hr Hz Hmode Hup.
  destruct (reachable_invariant w Hr) as (_ & _ & _ & Hl).
  destruct (Hl Hmode Hz) as (kd & e & Hkd & He).
  exists kd, e. split; [done|]. split; [done|].
  exact (login_step2_outcome t m w kd e Hz Hmode Hkd He Hup).
Qed.

(** C10.  At registration step 2, when MongoDB does not answer (no client,
    or the lookup raises), [email_exists] is false whatever the collection
    holds: a well-formed email is accepted, stored, and the dialogue moves to
    step 3.  The reply, the session and the stores are those of the same turn
    with MongoDB up and an empty collection. *)
Theorem email_check_fails_open (t : turn) (m : string) (w : world)
    (kd : gmap string string) :
  t_mongo t ≠ MongoUp →
  kyc_step (sess w) = Some 2 → auth_mode (sess w) = Some ModeRegister →
  kyc_data (sess w) = Some kd → is_valid_email m = true →
  let out := handle_kyc USERS_COLLECTION t m w in
  let out_free :=
    handle_kyc USERS_COLLECTION (mk_turn (t_llm t) (t_now t) (t_salt t) MongoUp) m
      (mk_world (sess w) (db w) []) in
  email_exists USERS_COLLECTION (t_mongo t) (kyc_collection w)
    (Py.lower (Py.strip m)) = false ∧
  out.1 = (true, Some "register"%string, Some msg_email_ok) ∧
  kyc_step (sess out.2) = Some 3 ∧
  kyc_data (sess out.2) = Some (<["email" := Py.lower (Py.strip m)]> kd) ∧
  auth_mode (sess out.2) = Some ModeRegister ∧
  out.1 = out_free.1 ∧ sess out.2 = sess out_free.2 ∧ db out.2 = db out_free.2.
Proof.
  intros Hdown Hz Hmode Hkd Hvalid out out_free. subst out out_free.
  assert (email_exists USERS_COLLECTION (t_mongo t) (kyc_collection w)
            (Py.lower (Py.strip m)) = false) as Hex
    by (unfold email_exists; by destruct (t_mongo t)).
  assert (email_exists USERS_COLLECTION MongoUp [] (Py.lower (Py.strip m)) = false)
    as Hfree by (unfold email_exists; by destruct (Py.split _ _) as [|? [|? ?]]).
  split; [done|].
  rewrite (handle_kyc_unfold t m w 2 kd Hz Hkd).
  rewrite (handle_kyc_unfold _ m (mk_world (sess w) (db w) []) 2 kd Hz Hkd).
  cbn [Z.eqb sess auth_mode]. rewrite Hmode.
  unfold handle_registration_flow. cbn [Z.eqb Pos.eqb t_mongo kyc_collection].
  rewrite Hvalid, Hex, Hfree. simpl.
  by rewrite Hmode.
Qed.

(** With a collection name that has no dot, the second index of
    [USERS_COLLECTION.split('.')] raises, and the check is false even with
    MongoDB up. *)
Lemma email_exists_no_dot (kc : list kyc_doc) (email : string) :
  length (Py.split "." USERS_COLLECTION) = 1%nat →
  email_exists USERS_COLLECTION MongoUp kc email = false.
Proof.
  unfold email_exists. by destruct (Py.split "." USERS_COLLECTION) as [|? [|? ?]].
Qed.


Lemma find_app_new {A} (p : A → bool) (l : list A) (x : A) :
  (∀ y, y ∈ l → p y = false) → p x = true → List.find p (l ++ [x]) = Some x.
Proof.
  intros Hl Hx. induction l as [|y l IH]; simpl; [by rewrite Hx|].
  rewrite (Hl y) by apply list_elem_of_here.
  apply IH. intros z Hz. apply Hl. by apply list_elem_of_further.
Qed.

(** Registration of an email that no record has, with MongoDB up: the
    record is stored and found again, a token is issued, and the session
    gets its profile keys, [jwt_token] and [is_authenticated]. *)
Lemma complete_user_registration_fresh (t : turn) (kd : gmap string string)
    (w : world) (pw : string) :
  t_mongo t = MongoUp → kd !! "password" = Some pw →
  (∀ u, u ∈ users_collection (db w) →
        u_email u ≠ kd !! "email" ∧ u_username u ≠ kd !! "email") →
  ∃ uid tok d',
    complete_user_registration t kd w
    = ((true, msg_registration_ok (kd !! "name")),
       mk_world
         (set_user_role (Some "user"%string)
            (set_is_authenticated true
               (set_jwt_token (Some tok)
                  (set_name (kd !! "name")
                     (set_email (kd !! "email")
                        (set_user_id (Some uid) (sess w)))))))
         d' (kyc_collection w)).
Proof.
  intros Hup Hpw Hnew.
  unfold complete_user_registration, complete_user_registration_try.
  rewrite Hup. unfold AuthService.register_user.
  rewrite find_none_all, Hpw.
  2:{ intros u Hu. destruct (Hnew u Hu) as [He Hn].
      by rewrite !bool_decide_false. }
  set (new_id := fresh_oid (u_id <$> users_collection (db w))).
  assert (new_id ∉ u_id <$> users_collection (db w)) as Hfresh
    by apply fresh_oid_fresh.
  unfold fresh_oid in new_id.
  set (n := N.succ _) in new_id. subst new_id. cbn [str_id].
  destruct (oid_str_nonempty n) as (c & rest & Hstr).
  rewrite Hstr. rewrite <- Hstr. rewrite ObjectId_of_str_oid_str.
  cbn [users_collection].
  rewrite find_app_new.
  - cbn [AuthService.generate_jwt_token u_id u_email u_name u_role str_id].
    eexists _, _, _. reflexivity.
  - intros u Hu. apply bool_decide_eq_false. intros Heq. apply Hfresh.
    rewrite <- Heq. by apply list_elem_of_fmap_2.
  - by apply bool_decide_eq_true.
Qed.


(** The transitions of the registration dialogue, one lemma per state. *)
Lemma idle_register_step (t : turn) (m : string) (w : world) (kd : gmap string string) :
  kyc_step (sess w) = Some 0 → kyc_data (sess w) = Some kd →
  detect_application_intent (t_llm t) m = Some Register →
  handle_kyc USERS_COLLECTION t m w
  = ((true, Some "register"%string, Some msg_start_register),
     with_sess (set_kyc_step (Some 1)) (with_sess (set_auth_mode (Some ModeRegister)) w)).
Proof.
  intros Hz Hkd Hllm. rewrite (handle_kyc_unfold t m w 0 kd Hz Hkd).
  cbn [Z.eqb]. by rewrite Hllm.
Qed.

Lemma register_name_step (t : turn) (m : string) (w : world) (kd : gmap string string) :
  kyc_step (sess w) = Some 1 → auth_mode (sess w) = Some ModeRegister →
  kyc_data (sess w) = Some kd → validate_name m = true →
  handle_kyc USERS_COLLECTION t m w
  = ((true, Some "register"%string, Some (msg_name_ok (Py.strip m))),
     with_sess (set_kyc_step (Some 2))
       (with_sess (set_kyc_data (Some (<["name" := Py.strip m]> kd))) w)).
Proof.
  intros Hz Hmode Hkd Hv. rewrite (handle_kyc_unfold t m w 1 kd Hz Hkd).
  cbn [Z.eqb]. rewrite Hmode. unfold handle_registration_flow.
  cbn [Z.eqb Pos.eqb]. by rewrite Hv.
Qed.

Lemma register_email_step (t : turn) (m : string) (w : world) (kd : gmap string string) :
  kyc_step (sess w) = Some 2 → auth_mode (sess w) = Some ModeRegister →
  kyc_data (sess w) = Some kd → is_valid_email m = true →
  email_exists USERS_COLLECTION (t_mongo t) (kyc_collection w)
    (Py.lower (Py.strip m)) = false →
  handle_kyc USERS_COLLECTION t m w
  = ((true, Some "register"%string, Some msg_email_ok),
     with_sess (set_kyc_step (Some 3))
       (with_sess (set_kyc_data (Some (<["email" := Py.lower (Py.strip m)]> kd))) w)).
Proof.
  intros Hz Hmode Hkd Hv Hex. rewrite (handle_kyc_unfold t m w 2 kd Hz Hkd).
  cbn [Z.eqb]. rewrite Hmode. unfold handle_registration_flow.
  cbn [Z.eqb Pos.eqb]. by rewrite Hv, Hex.
Qed.

Lemma register_mobile_step (t : turn) (m : string) (w : world) (kd : gmap string string) :
  kyc_step (sess w) = Some 3 → auth_mode (sess w) = Some ModeRegister →
  kyc_data (sess w) = Some kd → is_valid_mobile m = true →
  handle_kyc USERS_COLLECTION t m w
  = ((true, Some "register"%string, Some msg_mobile_ok),
     with_sess (set_kyc_step (Some 4))
       (with_sess (set_kyc_data (Some (<["mobile" := Py.strip m]> kd))) w)).
Proof.
  intros Hz Hmode Hkd Hv. rewrite (handle_kyc_unfold t m w 3 kd Hz Hkd).
  cbn [Z.eqb]. rewrite Hmode. unfold handle_registration_flow.
  cbn [Z.eqb Pos.eqb]. by rewrite Hv.
Qed.

Lemma register_faculty_step (t : turn) (m : string) (w : world) (kd : gmap string string) :
  kyc_step (sess w) = Some 4 → auth_mode (sess w) = Some ModeRegister →
  kyc_data (sess w) = Some kd → validate_faculty m = true →
  handle_kyc USERS_COLLECTION t m w
  = ((true, Some "register"%string, Some msg_faculty_ok),
     with_sess (set_kyc_step (Some 5))
       (with_sess (set_kyc_data (Some (<["faculty" := Py.strip m]> kd))) w)).
Proof.
  intros Hz Hmode Hkd Hv. rewrite (handle_kyc_unfold t m w 4 kd Hz Hkd).
  cbn [Z.eqb]. rewrite Hmode. unfold handle_registration_flow.
  cbn [Z.eqb Pos.eqb]. by rewrite Hv.
Qed.

Lemma register_password_step (t : turn) (m : string) (w : world) (kd : gmap string string) :
  kyc_step (sess w) = Some 5 → auth_mode (sess w) = Some ModeRegister →
  kyc_data (sess w) = Some kd → is_valid_password m = true →
  let kd' := <["password" := Py.strip m]> kd in
  let done_ := complete_user_registration t kd'
                 (with_sess (set_kyc_data (Some kd')) w) in
  handle_kyc USERS_COLLECTION t m w
  = ((true, Some "register_complete"%string, Some done_.1.2),
     with_sess (set_auth_mode None)
       (with_sess (set_kyc_data (Some ∅))
          (with_sess (set_kyc_step (Some 0)) done_.2))).
Proof.
  intros Hz Hmode Hkd Hv kd' done_. rewrite (handle_kyc_unfold t m w 5 kd Hz Hkd).
  cbn [Z.eqb]. rewrite Hmode. unfold handle_registration_flow.
  cbn [Z.eqb Pos.eqb]. rewrite Hv. fold kd'. fold done_.
  by destruct done_ as [[success message] w'].
Qed.

(** C2 fails on the code in its last clause.  From a fresh session, with no
    record for jane@example.com in either collection, the first message
    classified as register and MongoDB up at the last turn, the six messages
    drive [kyc_step] through 1, 2, 3, 4, 5 and back to 0 and leave
    [auth_mode = None] and [is_authenticated = True]; but the token is stored
    under [jwt_token], and [auth_token] and [authenticated_user], which the
    login path sets through [set_authenticated_user], are still [None]. *)
Theorem registration_scenario (t1 t2 t3 t4 t5 t6 : turn) (id : option string)
    (d : database) (kc : list kyc_doc) :
  detect_application_intent (t_llm t1) "I want to register" = Some Register →
  t_mongo t6 = MongoUp →
  (∀ u, u ∈ users_collection d →
        u_email u ≠ Some "jane@example.com"%string ∧
        u_username u ≠ Some "jane@example.com"%string) →
  (∀ k, k ∈ kc → k_email k ≠ Some "jane@example.com"%string) →
  let inputs :=
    [(t1, "I want to register"); (t2, "Jane Doe"); (t3, "jane@example.com");
     (t4, "+201234567890"); (t5, "Engineering"); (t6, "Passw0rd")]%string in
  let w0 := mk_world (initial_session id) d kc in
  let final := sess (run USERS_COLLECTION inputs w0).2 in
  steps USERS_COLLECTION inputs w0 = [Some 1; Some 2; Some 3; Some 4; Some 5; Some 0] ∧
  auth_mode final = None ∧ is_authenticated final = true ∧
  jwt_token final ≠ None ∧
  auth_token final = None ∧ authenticated_user final = None.
Proof.
  intros Hllm Hup Hnew Hkc inputs w0 final.
  assert (email_exists USERS_COLLECTION (t_mongo t3) kc "jane@example.com" = false) as Hex.
  { unfold email_exists. destruct (t_mongo t3); [|done..].
    destruct (Py.split _ _) as [|? [|? ?]]; [done..|].
    rewrite find_none_all; [done|]. intros k Hk. apply bool_decide_eq_false.
    by apply Hkc. }
  pose proof (idle_register_step t1 "I want to register" w0 ∅ eq_refl eq_refl Hllm) as E1.
  set (w1 := with_sess _ _) in E1.
  pose proof (register_name_step t2 "Jane Doe" w1 ∅ eq_refl eq_refl eq_refl eq_refl) as E2.
  set (w2 := with_sess _ _) in E2.
  pose proof (register_email_step t3 "jane@example.com" w2 _ eq_refl eq_refl eq_refl
                eq_refl Hex) as E3.
  set (w3 := with_sess _ _) in E3.
  pose proof (register_mobile_step t4 "+201234567890" w3 _ eq_refl eq_refl eq_refl eq_refl)
    as E4.
  set (w4 := with_sess _ _) in E4.
  pose proof (register_faculty_step t5 "Engineering" w4 _ eq_refl eq_refl eq_refl eq_refl)
    as E5.
  set (w5 := with_sess _ _) in E5.
  pose proof (register_password_step t6 "Passw0rd" w5 _ eq_refl eq_refl eq_refl eq_refl)
    as E6.
  cbv zeta in E6.
  match type of E6 with context [complete_user_registration ?t ?kd ?w] =>
    destruct (complete_user_registration_fresh t kd w "Passw0rd" Hup eq_refl)
      as (uid & tok & d' & Hreg) end.
  { intros u Hu. exact (Hnew u Hu). }
  rewrite Hreg in E6.
  subst final inputs. unfold steps, run.
  rewrite E1. cbn [snd]. rewrite E2. cbn [snd]. rewrite E3. cbn [snd].
  rewrite E4. cbn [snd]. rewrite E5. cbn [snd]. rewrite E6. cbn [snd].
  repeat split; done.
Qed.
End KycProperties.

(** A conversation run from a reachable world ends in a reachable world. *)
Lemma reachable_run (USERS_COLLECTION : string) (inputs : list (turn * string)) (w : world) :
  reachable USERS_COLLECTION w → reachable USERS_COLLECTION (run USERS_COLLECTION inputs w).2.
Proof.
  revert w. induction inputs as [|[t m] rest IH]; intros w Hr; [done|].
  simpl. pose proof (reach_message USERS_COLLECTION t m w Hr) as Hr1.
  destruct (handle_kyc USERS_COLLECTION t m w) as [r w1]. simpl in Hr1.
  specialize (IH w1 Hr1). by destruct (run USERS_COLLECTION rest w1).
Qed.

(** C7 at Ann's conversation in the middle of her login. *)
Lemma idle_state_invariant_witness : idle_invariant (sess ann_world).
Proof.
  apply (idle_state_invariant "fue.users"). apply reachable_run. apply reach_start.
Defined.

(** C6 at Ann's conversation: a wrong password. *)
Lemma login_step2_asymmetry_witness :
  let out := handle_kyc "fue.users" (turn_up LlmRaises) "wrong-pass1" ann_world in
  kyc_step (sess out.2) = Some 1 ∧ kyc_data (sess out.2) = Some ∅ ∧
  auth_mode (sess out.2) = Some ModeLogin ∧
  out.1 = (true, Some "login_failed"%string, Some (msg_login_invalid +:+ msg_login_retry)).
Proof.
  destruct (login_step2_asymmetry "fue.users" (turn_up LlmRaises) "wrong-pass1" ann_world)
    as (kd & e & Hkd & He & Hout).
  - apply reachable_run. apply reach_start.
  - reflexivity.
  - reflexivity.
  - discriminate.
  - injection Hkd as <-. injection He as <-. exact Hout.
Defined.

(** The right password, in the same conversation. *)
Example login_step2_success :
  let out := handle_kyc "fue.users" (turn_up LlmRaises) "S3cretpass" ann_world in
  dialogue (sess out.2) = (Some 0, None, Some ∅) ∧
  is_authenticated (sess out.2) = true ∧ auth_token (sess out.2) ≠ None ∧
  out.1.1.2 = Some "login_complete"%string.
Proof. vm_compute. done. Qed.

(** C10 at a conversation over a collection that holds Jane's email, with
    every MongoDB operation raising. *)
Lemma email_check_fails_open_witness :
  let out := handle_kyc "fue.users" (turn_raising LlmRaises) "jane@example.com"
               jane_again_world in
  List.find (fun k => bool_decide (k_email k = Some "jane@example.com"%string))
            (kyc_collection jane_again_world) = Some jane_kyc_doc ∧
  out.1 = (true, Some "register"%string, Some msg_email_ok) ∧
  kyc_step (sess out.2) = Some 3.
Proof.
  split; [reflexivity|].
  destruct (email_check_fails_open "fue.users" (turn_raising LlmRaises) "jane@example.com"
              jane_again_world (<["name" := "Jane Doe"%string]> ∅))
    as (_ & Hout & Hstep & _); [discriminate|reflexivity..|].
  split; [exact Hout|exact Hstep].
Defined.

(** The same turn with MongoDB up: the email is refused and the step stays. *)
Example email_check_when_up :
  let out := handle_kyc "fue.users" (turn_up LlmRaises) "jane@example.com"
               jane_again_world in
  out.1 = (true, Some "register"%string, Some msg_email_taken) ∧
  kyc_step (sess out.2) = Some 2.
Proof. vm_compute. done. Qed.

(** C2 in the empty stores, the model answering REGISTER. *)
Lemma registration_scenario_witness :
  let final := sess (run "fue.users" jane_inputs fresh_world).2 in
  steps "fue.users" jane_inputs fresh_world
  = [Some 1; Some 2; Some 3; Some 4; Some 5; Some 0] ∧
  auth_mode final = None ∧ is_authenticated final = true ∧
  jwt_token final ≠ None ∧ auth_token final = None ∧ authenticated_user final = None.
Proof.
  apply (registration_scenario "fue.users"
           (turn_up (LlmContent "REGISTER")) (turn_up LlmRaises) (turn_up LlmRaises)
           (turn_up LlmRaises) (turn_up LlmRaises) (turn_up LlmRaises)
           (Some "conv-1"%string) empty_db []).
  - reflexivity.
  - reflexivity.
  - intros u Hu. inversion Hu.
  - intros k Hk. inversion Hk.
Defined.

(* ===================================================================== *)
(** * Properties: the validators *)
(* ===================================================================== *)

(** ** String lemmas *)

Lemma sapp_nil_l (s : string) : "" +:+ s = s.
Proof. reflexivity. Qed.

Lemma sapp_cons (c : ascii) (s t : string) : String c s +:+ t = String c (s +:+ t).
Proof. reflexivity. Qed.

Lemma sapp_nil_r (s : string) : s +:+ "" = s.
Proof. induction s as [|c s IH]; [done|]. by rewrite sapp_cons, IH. Qed.

Lemma sapp_assoc (s1 s2 s3 : string) : (s1 +:+ s2) +:+ s3 = s1 +:+ (s2 +:+ s3).
Proof. induction s1 as [|c s1 IH]; [done|]. by rewrite !sapp_cons, IH. Qed.

Lemma sapp_length (s1 s2 : string) :
  String.length (s1 +:+ s2) = (String.length s1 + String.length s2)%nat.
Proof. induction s1 as [|c s1 IH]; [done|]. rewrite sapp_cons. simpl. by rewrite IH. Qed.

Lemma sapp_eq_nil (s1 s2 : string) : s1 +:+ s2 = "" → s1 = "" ∧ s2 = "".
Proof. by destruct s1. Qed.

Lemma all_chars_app (p : ascii → bool) (s1 s2 : string) :
  all_chars p (s1 +:+ s2) = all_chars p s1 && all_chars p s2.
Proof.
  induction s1 as [|c s1 IH]; [done|]. rewrite sapp_cons. simpl.
  by rewrite IH, andb_assoc.
Qed.

(** ** The matcher is the language *)

Lemma nullable_lang (r : Re.regex) : Re.nullable r = true ↔ re_lang r "".
Proof.
  induction r as [| |p|r1 IH1 r2 IH2|r1 IH1 r2 IH2|r1 IH1]; simpl.
  - split; [done|tauto].
  - done.
  - split; [done|]. by intros (c & ? & _).
  - rewrite andb_true_iff, IH1, IH2. split.
    + intros [H1 H2]. by exists ""%string, ""%string.
    + intros (s1 & s2 & Hs & H1 & H2). symmetry in Hs.
      apply sapp_eq_nil in Hs as [-> ->]. done.
  - rewrite orb_true_iff, IH1, IH2. done.
  - split; [intros _; constructor|done].
Qed.

Lemma cat_lang (r1 r2 : Re.regex) (s : string) :
  re_lang (Re.cat r1 r2) s ↔ re_lang (Re.Cat r1 r2) s.
Proof.
  destruct r1, r2; simpl; try tauto;
    try (split; [tauto|by intros (? & ? & _ & ? & ?)]);
    try (split; [intros H; by exists ""%string, s|
                 by intros (? & ? & -> & -> & ?)]).
Qed.

Lemma alt_lang (r1 r2 : Re.regex) (s : string) :
  re_lang (Re.alt r1 r2) s ↔ re_lang r1 s ∨ re_lang r2 s.
Proof. destruct r1, r2; simpl; tauto. Qed.

Lemma re_star_cons_inv (L : string → Prop) (c : ascii) (s : string) :
  re_star L (String c s) → ∃ s1 s2, s = s1 +:+ s2 ∧ L (String c s1) ∧ re_star L s2.
Proof.
  intros H. remember (String c s) as t eqn:Ht.
  induction H as [|t1 t2 H1 H2 IH]; [done|].
  destruct t1 as [|c1 t1]; [rewrite sapp_nil_l in Ht|rewrite sapp_cons in Ht].
  - by apply IH.
  - injection Ht as -> <-. by exists t1, t2.
Qed.

Lemma deriv_lang (c : ascii) (r : Re.regex) (s : string) :
  re_lang (Re.deriv c r) s ↔ re_lang r (String c s).
Proof.
  revert s. induction r as [| |p|r1 IH1 r2 IH2|r1 IH1 r2 IH2|r1 IH1]; intros s; simpl.
  - done.
  - done.
  - destruct (p c) eqn:Hp; simpl.
    + split; [intros ->; by exists c|by intros (? & [= <- ->] & _)].
    + split; [done|intros (? & [= <- ->] & ?); congruence].
  - rewrite alt_lang, cat_lang. simpl. split.
    + intros [(s1 & s2 & -> & H1 & H2)|H].
      * exists (String c s1), s2. by rewrite <- IH1.
      * destruct (Re.nullable r1) eqn:Hn; [|done].
        exists ""%string, (String c s). rewrite <- IH2.
        by rewrite <- nullable_lang.
    + intros (s1 & s2 & Hs & H1 & H2).
      destruct s1 as [|c1 s1]; [rewrite sapp_nil_l in Hs|rewrite sapp_cons in Hs].
      * right. rewrite <- nullable_lang in H1. rewrite H1, IH2. by rewrite Hs.
      * injection Hs as <- ->. left. exists s1, s2. by rewrite IH1.
  - by rewrite alt_lang, IH1, IH2.
  - rewrite cat_lang. simpl. split.
    + intros (s1 & s2 & -> & H1 & H2).
      change (String c (s1 +:+ s2)) with (String c s1 +:+ s2).
      constructor; [by rewrite <- IH1|done].
    + intros H. apply re_star_cons_inv in H as (s1 & s2 & -> & H1 & H2).
      exists s1, s2. by rewrite IH1.
Qed.

Lemma matches_all_lang (r : Re.regex) (s : string) :
  Re.matches_all r s = true ↔ re_lang r s.
Proof.
  revert r. induction s as [|c s IH]; intros r; simpl.
  - apply nullable_lang.
  - by rewrite IH, deriv_lang.
Qed.

Lemma matches_prefix_lang (r : Re.regex) (s : string) :
  Re.matches_prefix r s = true ↔ ∃ s1 s2, s = s1 +:+ s2 ∧ re_lang r s1.
Proof.
  revert r. induction s as [|c s IH]; intros r; simpl.
  - rewrite orb_false_r, nullable_lang. split.
    + intros H. by exists ""%string, ""%string.
    + intros (s1 & s2 & Hs & H). symmetry in Hs. by apply sapp_eq_nil in Hs as [-> _].
  - rewrite orb_true_iff, nullable_lang, IH. split.
    + intros [H|(s1 & s2 & -> & H)].
      * by exists ""%string, (String c s).
      * exists (String c s1), s2. by rewrite <- deriv_lang.
    + intros (s1 & s2 & Hs & H).
      destruct s1 as [|c1 s1]; [by left|]. rewrite sapp_cons in Hs.
      injection Hs as <- ->. right. exists s1, s2. by rewrite deriv_lang.
Qed.

(** ** Languages of the building blocks *)

Lemma star_class_lang (p : ascii → bool) (s : string) :
  re_star (re_lang (Re.Class p)) s ↔ all_chars p s = true.
Proof.
  split.
  - induction 1 as [|s1 s2 (c & -> & Hp) _ IH]; [done|]. simpl. by rewrite Hp.
  - induction s as [|c s IH]; simpl; [constructor|].
    intros [Hp Hs]%andb_true_iff.
    change (String c s) with (String c "" +:+ s). constructor; [by exists c|auto].
Qed.

Lemma plus_class_lang (p : ascii → bool) (s : string) :
  re_lang (Re.plus (Re.Class p)) s ↔ s ≠ ""%string ∧ all_chars p s = true.
Proof.
  unfold Re.plus. simpl. split.
  - intros (s1 & s2 & -> & (c & -> & Hp) & Hs). apply star_class_lang in Hs.
    simpl. by rewrite Hp.
  - intros [Hne Hall]. destruct s as [|c s]; [done|]. simpl in Hall.
    apply andb_true_iff in Hall as [Hp Hs].
    exists (String c ""), s. split; [done|]. split; [by exists c|by apply star_class_lang].
Qed.

Lemma chr_lang (c : ascii) (s : string) : re_lang (Re.chr c) s ↔ s = String c "".
Proof.
  unfold Re.chr. simpl. split.
  - intros (x & -> & Hx). apply Ascii.eqb_eq in Hx. by subst.
  - intros ->. exists c. by rewrite Ascii.eqb_refl.
Qed.

Lemma opt_lang (r : Re.regex) (s : string) :
  re_lang (Re.opt r) s ↔ s = ""%string ∨ re_lang r s.
Proof. done. Qed.

Lemma dollar_lang (s : string) : re_lang Re.dollar s ↔ s = ""%string ∨ s = Py.nl.
Proof. unfold Re.dollar. by rewrite opt_lang, chr_lang. Qed.

Lemma times_class_lang (p : ascii → bool) (n : nat) (s : string) :
  re_lang (Re.times n (Re.Class p)) s ↔ String.length s = n ∧ all_chars p s = true.
Proof.
  revert s. induction n as [|n IH]; intros s; simpl.
  - split; [by intros ->|]. intros [Hl _]. by destruct s.
  - split.
    + intros (s1 & s2 & -> & (c & -> & Hp) & H2). apply IH in H2 as [<- Hall].
      rewrite sapp_cons, sapp_nil_l. simpl. by rewrite Hp.
    + intros [Hl Hall]. destruct s as [|c s]; [done|]. simpl in Hl, Hall.
      apply andb_true_iff in Hall as [Hp Hall].
      exists (String c ""), s. split; [done|]. split; [by exists c|].
      apply IH. split; [lia|done].
Qed.

Lemma times_opt_class_lang (p : ascii → bool) (n : nat) (s : string) :
  re_lang (Re.times n (Re.opt (Re.Class p))) s
  ↔ (String.length s ≤ n)%nat ∧ all_chars p s = true.
Proof.
  revert s. induction n as [|n IH]; intros s.
  - simpl. split; [by intros ->|]. intros [Hl _]. destruct s; [done|simpl in Hl; lia].
  - change (Re.times (S n) (Re.opt (Re.Class p)))
      with (Re.Cat (Re.opt (Re.Class p)) (Re.times n (Re.opt (Re.Class p)))).
    cbn [re_lang]. split.
    + intros (s1 & s2 & -> & H1 & H2). apply IH in H2 as [Hl Hall].
      apply opt_lang in H1 as [->|(c & -> & Hp)].
      * rewrite sapp_nil_l. split; [lia|done].
      * rewrite sapp_cons, sapp_nil_l. simpl. rewrite Hp. split; [lia|done].
    + intros [Hl Hall]. destruct s as [|c s].
      * exists ""%string, ""%string. split; [done|]. split; [by left|].
        apply IH. split; [simpl; lia|done].
      * simpl in Hl, Hall. apply andb_true_iff in Hall as [Hp Hall].
        exists (String c ""), s. split; [done|]. split; [right; by exists c|].
        apply IH. split; [lia|done].
Qed.

Lemma range_class_lang (p : ascii → bool) (n m : nat) (s : string) :
  (n ≤ m)%nat →
  re_lang (Re.range n m (Re.Class p)) s
  ↔ (n ≤ String.length s ≤ m)%nat ∧ all_chars p s = true.
Proof.
  intros Hnm. unfold Re.range. cbn [re_lang]. split.
  - intros (s1 & s2 & -> & H1 & H2).
    apply times_class_lang in H1 as [Hl1 Ha1].
    apply times_opt_class_lang in H2 as [Hl2 Ha2].
    rewrite sapp_length, all_chars_app, Ha1, Ha2. split; [lia|done].
  - intros [Hl Hall]. revert s Hl Hall. induction n as [|n IH] in m, Hnm |- *; intros s Hl Hall.
    + exists ""%string, s. split; [done|]. split; [done|].
      apply times_opt_class_lang. split; [lia|done].
    + destruct s as [|c s]; [simpl in Hl; lia|]. simpl in Hl, Hall.
      apply andb_true_iff in Hall as [Hp Hall].
      destruct m as [|m]; [lia|].
      destruct (IH m ltac:(lia) s ltac:(lia) Hall) as (s1 & s2 & -> & H1 & H2).
      exists (String c s1), s2. split; [done|]. split; [|done].
      exists (String c ""), s1. split; [done|]. split; [by exists c|done].
Qed.

(** ** Python string lemmas *)

Lemma rstrip_idem (s : string) : Py.rstrip (Py.rstrip s) = Py.rstrip s.
Proof.
  induction s as [|c s IH]; [done|]. simpl.
  destruct (Py.rstrip s) as [|c' r] eqn:Hr.
  - destruct (Py.isspace c) eqn:Hc; [done|]. simpl. by rewrite Hc.
  - simpl. simpl in IH. by rewrite IH.
Qed.

Lemma lstrip_head (s : string) :
  match Py.lstrip s with
  | EmptyString => True
  | String c _ => Py.isspace c = false
  end.
Proof. induction s as [|c s IH]; [done|]. simpl. by destruct (Py.isspace c) eqn:Hc. Qed.

Lemma lstrip_fix (c : ascii) (s : string) :
  Py.isspace c = false → Py.lstrip (String c s) = String c s.
Proof. intros Hc. simpl. by rewrite Hc. Qed.

Lemma rstrip_head (c : ascii) (s : string) :
  Py.isspace c = false → ∃ r, Py.rstrip (String c s) = String c r.
Proof.
  intros Hc. simpl. destruct (Py.rstrip s); [rewrite Hc|]; eauto.
Qed.

Lemma strip_idem (s : string) : Py.strip (Py.strip s) = Py.strip s.
Proof.
  unfold Py.strip. pose proof (lstrip_head s) as Hh.
  destruct (Py.lstrip s) as [|c x]; [done|].
  destruct (rstrip_head c x Hh) as [r Hr]. rewrite Hr.
  rewrite lstrip_fix by done. rewrite <- Hr. apply rstrip_idem.
Qed.




Lemma rstrip_no_space (s : string) :
  all_chars (fun c => negb (Py.isspace c)) s = true → Py.rstrip s = s.
Proof.
  induction s as [|c s IH]; [done|]. simpl. intros [Hc Hs]%andb_true_iff.
  rewrite (IH Hs). apply negb_true_iff in Hc. destruct s; [by rewrite Hc|done].
Qed.

Lemma rstrip_app_space (s t : string) :
  all_chars Py.isspace t = true → Py.rstrip (s +:+ t) = Py.rstrip s.
Proof.
  intros Ht. induction s as [|c s IH].
  - rewrite sapp_nil_l. induction t as [|c t IHt]; [done|]. simpl in *.
    apply andb_true_iff in Ht as [Hc Ht]. by rewrite (IHt Ht), Hc.
  - rewrite sapp_cons. simpl. by rewrite IH.
Qed.


Lemma digit_not_space (c : ascii) : Py.isdigit c = true → Py.isspace c = false.
Proof.
  unfold Py.isdigit, Py.isspace, Py.between.
  intros H. apply orb_false_iff. rewrite !andb_false_iff, !N.leb_gt.
  rewrite !andb_true_iff, !N.leb_le in H. lia.
Qed.

(** ** Validators *)





Lemma name_char_lower (c : ascii) : name_char (Py.lower_char c) = name_char c.
Proof. destruct c as [[] [] [] [] [] [] [] []]; reflexivity. Qed.


Lemma is_valid_mobile_shape (s : string) :
  is_valid_mobile s = true
  ↔ ∃ sign body tail,
      s = sign +:+ body +:+ tail ∧
      (sign = ""%string ∨ sign = "+"%string) ∧ (tail = ""%string ∨ tail = Py.nl) ∧
      (10 ≤ String.length body ≤ 15)%nat ∧ all_chars Py.isdigit body = true.
Proof.
  unfold is_valid_mobile, Re.match_dollar, mobile_pattern.
  rewrite matches_all_lang. split.
  - intros (s12 & tail & -> & (sign & body & -> & Hsign & Hbody) & Htail).
    assert (sign = ""%string ∨ sign = "+"%string) as Hsign'
      by (destruct Hsign as [?|Hc]; [by left|right; by apply chr_lang]).
    apply range_class_lang in Hbody; [|lia]. apply dollar_lang in Htail.
    exists sign, body, tail. by rewrite sapp_assoc.
  - intros (sign & body & tail & -> & Hsign & Htail & Hl & Ha).
    exists (sign +:+ body), tail. rewrite sapp_assoc. split; [done|]. split.
    + exists sign, body. split; [done|]. split.
      * destruct Hsign as [-> | ->]; [by left|right; by apply chr_lang].
      * apply range_class_lang; [lia|done].
    + by apply dollar_lang.
Qed.

Lemma strip_mobile (sign body tail : string) :
  (sign = ""%string ∨ sign = "+"%string) → (tail = ""%string ∨ tail = Py.nl) →
  body ≠ ""%string → all_chars Py.isdigit body = true →
  Py.strip (sign +:+ body +:+ tail) = sign +:+ body.
Proof.
  intros Hsign Htail Hne Hd.
  assert (all_chars (fun c => negb (Py.isspace c)) (sign +:+ body) = true) as Hns.
  { rewrite all_chars_app. apply andb_true_iff. split.
    - by destruct Hsign as [-> | ->].
    - clear Hne. induction body as [|c b IH]; [done|]. simpl in *.
      apply andb_true_iff in Hd as [Hc Hd]. by rewrite (digit_not_space c Hc), IH. }
  assert (Py.lstrip (sign +:+ body +:+ tail) = sign +:+ body +:+ tail) as Hl.
  { destruct Hsign as [-> | ->]; [|done]. rewrite sapp_nil_l.
    destruct body as [|c b]; [done|]. simpl in Hd.
    apply andb_true_iff in Hd as [Hc _]. rewrite sapp_cons.
    apply lstrip_fix. by apply digit_not_space. }
  unfold Py.strip. rewrite Hl, <- sapp_assoc, rstrip_app_space.
  - by apply rstrip_no_space.
  - by destruct Htail as [-> | ->].
Qed.

Lemma validate_name_strip (m : string) :
  validate_name m = true → validate_name (Py.strip m) = true.
Proof. unfold validate_name. by rewrite strip_idem. Qed.

Lemma is_valid_mobile_strip (m : string) :
  is_valid_mobile m = true → is_valid_mobile (Py.strip m) = true.
Proof.
  rewrite !is_valid_mobile_shape.
  intros (sign & body & tail & -> & Hsign & Htail & Hl & Ha).
  rewrite (strip_mobile sign body tail Hsign Htail); [|by destruct body; simpl in Hl; [lia|]|done].
  exists sign, body, ""%string. rewrite sapp_nil_r. auto.
Qed.

Lemma validate_faculty_strip (m : string) :
  validate_faculty m = true → validate_faculty (Py.strip m) = true.
Proof.
  unfold validate_faculty. rewrite strip_idem.
  destruct (String.eqb_spec m "") as [->|_]; [done|]. cbn [orb].
  destruct (Z.ltb_spec (Py.len (Py.strip m)) 2) as [?|Hlen]; [done|].
  destruct (String.eqb_spec (Py.strip m) "") as [E|_]; [|done].
  rewrite E in Hlen. unfold Py.len in Hlen. simpl in Hlen. lia.
Qed.


(** ** What the validators accept *)




(** X4.  [is_valid_email] accepts exactly the strings that begin with a
    non-empty run without at-sign, an at-sign, a non-empty run without
    at-sign, a dot, and a non-empty run without at-sign; what follows is not
    looked at, since the pattern is matched with [re.match] and has no end
    anchor.  So whatever is appended to an accepted email is accepted too. *)
Theorem is_valid_email_exact (s : string) :
  (is_valid_email s = true
   ↔ ∃ loc dom tld rest,
       s = loc +:+ "@" +:+ dom +:+ "." +:+ tld +:+ rest ∧
       loc ≠ ""%string ∧ dom ≠ ""%string ∧ tld ≠ ""%string ∧
       all_chars not_at loc = true ∧ all_chars not_at dom = true ∧
       all_chars not_at tld = true) ∧
  (∀ t, is_valid_email s = true → is_valid_email (s +:+ t) = true).
Proof.
  assert (∀ s, is_valid_email s = true
               ↔ ∃ loc dom tld rest,
                   s = loc +:+ "@" +:+ dom +:+ "." +:+ tld +:+ rest ∧
                   loc ≠ ""%string ∧ dom ≠ ""%string ∧ tld ≠ ""%string ∧
                   all_chars not_at loc = true ∧ all_chars not_at dom = true ∧
                   all_chars not_at tld = true) as Hshape.
  { clear s. intros s.
    unfold is_valid_email, Re.match_, email_pattern.
    rewrite matches_prefix_lang. unfold Re.not_chr. fold not_at.
    change (Re.Class (fun x => negb (Ascii.eqb x "@"))) with (Re.Class not_at).
    split.
    - intros (m & rest & -> & (loc & m1 & -> & Hloc & (at_ & m2 & -> & Hat &
              (dom & m3 & -> & Hdom & (dot & tld & -> & Hdot & Htld))))).
      apply plus_class_lang in Hloc as [? ?], Hdom as [? ?], Htld as [? ?].
      apply chr_lang in Hat as ->, Hdot as ->.
      exists loc, dom, tld, rest. rewrite !sapp_assoc. done.
    - intros (loc & dom & tld & rest & -> & ? & ? & ? & ? & ? & ?).
      exists (loc +:+ "@" +:+ dom +:+ "." +:+ tld), rest. rewrite !sapp_assoc.
      split; [done|].
      exists loc, ("@" +:+ dom +:+ "." +:+ tld)%string. split; [done|].
      split; [by apply plus_class_lang|].
      exists "@"%string, (dom +:+ "." +:+ tld)%string. split; [done|].
      split; [by apply chr_lang|].
      exists dom, ("." +:+ tld)%string. split; [done|].
      split; [by apply plus_class_lang|].
      exists "."%string, tld. split; [done|].
      split; [by apply chr_lang|by apply plus_class_lang]. }
  split; [apply Hshape|].
  intros t. rewrite !Hshape.
  intros (loc & dom & tld & rest & -> & H).
  exists loc, dom, tld, (rest +:+ t). by rewrite !sapp_assoc.
Qed.


(** The email is the exception: it is stored as the [lower] of the [strip],
    and the stored form of an accepted message can be one the validator
    refuses. *)
Example stored_email_may_be_invalid :
  is_valid_email "jane@example. " = true ∧
  is_valid_email (Py.lower (Py.strip "jane@example. ")) = false.
Proof. vm_compute. done. Qed.

(* ===================================================================== *)
(** * Properties: the auth service *)
(* ===================================================================== *)



(** ** register, then authenticate *)

Lemma register_user_success (now : Z) (sid : string) (salt : N)
    (kd : gmap string string) (d d1 : database) (uid : string) :
  AuthService.register_user MongoUp now sid salt kd d = (Some uid, d1) →
  ∃ pw new,
    kd !! "password" = Some pw ∧
    d1 = mk_database (users_collection d ++ [new]) (sessions_collection d) ∧
    new = mk_user_doc (fresh_oid (u_id <$> users_collection d)) (kd !! "email")
            (kd !! "email") (Bcrypt salt pw) (kd !! "name") (kd !! "mobile")
            (kd !! "faculty") "user" true now None sid ∧
    uid = str_id (u_id new) ∧
    (∀ u, u ∈ users_collection d →
          u_email u ≠ kd !! "email" ∧ u_username u ≠ kd !! "email").
Proof.
  unfold AuthService.register_user.
  destruct (List.find _ _) as [u|] eqn:Hfind; [done|].
  destruct (kd !! "password") as [pw|]; [|done].
  intros [= <- <-]. eexists pw, _. repeat split.
  - pose proof (List.find_none _ _ Hfind u) as Hn. rewrite <- list_elem_of_In in Hn.
    specialize (Hn H). apply orb_false_iff in Hn as [Hn _].
    by apply bool_decide_eq_false in Hn.
  - pose proof (List.find_none _ _ Hfind u) as Hn. rewrite <- list_elem_of_In in Hn.
    specialize (Hn H). apply orb_false_iff in Hn as [_ Hn].
    by apply bool_decide_eq_false in Hn.
Qed.


(** ** what authenticate_user does to the store *)


(** ** registration keeps the collection well formed *)

(** X8.  [register_user] only ever appends to the users collection and never
    touches the sessions; if the ids, the emails or the user names of the
    collection were pairwise distinct before, they are so afterwards. *)
Theorem register_user_keeps_unique (mongo : mongo_status) (now : Z) (sid : string)
    (salt : N) (kd : gmap string string) (d : database) :
  let d' := (AuthService.register_user mongo now sid salt kd d).2 in
  users_collection d `prefix_of` users_collection d' ∧
  sessions_collection d' = sessions_collection d ∧
  (NoDup (u_id <$> users_collection d) → NoDup (u_id <$> users_collection d')) ∧
  (NoDup (u_email <$> users_collection d) → NoDup (u_email <$> users_collection d')) ∧
  (NoDup (u_username <$> users_collection d) → NoDup (u_username <$> users_collection d')).
Proof.
  intros d'. subst d'.
  destruct (AuthService.register_user mongo now sid salt kd d) as [[uid|] d1] eqn:Hreg.
  - destruct mongo; [|done..].
    destruct (register_user_success now sid salt kd d d1 uid Hreg)
      as (pw & new & _ & -> & Hnew & _ & Hfresh).
    cbn [snd users_collection sessions_collection].
    split; [by exists [new]|]. split; [done|].
    rewrite !fmap_app. repeat split; intros Hnd; apply NoDup_app;
      (split; [done|]); (split; [|apply NoDup_singleton]);
      intros x Hx Hx'; apply list_elem_of_singleton in Hx'; subst x.
    + subst new. cbn [u_id] in Hx. by apply fresh_oid_fresh in Hx.
    + apply list_elem_of_fmap in Hx as (u & Hu & Hin). destruct (Hfresh u Hin) as [He _].
      subst new. simpl in Hu. congruence.
    + apply list_elem_of_fmap in Hx as (u & Hu & Hin). destruct (Hfresh u Hin) as [_ He].
      subst new. simpl in Hu. congruence.
  - assert (d1 = d) as ->; [|done].
    revert Hreg. unfold AuthService.register_user.
    destruct mongo; [|by intros [= <-]..].
    destruct (List.find _ _); [by intros [= <-]|].
    destruct (kd !! "password"); [done|by intros [= <-]].
Qed.

(** ** issuance and the other users *)

Lemma filter_filter_in {A} (P Q : A → Prop) `{!∀ x, Decision (P x), !∀ x, Decision (Q x)}
    (l : list A) :
  (∀ x, x ∈ l → P x → Q x) → filter P (filter Q l) = filter P l.
Proof.
  induction l as [|x l IH]; intros Himp; [done|].
  assert (∀ y, y ∈ l → P y → Q y) as Himp'
    by (intros y Hy; apply Himp; by apply list_elem_of_further).
  rewrite (filter_cons Q). destruct (decide (Q x)) as [HQ|HQ].
  - rewrite !filter_cons. destruct (decide (P x)); by rewrite IH.
  - rewrite IH by done. rewrite filter_cons_False; [done|].
    intros HP. apply HQ. apply Himp; [apply list_elem_of_here|done].
Qed.

(** X9.  While the session ids of the store are pairwise distinct,
    [generate_jwt_token] for one user leaves the session records of every
    other user and the users collection as they were, and the ids are still
    pairwise distinct afterwards. *)
Theorem issuance_leaves_other_users (now : Z) (sid : string) (user : user_doc)
    (d : database) (other : string) :
  NoDup (sd_id <$> sessions_collection d) →
  other ≠ str_id (u_id user) →
  let d' := (AuthService.generate_jwt_token MongoUp now sid user d).2 in
  sessions_of other d' = sessions_of other d ∧
  users_collection d' = users_collection d ∧
  NoDup (sd_id <$> sessions_collection d').
Proof.
  intros Hnd Hother d'. subst d'.
  destruct (generate_jwt_token_sessions now sid user d)
    as (new & -> & Hnu & _ & _ & _ & Hfresh).
  cbn [snd users_collection]. split; [|split; [done|]].
  - unfold sessions_of. cbn [sessions_collection].
    rewrite filter_app, filter_cons_False, filter_nil, app_nil_r by congruence.
    unfold pruned. apply filter_filter_in.
    intros s Hs Hsu Hin. apply list_elem_of_fmap in Hin as (s' & Hid & Hs').
    apply subseteq_drop in Hs'.
    unfold newest_first in Hs'. rewrite merge_sort_Permutation in Hs'.
    unfold sessions_of in Hs'. apply list_elem_of_filter in Hs' as [Hu' Hs'].
    assert (s = s') as -> by (eapply NoDup_fmap_eq; eauto). congruence.
  - cbn [sessions_collection]. rewrite fmap_app. apply NoDup_app. split; [|split].
    + eapply sublist_NoDup; [exact Hnd|]. apply fmap_sublist.
      unfold pruned. apply (sublist_filter _).
    + intros i Hi Hi'. apply list_elem_of_singleton in Hi'. by subst.
    + apply NoDup_singleton.
Qed.

(** ** what a verified token proves *)

(** X10.  A view that [verify_token] returns is backed by the store: the token
    is signed with the service's key and not expired; an active, unexpired
    session record carries that token; an active user record has the
    session's user id (a string) as its [_id]; the view's id, user name,
    email and role are read from that record and not from the token's
    payload; only the session id comes from the payload. *)
Theorem verify_token_sound (mongo : mongo_status) (now : Z) (tok : token) (d : database)
    (v : user_view) :
  AuthService.verify_token mongo now tok d = Some v →
  ∃ payload s u,
    tok = Jwt JWT_SECRET_KEY payload ∧ now < p_exp payload ∧
    s ∈ sessions_collection d ∧ sd_token s = tok ∧ sd_is_active s = true ∧
    now < sd_expires_at s ∧
    u ∈ users_collection d ∧ u_id u = StrId (sd_user_id s) ∧ u_is_active u = true ∧
    v_user_id v = sd_user_id s ∧ v_username v = u_username u ∧ v_email v = u_email u ∧
    v_role v = u_role u ∧
    v_session_id v = Some (p_session_id payload) ∧ v_token v = Some tok.
Proof.
  unfold AuthService.verify_token, jwt_decode.
  destruct tok as [key payload|raw]; [|done].
  destruct (String.eqb_spec key JWT_SECRET_KEY) as [->|]; [|done].
  destruct (Z.leb_spec (p_exp payload) now) as [|Hexp]; [done|].
  destruct mongo; [|done..].
  destruct (List.find _ (sessions_collection d)) as [s|] eqn:Hs; [|done].
  destruct (List.find _ (users_collection d)) as [u|] eqn:Hu; [|done].
  apply find_some_elem in Hs as [Hsin Hsp], Hu as [Huin Hup].
  apply andb_true_iff in Hsp as [Hsp Hse]. apply andb_true_iff in Hsp as [Hst Hsa].
  apply andb_true_iff in Hup as [Hui Hua].
  apply bool_decide_eq_true in Hst, Hui. apply Z.ltb_lt in Hse.
  intros [= <-]. exists payload, s, u. simpl. rewrite Hui. done.
Qed.

(** ** logout *)

Lemma update_one_length {A} (p : A → bool) (f : A → A) (l : list A) :
  length (update_one p f l) = length l.
Proof. induction l as [|x l IH]; [done|]. simpl. destruct (p x); simpl; congruence. Qed.

Lemma update_one_none {A} (p : A → bool) (f : A → A) (l : list A) :
  List.find p l = None → update_one p f l = l.
Proof.
  induction l as [|x l IH]; [done|]. simpl. destruct (p x); [done|].
  intros H. by rewrite IH.
Qed.

Lemma update_one_same {A} (p : A → bool) (f : A → A) (l : list A) :
  update_one p f l = l ↔ ∀ x, List.find p l = Some x → f x = x.
Proof.
  induction l as [|x l IH]; [done|]. simpl. destruct (p x).
  - split; [intros [= H] y [= <-]; done|]. intros H. by rewrite H.
  - rewrite <- IH. split; [by intros [= ?]|congruence].
Qed.

Lemma find_update_one {A} (q p : A → bool) (f : A → A) (l : list A) :
  (∀ x, p x = true → q x = false ∧ q (f x) = false) →
  List.find q (update_one p f l) = List.find q l.
Proof.
  intros H. induction l as [|x l IH]; [done|]. simpl.
  destruct (p x) eqn:Hp; simpl.
  - destruct (H x Hp) as [-> ->]. done.
  - by rewrite IH.
Qed.

(** X11.  What [logout_user] does.  It never touches the users and never
    changes the number of session records.  It reports success exactly when
    MongoDB is up and the first record that carries the token was changed by
    the update (it was active, or its [logout_at] was another instant); when
    it reports failure the store is unchanged.  Tokens other than the one
    logged out verify as before.  A second logout at the same instant reports
    failure. *)
Theorem logout_user_effect (mongo : mongo_status) (now : Z) (tok : token) (d : database) :
  let res := AuthService.logout_user mongo now tok d in
  users_collection res.2 = users_collection d ∧
  length (sessions_collection res.2) = length (sessions_collection d) ∧
  (res.1 = true ↔
     mongo = MongoUp ∧
     ∃ s, List.find (fun s => bool_decide (sd_token s = tok)) (sessions_collection d)
          = Some s ∧
          (sd_is_active s = true ∨ sd_logout_at s ≠ Some now)) ∧
  (res.1 = false → res.2 = d) ∧
  (∀ mongo' now' tok', tok' ≠ tok →
     AuthService.verify_token mongo' now' tok' res.2
     = AuthService.verify_token mongo' now' tok' d) ∧
  (AuthService.logout_user mongo now tok res.2).1 = false.
Proof.
  intros res. subst res. unfold AuthService.logout_user.
  destruct mongo; cbn [fst snd users_collection sessions_collection];
    [|repeat split; try done; by intros [? _]..].
  set (p := fun s => bool_decide (sd_token s = tok)).
  set (l := sessions_collection d).
  assert (∀ s, set_logged_out now s = s ↔ sd_is_active s = false ∧ sd_logout_at s = Some now)
    as Hfix.
  { intros [i u t' si c e a lo]. unfold set_logged_out. simpl. split.
    - by intros [= -> ->].
    - by intros [-> ->]. }
  assert (update_one p (set_logged_out now) (update_one p (set_logged_out now) l)
          = update_one p (set_logged_out now) l) as Hidem.
  { induction l as [|x l' IH]; [done|]. simpl. destruct (p x) eqn:Hp; simpl.
    - assert (p (set_logged_out now x) = true) as -> by done. done.
    - by rewrite Hp, IH. }
  split; [done|]. split; [apply update_one_length|].
  split; [split|].
  - intros Hne. apply bool_decide_eq_true in Hne. split; [done|].
    destruct (List.find p l) as [s|] eqn:Hfind.
    + exists s. split; [done|].
      destruct (sd_is_active s) eqn:Ha; [by left|right]. intros Hlo.
      apply Hne. apply update_one_same. intros x Hx.
      assert (x = s) as -> by congruence. by apply Hfix.
    + exfalso. apply Hne. by apply update_one_none.
  - intros (_ & s & Hfind & Hs). apply bool_decide_eq_true. intros Heq.
    rewrite update_one_same in Heq. specialize (Heq s Hfind).
    apply Hfix in Heq as [Ha Hlo]. destruct Hs; congruence.
  - split; [|split].
    + intros Hf. apply bool_decide_eq_false in Hf. apply dec_stable in Hf.
      destruct d as [us ss]. subst l. simpl in *. by rewrite Hf.
    + intros mongo' now' tok' Hne. unfold AuthService.verify_token.
      cbn [sessions_collection users_collection].
      rewrite find_update_one; [done|].
      intros x Hx. apply bool_decide_eq_true in Hx.
      assert (sd_token (set_logged_out now x) = sd_token x) as Ht by done.
      rewrite Ht, !bool_decide_false by congruence. done.
    + apply bool_decide_eq_false. intros Hne. by apply Hne.
Qed.

(** ** lookups by id *)

(** X12.  [get_user_by_id] queries [_id] with the string it is given.  In a
    store whose users carry [ObjectId]s it finds nobody, and in particular
    not the id that [register_user] has just returned; a record it does find
    is active and carries that string as its [_id]. *)
Theorem get_user_by_id_string_ids (mongo : mongo_status) (uid : string) (d : database) :
  (objectid_users d → AuthService.get_user_by_id mongo uid d = None) ∧
  (∀ v, AuthService.get_user_by_id mongo uid d = Some v →
        ∃ u, u ∈ users_collection d ∧ u_id u = StrId uid ∧ u_is_active u = true ∧
             v_user_id v = uid ∧ v_email v = u_email u ∧ v_role v = u_role u) ∧
  (∀ now sid salt kd new_id d1,
     objectid_users d →
     AuthService.register_user MongoUp now sid salt kd d = (Some new_id, d1) →
     AuthService.get_user_by_id mongo new_id d1 = None).
Proof.
  assert (∀ d0 id0, objectid_users d0 → AuthService.get_user_by_id mongo id0 d0 = None)
    as Hobj.
  { intros d0 id0 H0. unfold AuthService.get_user_by_id. destruct mongo; [|done..].
    rewrite find_none_all; [done|]. intros u Hu. destruct (H0 u Hu) as [n ->].
    by rewrite bool_decide_false. }
  split; [apply Hobj|]. split.
  - intros v. unfold AuthService.get_user_by_id. destruct mongo; [|done..].
    destruct (List.find _ _) as [u|] eqn:Hfind; [|done].
    apply find_some_elem in Hfind as [Hin Hp]. apply andb_true_iff in Hp as [Hid Hact].
    apply bool_decide_eq_true in Hid. intros [= <-]. exists u. simpl.
    rewrite Hid. done.
  - intros now sid salt kd new_id d1 H0 Hreg. apply Hobj.
    pose proof (register_user_objectid_users MongoUp now sid salt kd d H0) as H1.
    by rewrite Hreg in H1.
Qed.

(** ** cleanup of expired sessions *)

Lemma find_filter {A} (q : A → bool) (P : A → Prop) `{!∀ x, Decision (P x)} (l : list A) :
  (∀ x, q x = true → P x) → List.find q (filter P l) = List.find q l.
Proof.
  intros Hq. induction l as [|x l IH]; [done|]. rewrite filter_cons.
  destruct (decide (P x)) as [HP|HP]; simpl.
  - by rewrite IH.
  - destruct (q x) eqn:Hqx; [by apply Hq in Hqx|done].
Qed.

(** X13.  What [cleanup_expired_sessions] does.  It never touches the users;
    the sessions it leaves are a sub-list of those before, the count it
    returns is the number removed; with MongoDB up a record is kept exactly
    when it does not expire before the clock reading; no token verifies
    differently afterwards, at that instant or later; and a second cleanup at
    the same instant removes nothing. *)
Theorem cleanup_expired_sessions_effect (mongo : mongo_status) (now : Z) (d : database) :
  let res := AuthService.cleanup_expired_sessions mongo now d in
  users_collection res.2 = users_collection d ∧
  sessions_collection res.2 `sublist_of` sessions_collection d ∧
  res.1 = Z.of_nat (length (sessions_collection d))
          - Z.of_nat (length (sessions_collection res.2)) ∧
  (mongo = MongoUp →
   ∀ s, s ∈ sessions_collection res.2
        ↔ s ∈ sessions_collection d ∧ now <= sd_expires_at s) ∧
  (∀ mongo' now' tok, now <= now' →
     AuthService.verify_token mongo' now' tok res.2
     = AuthService.verify_token mongo' now' tok d) ∧
  AuthService.cleanup_expired_sessions mongo now res.2 = (0, res.2).
Proof.
  intros res. subst res. unfold AuthService.cleanup_expired_sessions.
  destruct mongo; cbn [fst snd users_collection sessions_collection];
    [|repeat split; try done; lia..].
  split; [done|]. split; [apply sublist_filter; apply _|]. split; [done|].
  split; [|split].
  - intros _ s. rewrite list_elem_of_filter. split; [intros [? ?]|intros [? ?]];
      (split; [lia || done|lia || done]).
  - intros mongo' now' tok Hle. unfold AuthService.verify_token.
    cbn [sessions_collection users_collection].
    rewrite find_filter; [done|].
    intros x Hx. apply andb_true_iff in Hx as [_ Hx]. apply Z.ltb_lt in Hx. lia.
  - f_equal.
    + rewrite list_filter_filter_l by tauto. lia.
    + f_equal. by rewrite list_filter_filter_l by tauto.
Qed.

(* ===================================================================== *)
(** * Properties: the middleware, the session and the dialogue *)
(* ===================================================================== *)

(** ** Middleware *)

Lemma verify_token_objectid_users (mongo : mongo_status) (now : Z) (tok : token)
    (d : database) :
  objectid_users d → AuthService.verify_token mongo now tok d = None.
Proof.
  intros Hids. unfold AuthService.verify_token.
  destruct (jwt_decode _ _ _); [|done..].
  destruct mongo; [|done..].
  destruct (List.find _ _) as [s|]; [|done].
  rewrite find_none_all; [done|].
  intros u Hu. destruct (Hids u Hu) as [n ->]. by rewrite bool_decide_false.
Qed.

(** X14.  What [get_current_user] does to the session.  A returned view is
    the one stored under [authenticated_user], with the flag set and the
    token kept.  When nothing is returned, either the session is unchanged
    (the flag is off or no view is stored) or the stored token was refused
    and the session is cleared.  Asking again at once gives the same answer
    and changes nothing.  [is_authenticated], [get_user_role] and
    [has_permission] leave the session as [get_current_user] does; the keys
    of the dialogue and of the registration profile are never touched. *)
Theorem get_current_user_effect (mongo : mongo_status) (now : Z) (d : database)
    (s : session) :
  let out := AuthMiddleware.get_current_user mongo now d s in
  (∀ v, out.1 = Some v →
        is_authenticated out.2 = true ∧ authenticated_user out.2 = Some v ∧
        auth_token out.2 = auth_token s) ∧
  (out.1 = None →
     out.2 = s ∧ (is_authenticated s = false ∨ authenticated_user s = None)
     ∨ out.2 = AuthMiddleware.clear_auth_session s ∧
       ∃ tok, auth_token s = Some tok ∧ token_truthy tok = true ∧
              AuthService.verify_token mongo now tok d = None) ∧
  AuthMiddleware.get_current_user mongo now d out.2 = out ∧
  (AuthMiddleware.is_authenticated mongo now d s).2 = out.2 ∧
  (AuthMiddleware.get_user_role mongo now d s).2 = out.2 ∧
  (∀ r, (AuthMiddleware.has_permission mongo now d r s).2 = out.2) ∧
  dialogue out.2 = dialogue s ∧ registration_profile out.2 = registration_profile s.
Proof.
  intros out. subst out.
  unfold AuthMiddleware.is_authenticated, AuthMiddleware.has_permission,
    AuthMiddleware.get_user_role, AuthMiddleware.get_current_user.
  destruct s as [sid kd st am ia au atk jt uid em nm ur kc kcc].
  cbn [is_authenticated authenticated_user auth_token].
  destruct ia; cbn [negb]; [|split_and!; try done; intros _; left; split; [done|by left]].
  destruct au as [u|]; [|split_and!; try done; intros _; left; split; [done|by right]].
  destruct atk as [tok|];
    [|cbn; destruct (UserRole_of_value (v_role u)); split_and!; try done;
      by intros v [= <-]].
  destruct (token_truthy tok) eqn:Htruthy;
    [|cbn; rewrite Htruthy; destruct (UserRole_of_value (v_role u)); split_and!;
      try done; by intros v [= <-]].
  destruct (AuthService.verify_token mongo now tok d) as [v|] eqn:Hver.
  - cbn. rewrite Htruthy, Hver.
    destruct (UserRole_of_value (v_role v)); split_and!; try done; by intros v' [= <-].
  - cbn. split_and!; try done. intros _. right. split; [done|]. eauto.
Qed.

(** X15.  [get_user_context] agrees with the rest of the middleware: it
    leaves the session as [get_current_user] does, reports the session's id,
    its [is_authenticated] is the answer of [is_authenticated], and the role
    it reports denotes the role [get_user_role] returns.  Without a user it
    reports role [guest] and no identity; that is the case whenever the
    session holds a non-empty token and the users of the store carry
    [ObjectId]s. *)
Theorem get_user_context_agrees (mongo : mongo_status) (now : Z) (d : database)
    (s : session) :
  let ctx := get_user_context mongo now d s in
  ctx.2 = (AuthMiddleware.get_current_user mongo now d s).2 ∧
  c_session_id ctx.1 = session_id_of s ∧
  c_is_authenticated ctx.1 = (AuthMiddleware.is_authenticated mongo now d s).1 ∧
  default USER (UserRole_of_value (c_role ctx.1))
  = (AuthMiddleware.get_user_role mongo now d s).1 ∧
  (c_is_authenticated ctx.1 = false →
   c_user_id ctx.1 = None ∧ c_username ctx.1 = None ∧ c_email ctx.1 = None ∧
   c_role ctx.1 = "guest"%string) ∧
  (objectid_users d → (∃ tok, auth_token s = Some tok ∧ token_truthy tok = true) →
   c_is_authenticated ctx.1 = false).
Proof.
  intros ctx. subst ctx.
  pose proof (verify_token_objectid_users mongo now) as Hobj.
  unfold get_user_context, AuthMiddleware.is_authenticated, AuthMiddleware.get_user_role,
    AuthMiddleware.get_current_user.
  destruct s as [sid kd st am ia au atk jt uid em nm ur kc kcc].
  cbn [is_authenticated authenticated_user auth_token].
  destruct ia; cbn [negb]; [|done].
  destruct au as [u|]; [|done].
  destruct atk as [tok|];
    [|cbn; destruct (UserRole_of_value (v_role u)); split_and!; try done;
      by intros _ (? & ? & _)].
  destruct (token_truthy tok) eqn:Htruthy;
    [|cbn; destruct (UserRole_of_value (v_role u)); split_and!; try done;
      intros _ (? & [= <-] & ?); congruence].
  destruct (AuthService.verify_token mongo now tok d) as [v|] eqn:Hver; [|done].
  cbn. destruct (UserRole_of_value (v_role v)); split_and!; try done;
    intros Hd _; by rewrite Hobj in Hver.
Qed.

(** ** Session initialisation *)

(** X16.  [initialize_user_session] never restores a session.  It first sets
    [is_authenticated] to false, so the [get_current_user] it calls for a
    stored [jwt_token] returns nothing: whatever the session held and
    whatever the stores hold, the session ends unauthenticated, with role
    [guest], the dialogue idle and a non-empty [jwt_token] erased; the result
    does not depend on MongoDB, the clock or the stores.  On a session
    without keys it gives the initial session. *)
Theorem initialize_user_session_never_restores (mongo : mongo_status) (now : Z)
    (d : database) (s : session) :
  let s' := initialize_user_session mongo now d s in
  is_authenticated s' = false ∧ user_role s' = Some "guest"%string ∧
  dialogue s' = (Some 0, None, Some ∅) ∧
  (∀ tok, jwt_token s' = Some tok → token_truthy tok = false) ∧
  (authenticated_user s', auth_token s', user_id s', email s', name s', sess_id s')
  = (authenticated_user s, auth_token s, user_id s, email s, name s, sess_id s) ∧
  s' = initialize_user_session MongoNoClient 0 (mk_database [] []) s ∧
  (∀ id, s = blank_session id → s' = initial_session id).
Proof.
  intros s'. subst s'. unfold initialize_user_session.
  cbn [jwt_token set_auth_mode set_kyc_data set_kyc_step set_user_role set_is_authenticated].
  destruct (jwt_token s) as [tok|] eqn:Hjwt.
  - destruct (token_truthy tok) eqn:Htruthy.
    + unfold AuthMiddleware.get_current_user. simpl.
      repeat split; try done. intros id ->. done.
    + simpl. rewrite Hjwt. repeat split; try done.
      * by intros ? [= <-].
      * intros id ->. done.
  - simpl. rewrite Hjwt. repeat split; try done. intros id ->. done.
Qed.

(** ** The dialogue *)

Lemma keys_insert (kd : gmap string string) (L : list string) (i v : string) :
  (∀ k, is_Some (kd !! k) ↔ k ∈ L) →
  ∀ k, is_Some (<[i := v]> kd !! k) ↔ k ∈ L ++ [i].
Proof.
  intros H k. rewrite lookup_insert_is_Some, H, elem_of_app, list_elem_of_singleton.
  destruct (decide (i = k)) as [->|Hne]; [tauto|].
  split; [intros [?|[_ ?]]; [done|by left]|intros [?|?]; [by right|by left]].
Qed.

Lemma keys_empty (k : string) : is_Some ((∅ : gmap string string) !! k) ↔ k ∈ @nil string.
Proof. rewrite lookup_empty. split; [by intros [? ?]|by intros ?%elem_of_nil]. Qed.

Lemma dialogue_shape_idle (s : session) :
  kyc_step s = Some 0 → kyc_data s = Some ∅ → auth_mode s = None → dialogue_shape s.
Proof.
  intros Hz Hkd Hm. exists 0, ∅. rewrite Hm. split_and!; try done.
  apply keys_empty.
Qed.

Section KycShape.
Context (USERS_COLLECTION : string).

Lemma handle_kyc_shape (t : turn) (m : string) (w : world) :
  dialogue_shape (sess w) →
  dialogue_shape (sess (handle_kyc USERS_COLLECTION t m w).2).
Proof.
  intros (z & kd & Hz & Hkd & Hrange & Hkeys & Hname & Hemail & Hmobile & Hfac).
  rewrite (handle_kyc_unfold USERS_COLLECTION t m w z kd Hz Hkd).
  destruct w as [[sid kd0 st am ia au atk jt uid em nm ur kc kcc] d kcoll].
  cbn [sess kyc_step kyc_data auth_mode] in Hz, Hkd, Hrange, Hkeys |- *.
  subst st kd0.
  destruct am as [[|]|]; cbn [step_in_range] in Hrange.
  - (* registration *)
    destruct (Z.eqb_spec z 0) as [->|_]; [lia|].
    unfold handle_registration_flow.
    destruct (Z.eqb_spec z 1) as [->|?].
    { destruct (validate_name m) eqn:Hv;
        [|exists 1, kd; split_and!; done].
      exists 2, (<["name" := Py.strip m]> kd). split_and!; try done.
      - exact (keys_insert kd [] "name" _ Hkeys).
      - intros v. rewrite lookup_insert_eq. intros [= <-]. by apply validate_name_strip.
      - intros v. rewrite lookup_insert_ne by done. apply Hemail.
      - intros v. rewrite lookup_insert_ne by done. apply Hmobile.
      - intros v. rewrite lookup_insert_ne by done. apply Hfac. }
    destruct (Z.eqb_spec z 2) as [->|?].
    { destruct (is_valid_email m) eqn:Hv;
        [|exists 2, kd; split_and!; done].
      destruct (email_exists _ _ _ _);
        [exists 2, kd; split_and!; done|].
      exists 3, (<["email" := Py.lower (Py.strip m)]> kd). split_and!; try done.
      - exact (keys_insert kd ["name"%string] "email" _ Hkeys).
      - intros v. rewrite lookup_insert_ne by done. apply Hname.
      - intros v. rewrite lookup_insert_eq. intros [= <-]. by exists m.
      - intros v. rewrite lookup_insert_ne by done. apply Hmobile.
      - intros v. rewrite lookup_insert_ne by done. apply Hfac. }
    destruct (Z.eqb_spec z 3) as [->|?].
    { destruct (is_valid_mobile m) eqn:Hv;
        [|exists 3, kd; split_and!; done].
      exists 4, (<["mobile" := Py.strip m]> kd). split_and!; try done.
      - exact (keys_insert kd ["name"; "email"]%string "mobile" _ Hkeys).
      - intros v. rewrite lookup_insert_ne by done. apply Hname.
      - intros v. rewrite lookup_insert_ne by done. apply Hemail.
      - intros v. rewrite lookup_insert_eq. intros [= <-]. by apply is_valid_mobile_strip.
      - intros v. rewrite lookup_insert_ne by done. apply Hfac. }
    destruct (Z.eqb_spec z 4) as [->|?].
    { destruct (validate_faculty m) eqn:Hv;
        [|exists 4, kd; split_and!; done].
      exists 5, (<["faculty" := Py.strip m]> kd). split_and!; try done.
      - exact (keys_insert kd ["name"; "email"; "mobile"]%string "faculty" _ Hkeys).
      - intros v. rewrite lookup_insert_ne by done. apply Hname.
      - intros v. rewrite lookup_insert_ne by done. apply Hemail.
      - intros v. rewrite lookup_insert_ne by done. apply Hmobile.
      - intros v. rewrite lookup_insert_eq. intros [= <-]. by apply validate_faculty_strip. }
    destruct (Z.eqb_spec z 5) as [->|?]; [|lia].
    destruct (is_valid_password m) eqn:Hv;
      [|exists 5, kd; split_and!; done].
    destruct (complete_user_registration _ _ _) as [[success message] w'].
    by apply dialogue_shape_idle.
  - (* login *)
    destruct (Z.eqb_spec z 0) as [->|_]; [lia|].
    unfold handle_login_flow.
    destruct (Z.eqb_spec z 1) as [->|?].
    { destruct (is_valid_email m) eqn:Hv;
        [|exists 1, kd; split_and!; done].
      exists 2, (<["email" := Py.lower (Py.strip m)]> kd). split_and!; try done.
      - exact (keys_insert kd [] "email" _ Hkeys).
      - intros v. rewrite lookup_insert_ne by done. apply Hname.
      - intros v. rewrite lookup_insert_eq. intros [= <-]. by exists m.
      - intros v. rewrite lookup_insert_ne by done. apply Hmobile.
      - intros v. rewrite lookup_insert_ne by done. apply Hfac. }
    destruct (Z.eqb_spec z 2) as [->|?]; [|lia].
    destruct (proj2 (Hkeys "email"%string)) as [e He];
      [apply list_elem_of_here|].
    rewrite lookup_insert_ne by done. rewrite He, lookup_insert_eq.
    match goal with |- context [attempt_user_login ?t ?e ?p ?w0] =>
      pose proof (attempt_user_login_dialogue t e p w0) as Hd;
      destruct (attempt_user_login t e p w0) as [[success message] w1] end.
    unfold dialogue in Hd. cbn in Hd. injection Hd as _ Hmode _.
    destruct success.
    + by apply dialogue_shape_idle.
    + exists 1, ∅. cbn. rewrite Hmode. split_and!; try done. apply keys_empty.
  - (* idle *)
    subst z. cbn [Z.eqb].
    destruct (detect_application_intent _ _) as [[|]|].
    + exists 1, kd. split_and!; done.
    + exists 1, kd. split_and!; done.
    + exists 0, kd. split_and!; done.
Qed.

Lemma reachable_shape (w : world) :
  reachable USERS_COLLECTION w → dialogue_shape (sess w).
Proof.
  induction 1 as [id d kc|t m w Hr IH|mongo now w Hr IH|d kc w Hr IH].
  - by apply dialogue_shape_idle.
  - by apply handle_kyc_shape.
  - pose proof (get_current_user_dialogue mongo now (db w) (sess w)) as Hd.
    unfold dialogue in Hd. injection Hd as Hs Hm Hk.
    unfold with_sess. cbn [sess]. unfold dialogue_shape.
    by rewrite Hs, Hm, Hk.
  - done.
Qed.

End KycShape.

(** ** Which keys a turn may touch *)

Lemma complete_user_registration_login_keys (t : turn) (kd : gmap string string) (w : world) :
  login_keys (sess (complete_user_registration t kd w).2) = login_keys (sess w).
Proof.
  unfold complete_user_registration, complete_user_registration_try.
  destruct (t_mongo t); [|done|];
    (destruct (AuthService.register_user _ _ _ _ _ _) as [[[|c uid]|] db1]; [done| |done]);
    (destruct (ObjectId_of_str _); [|done]); [|done].
  destruct (List.find _ _); [|done].
  by destruct (AuthService.generate_jwt_token _ _ _ _ _).
Qed.

Lemma complete_user_registration_failure (t : turn) (kd : gmap string string) (w : world) :
  (complete_user_registration t kd w).1.1 = false →
  sess (complete_user_registration t kd w).2 = sess w.
Proof.
  unfold complete_user_registration, complete_user_registration_try.
  destruct (t_mongo t); [|done|];
    (destruct (AuthService.register_user _ _ _ _ _ _) as [[[|c uid]|] db1]; [done| |done]);
    (destruct (ObjectId_of_str _); [|done]); [|done].
  destruct (List.find _ _); [|done].
  by destruct (AuthService.generate_jwt_token _ _ _ _ _).
Qed.

Lemma attempt_user_login_profile (t : turn) (e p : string) (w : world) :
  registration_profile (sess (attempt_user_login t e p w).2) = registration_profile (sess w).
Proof.
  unfold attempt_user_login.
  destruct (t_mongo t); [|done|];
    (destruct (AuthService.authenticate_user _ _ _ _ _ _) as [[[tok|] [v|]] db1]; try done);
    by destruct (token_truthy tok).
Qed.

Lemma attempt_user_login_failure (t : turn) (e p : string) (w : world) :
  (attempt_user_login t e p w).1.1 = false →
  sess (attempt_user_login t e p w).2 = sess w.
Proof.
  unfold attempt_user_login.
  destruct (t_mongo t); [|done|];
    (destruct (AuthService.authenticate_user _ _ _ _ _ _) as [[[tok|] [v|]] db1]; try done);
    by destruct (token_truthy tok).
Qed.

Section KycKeys.
Context (USERS_COLLECTION : string).

Lemma handle_kyc_defaults (t : turn) (m : string) (w : world) :
  let w0 := with_dialogue_defaults w in
  handle_kyc USERS_COLLECTION t m w = handle_kyc USERS_COLLECTION t m w0 ∧
  (∃ z kd, kyc_step (sess w0) = Some z ∧ kyc_data (sess w0) = Some kd) ∧
  login_keys (sess w0) = login_keys (sess w) ∧
  registration_profile (sess w0) = registration_profile (sess w) ∧
  is_authenticated (sess w0) = is_authenticated (sess w) ∧
  auth_mode (sess w0) = auth_mode (sess w) ∧
  db w0 = db w ∧ kyc_collection w0 = kyc_collection w.
Proof.
  destruct w as [[sid [kd|] [z|] am ia au atk jt uid em nm ur kc kcc] d kcoll];
    (split; [reflexivity|]); split_and!; try done; eexists _, _; done.
Qed.

End KycKeys.

Lemma elem_of_update_one {A} (p : A → bool) (f : A → A) (l : list A) (x : A) :
  x ∈ update_one p f l → x ∈ l ∨ ∃ y, y ∈ l ∧ x = f y.
Proof.
  induction l as [|y l IH]; simpl; [by left|].
  destruct (p y).
  - intros [->|Hx]%elem_of_cons.
    + right. exists y. split; [apply list_elem_of_here|done].
    + left. by apply list_elem_of_further.
  - intros [->|Hx]%elem_of_cons; [left; apply list_elem_of_here|].
    destruct (IH Hx) as [?|(z & ? & ->)].
    + left. by apply list_elem_of_further.
    + right. exists z. split; [by apply list_elem_of_further|done].
Qed.

Lemma authenticate_user_objectid_users (mongo : mongo_status) (now : Z)
    (sid username password : string) (d : database) :
  objectid_users d →
  objectid_users (AuthService.authenticate_user mongo now sid username password d).2.
Proof.
  intros Hd. unfold AuthService.authenticate_user.
  destruct mongo; [|done..].
  destruct (List.find _ _) as [user|]; [|done].
  destruct (negb _); [done|].
  cbn. intros u Hu.
  apply elem_of_update_one in Hu as [Hu|(y & Hy & ->)]; [by apply Hd|].
  destruct (Hd y Hy) as [n Hn]. exists n. by destruct y.
Qed.

Section KycTurns.
Context (USERS_COLLECTION : string).

Lemma handle_kyc_login_complete (t : turn) (m : string) (w : world) :
  let out := handle_kyc USERS_COLLECTION t m w in
  out.1.1.2 = Some "login_complete"%string →
  ∃ sid e p tok v,
    AuthService.authenticate_user (t_mongo t) (t_now t) sid e p (db w)
    = ((Some tok, Some v), db out.2) ∧
    token_truthy tok = true ∧
    is_authenticated (sess out.2) = true ∧
    authenticated_user (sess out.2) = Some v ∧ auth_token (sess out.2) = Some tok ∧
    out.1 = (true, Some "login_complete"%string, Some (msg_login_ok (v_name v))).
Proof.
  intros out. subst out.
  destruct (handle_kyc_defaults USERS_COLLECTION t m w)
    as (-> & Hset & _ & _ & _ & _ & <- & _).
  revert Hset. generalize (with_dialogue_defaults w). clear w.
  intros w (z & kd & Hz & Hkd).
  rewrite (handle_kyc_unfold USERS_COLLECTION t m w z kd Hz Hkd).
  destruct (Z.eqb_spec z 0) as [->|Hne].
  { by destruct (detect_application_intent _ _) as [[|]|]. }
  destruct (auth_mode (sess w)) as [[|]|]; [| |done].
  { unfold handle_registration_flow. repeat (case_match; try done). }
  unfold handle_login_flow.
  destruct (z =? 1); [by destruct (is_valid_email m)|].
  destruct (z =? 2); [|done].
  destruct (_ !! "email"%string) as [e|]; [|done].
  rewrite lookup_insert_eq.
  unfold attempt_user_login.
  destruct (t_mongo t) eqn:Hmongo; [|done|].
  all: cbn [sess db with_sess with_db].
  all: match goal with |- context [AuthService.authenticate_user ?a ?b ?c ?d ?e ?f] =>
         pose proof (authenticate_user_token_truthy a b c d e f) as Htruthy;
         destruct (AuthService.authenticate_user a b c d e f) as [[[tok|] [v|]] d1] eqn:Hauth
       end; try done.
  all: cbn in Htruthy; rewrite (Htruthy tok _ eq_refl); cbn; intros _.
  all: eexists _, _, _, tok, v; split; [exact Hauth|].
  all: split_and!; [exact (Htruthy tok _ eq_refl)|done..].
Qed.

End KycTurns.


Section KycTurnProperties.
Context (USERS_COLLECTION : string).


(** X18.  In a world a conversation can reach, a turn that leaves [kyc_step]
    where it was leaves the whole world where it was: session, stores and
    collection. *)
Theorem rejected_input_leaves_no_trace (t : turn) (m : string) (w : world) :
  reachable USERS_COLLECTION w →
  kyc_step (sess (handle_kyc USERS_COLLECTION t m w).2) = kyc_step (sess w) →
  (handle_kyc USERS_COLLECTION t m w).2 = w.
Proof.
  intros Hr. destruct (reachable_shape USERS_COLLECTION w Hr)
    as (z & kd & Hz & Hkd & Hrange & Hkeys & _).
  rewrite (handle_kyc_unfold USERS_COLLECTION t m w z kd Hz Hkd). rewrite Hz.
  destruct (auth_mode (sess w)) as [[|]|] eqn:Hmode; cbn [step_in_range] in Hrange.
  - destruct (Z.eqb_spec z 0) as [->|_]; [lia|].
    unfold handle_registration_flow.
    destruct (Z.eqb_spec z 1) as [->|?]; [by destruct (validate_name m)|].
    destruct (Z.eqb_spec z 2) as [->|?];
      [destruct (is_valid_email m); [|done]; by destruct (email_exists _ _ _ _)|].
    destruct (Z.eqb_spec z 3) as [->|?]; [by destruct (is_valid_mobile m)|].
    destruct (Z.eqb_spec z 4) as [->|?]; [by destruct (validate_faculty m)|].
    destruct (Z.eqb_spec z 5) as [->|?]; [|lia].
    destruct (is_valid_password m); [|done].
    by destruct (complete_user_registration _ _ _) as [[success message] w'].
  - destruct (Z.eqb_spec z 0) as [->|_]; [lia|].
    unfold handle_login_flow.
    destruct (Z.eqb_spec z 1) as [->|?]; [by destruct (is_valid_email m)|].
    destruct (Z.eqb_spec z 2) as [->|?]; [|lia].
    destruct (proj2 (Hkeys "email"%string)) as [e He];
      [apply list_elem_of_here|].
    rewrite lookup_insert_ne by done. rewrite He, lookup_insert_eq.
    destruct (attempt_user_login _ _ _ _) as [[[|] message] w1]; done.
  - subst z. cbn [Z.eqb].
    by destruct (detect_application_intent _ _) as [[|]|].
Qed.

(** X19.  In a world a conversation can reach, once the dialogue has left
    step 0 every message is taken by the dialogue (the first component of the
    reply is true, with an intent and a message), and the language model is
    not consulted: the turn is the same whatever the model would answer. *)
Theorem mid_flow_message_is_consumed (t : turn) (llm : llm_reply) (m : string) (w : world) :
  reachable USERS_COLLECTION w → kyc_step (sess w) ≠ Some 0 →
  let out := handle_kyc USERS_COLLECTION t m w in
  handle_kyc USERS_COLLECTION (mk_turn llm (t_now t) (t_salt t) (t_mongo t)) m w = out ∧
  ∃ intent message, out.1 = (true, Some intent, Some message).
Proof.
  intros Hr Hstep out. subst out.
  destruct (reachable_shape USERS_COLLECTION w Hr)
    as (z & kd & Hz & Hkd & Hrange & Hkeys & _).
  rewrite !(handle_kyc_unfold USERS_COLLECTION _ m w z kd Hz Hkd).
  destruct (Z.eqb_spec z 0) as [->|Hne]; [congruence|].
  destruct (auth_mode (sess w)) as [[|]|] eqn:Hmode; cbn [step_in_range] in Hrange;
    [| |done].
  - split; [done|].
    unfold handle_registration_flow.
    destruct (Z.eqb_spec z 1) as [->|?]; [destruct (validate_name m); eauto|].
    destruct (Z.eqb_spec z 2) as [->|?];
      [destruct (is_valid_email m); [|eauto]; destruct (email_exists _ _ _ _); eauto|].
    destruct (Z.eqb_spec z 3) as [->|?]; [destruct (is_valid_mobile m); eauto|].
    destruct (Z.eqb_spec z 4) as [->|?]; [destruct (validate_faculty m); eauto|].
    destruct (Z.eqb_spec z 5) as [->|?]; [|lia].
    destruct (is_valid_password m); [|eauto].
    destruct (complete_user_registration _ _ _) as [[success message] w']. eauto.
  - split; [done|].
    unfold handle_login_flow.
    destruct (Z.eqb_spec z 1) as [->|?]; [destruct (is_valid_email m); eauto|].
    destruct (Z.eqb_spec z 2) as [->|?]; [|lia].
    destruct (proj2 (Hkeys "email"%string)) as [e He];
      [apply list_elem_of_here|].
    rewrite lookup_insert_ne by done. rewrite He, lookup_insert_eq.
    destruct (attempt_user_login _ _ _ _) as [[[|] message] w1]; eauto.
Qed.

(** X20.  Which keys of the session a turn may change, in any world.  Unless
    the reply's intent is [login_complete], the keys [authenticated_user],
    [auth_token], [kyc] and [is_kyc_complete] are as before; unless it is
    [register_complete], the keys [jwt_token], [user_id], [email], [name] and
    [user_role] are as before; unless it is one of the two,
    [is_authenticated] is as before. *)
Theorem turn_touches_only_its_keys (t : turn) (m : string) (w : world) :
  let out := handle_kyc USERS_COLLECTION t m w in
  (out.1.1.2 ≠ Some "login_complete"%string →
   login_keys (sess out.2) = login_keys (sess w)) ∧
  (out.1.1.2 ≠ Some "register_complete"%string →
   registration_profile (sess out.2) = registration_profile (sess w)) ∧
  (out.1.1.2 ≠ Some "login_complete"%string →
   out.1.1.2 ≠ Some "register_complete"%string →
   is_authenticated (sess out.2) = is_authenticated (sess w)).
Proof.
  intros out. subst out.
  destruct (handle_kyc_defaults USERS_COLLECTION t m w)
    as (-> & Hset & <- & <- & <- & _).
  revert Hset. generalize (with_dialogue_defaults w). clear w.
  intros w (z & kd & Hz & Hkd).
  rewrite (handle_kyc_unfold USERS_COLLECTION t m w z kd Hz Hkd).
  destruct (Z.eqb_spec z 0) as [->|Hne].
  { by destruct (detect_application_intent _ _) as [[|]|]. }
  destruct (auth_mode (sess w)) as [[|]|]; [| |done].
  - unfold handle_registration_flow.
    repeat (case_match; try done).
    match goal with H : complete_user_registration ?t ?kd ?w0 = _ |- _ =>
      pose proof (complete_user_registration_login_keys t kd w0) as Hk;
      rewrite H in Hk end.
    split_and!; try done.
  - unfold handle_login_flow.
    destruct (z =? 1); [by destruct (is_valid_email m)|].
    destruct (z =? 2); [|done].
    destruct (_ !! "email"%string) as [e|]; [|done].
    rewrite lookup_insert_eq.
    match goal with |- context [attempt_user_login ?t ?e ?p ?w0] =>
      pose proof (attempt_user_login_profile t e p w0) as Hp;
      pose proof (attempt_user_login_failure t e p w0) as Hf;
      destruct (attempt_user_login t e p w0) as [[success message] w1] end.
    destruct success; [done|].
    cbn in Hf. split_and!; try done.
    all: intros; cbn; by rewrite Hf.
Qed.

(** X21.  Over a store whose users carry [ObjectId]s, a completed login does
    not survive the first question to the middleware: after a turn whose
    intent is [login_complete] the flag is set, but [get_current_user], at
    any clock reading, returns nothing and clears the session, and
    [has_permission] denies the role [user]. *)
Theorem login_is_undone_by_middleware (t : turn) (m : string) (w : world)
    (mongo : mongo_status) (now : Z) :
  objectid_users (db w) →
  let out := handle_kyc USERS_COLLECTION t m w in
  out.1.1.2 = Some "login_complete"%string →
  is_authenticated (sess out.2) = true ∧
  AuthMiddleware.get_current_user mongo now (db out.2) (sess out.2)
  = (None, AuthMiddleware.clear_auth_session (sess out.2)) ∧
  (AuthMiddleware.has_permission mongo now (db out.2) USER (sess out.2)).1 = false.
Proof.
  intros Hids out Hdone. subst out.
  destruct (handle_kyc_login_complete USERS_COLLECTION t m w Hdone)
    as (sid & e & p & tok & v & Hauth & Htruthy & Hflag & Huser & Htok & _).
  pose proof (authenticate_user_objectid_users (t_mongo t) (t_now t) sid e p (db w) Hids)
    as Hids'.
  rewrite Hauth in Hids'. cbn [snd] in Hids'.
  pose proof (verify_token_objectid_users mongo now tok _ Hids') as Hver.
  assert (AuthMiddleware.get_current_user mongo now
            (db (handle_kyc USERS_COLLECTION t m w).2)
            (sess (handle_kyc USERS_COLLECTION t m w).2)
          = (None, AuthMiddleware.clear_auth_session
                     (sess (handle_kyc USERS_COLLECTION t m w).2))) as Hcur.
  { unfold AuthMiddleware.get_current_user.
    by rewrite Hflag, Huser, Htok, Htruthy, Hver. }
  split; [done|]. split; [done|].
  unfold AuthMiddleware.has_permission, AuthMiddleware.get_user_role.
  by rewrite Hcur.
Qed.


End KycTurnProperties.




Section KycRoundTrip.
Context (USERS_COLLECTION : string).


End KycRoundTrip.

(* ===================================================================== *)
(** * Properties: the keyword fallback and the reply markers *)
(* ===================================================================== *)

(** ** Strings *)







Lemma prefix_app (n h b : string) :
  String.prefix n h = true → String.prefix n (h +:+ b) = true.
Proof.
  revert h. induction n as [|a n IH]; intros h; [by destruct h, b|].
  destruct h as [|a' h]; [by simpl|]. rewrite sapp_cons. simpl.
  destruct (Ascii.ascii_dec a a'); [apply IH|done].
Qed.

Lemma contains_cons (n : string) (c : ascii) (h : string) :
  Py.contains n (String c h) = String.prefix n (String c h) || Py.contains n h.
Proof. done. Qed.

Lemma contains_app_r (n h b : string) :
  Py.contains n h = true → Py.contains n (h +:+ b) = true.
Proof.
  induction h as [|c h IH].
  - simpl. rewrite orb_false_r. intros Hn. destruct n; [|done].
    by destruct b.
  - rewrite sapp_cons, !contains_cons. intros [Hp|Hc]%orb_true_iff.
    + rewrite <- sapp_cons. by rewrite (prefix_app n (String c h) b Hp).
    + rewrite (IH Hc). apply orb_true_r.
Qed.

Lemma contains_app_l (n a h : string) :
  Py.contains n h = true → Py.contains n (a +:+ h) = true.
Proof.
  intros Hc. induction a as [|c a IH]; [done|].
  rewrite sapp_cons, contains_cons, IH. apply orb_true_r.
Qed.

(** ** The fallback and the markers *)


(** X25.  [extract_kyc_variables_from_response] returns, for each of the two
    variables, whether its [=true] marker occurs in the text; the [=false]
    markers have no effect.  A flag that is set for a text is set for every
    text that contains it. *)
Theorem extract_kyc_variables_true_wins (response_text before after : string) :
  extract_kyc_variables_from_response response_text
  = (Py.contains "COMPLETION_STATUS=true" response_text,
     Py.contains "SHOW_REGISTER_BUTTON=true" response_text) ∧
  ((extract_kyc_variables_from_response response_text).1 = true →
   (extract_kyc_variables_from_response (before +:+ response_text +:+ after)).1 = true) ∧
  ((extract_kyc_variables_from_response response_text).2 = true →
   (extract_kyc_variables_from_response (before +:+ response_text +:+ after)).2 = true).
Proof.
  assert (∀ s, extract_kyc_variables_from_response s
               = (Py.contains "COMPLETION_STATUS=true" s,
                  Py.contains "SHOW_REGISTER_BUTTON=true" s)) as Hex.
  { intros s. unfold extract_kyc_variables_from_response.
    destruct (Py.contains "COMPLETION_STATUS=true" s),
             (Py.contains "SHOW_REGISTER_BUTTON=true" s);
      repeat case_match; done. }
  split; [apply Hex|]. rewrite !Hex. cbn [fst snd].
  split; intros Hc; by apply contains_app_l, contains_app_r.
Qed.

(* ===================================================================== *)
(** * The properties above at the sample data *)
(* ===================================================================== *)


(** X9 at the store that holds Ann's session, when a token is issued to
    Jane. *)
Lemma issuance_leaves_other_users_witness :
  sessions_of "u-ann" (AuthService.generate_jwt_token MongoUp 2000 "conv-9" jane_doc
                         ann_issue.2).2
  = sessions_of "u-ann" ann_issue.2 ∧
  sessions_of "u-ann" ann_issue.2 ≠ [].
Proof.
  split; [|discriminate].
  destruct (issuance_leaves_other_users 2000 "conv-9" jane_doc ann_issue.2 "u-ann")
    as (H & _).
  - vm_compute. apply NoDup_singleton.
  - discriminate.
  - exact H.
Defined.

(** X10 at Ann's token. *)
Lemma verify_token_sound_witness :
  ∃ v, AuthService.verify_token MongoUp 1000 ann_token ann_issue.2 = Some v ∧
       ∃ s u, s ∈ sessions_collection ann_issue.2 ∧ sd_token s = ann_token ∧
              u ∈ users_collection ann_issue.2 ∧ u_id u = StrId (sd_user_id s) ∧
              v_email v = u_email u.
Proof.
  destruct (AuthService.verify_token MongoUp 1000 ann_token ann_issue.2) as [v|] eqn:Hv;
    [|vm_compute in Hv; discriminate].
  exists v. split; [reflexivity|].
  destruct (verify_token_sound MongoUp 1000 ann_token ann_issue.2 v Hv)
    as (payload & s & u & _ & _ & Hs & Ht & _ & _ & Hu & Hid & _ & _ & _ & He & _).
  exists s, u. split_and!; assumption.
Defined.


(** X18 at registration step 2, for a message that is not an email. *)
Lemma rejected_input_leaves_no_trace_witness :
  (handle_kyc "fue.users" (turn_up LlmRaises) "jane at example" jane_again_world).2
  = jane_again_world.
Proof.
  apply rejected_input_leaves_no_trace.
  - apply reachable_run. apply reach_start.
  - reflexivity.
Defined.

(** X19 at registration step 2: a message that the model would classify as
    a login request is handled as an email all the same. *)
Lemma mid_flow_message_is_consumed_witness :
  handle_kyc "fue.users" (mk_turn (LlmContent "LOGIN") 1000 7 MongoUp) "I want to login"
    jane_again_world
  = handle_kyc "fue.users" (turn_up LlmRaises) "I want to login" jane_again_world ∧
  ∃ intent message,
    (handle_kyc "fue.users" (turn_up LlmRaises) "I want to login" jane_again_world).1
    = (true, Some intent, Some message).
Proof.
  apply (mid_flow_message_is_consumed "fue.users" (turn_up LlmRaises) (LlmContent "LOGIN")
           "I want to login" jane_again_world).
  - apply reachable_run. apply reach_start.
  - discriminate.
Defined.

(** X21 at Jane, who registered through the dialogue and logs in from a
    later conversation. *)
Lemma login_is_undone_by_middleware_witness :
  let out := handle_kyc "fue.users" (turn_later LlmRaises) "Passw0rd" jane_login_world in
  out.1.1.2 = Some "login_complete"%string ∧
  is_authenticated (sess out.2) = true ∧
  AuthMiddleware.get_current_user MongoUp 2001 (db out.2) (sess out.2)
  = (None, AuthMiddleware.clear_auth_session (sess out.2)).
Proof.
  assert ((handle_kyc "fue.users" (turn_later LlmRaises) "Passw0rd" jane_login_world).1.1.2
          = Some "login_complete"%string) as Hdone by (vm_compute; reflexivity).
  split; [exact Hdone|].
  destruct (login_is_undone_by_middleware "fue.users" (turn_later LlmRaises) "Passw0rd"
              jane_login_world MongoUp 2001) as (Hflag & Hcur & _).
  - intros u Hu. change (u ∈ [jane_doc]) in Hu.
    apply list_elem_of_singleton in Hu. subst u. exists 1%N. reflexivity.
  - exact Hdone.
  - split; [exact Hflag|exact Hcur].
Defined.


